(** * OptiTrack.py: the motion-capture export decoder

    A shallow embedding of [src/python/OptiTrack.py]: the row dispatcher
    [Run.ReadFile] and the record constructors [Frame], [TrackableFrame],
    [Trackable], [TrackableState], [Marker], [TrackableMarker], [Position],
    [QRot] and [ERot].

    A csv row is a Python list of [str]; the decoders index it ([fields[i]]),
    slice it ([fields[a:b]]) and convert single fields with the built-ins
    [int] and [float].  Python exceptions are modelled by an error monad;
    the mutable [Run] object by explicit state passing. *)

From Stdlib Require Import ZArith List String Ascii Bool Lia QArith.
From Equations Require Import Equations.
Import ListNotations.

Local Open Scope string_scope.
Local Open Scope list_scope.
Local Open Scope Z_scope.

(** ** Python exceptions *)

(** The built-in a malformed literal was handed to: [int] or [float]. *)
Inductive numtype : Type := TInt | TFloat.

(** The exceptions the module can raise.  [ValueError expected raw] is the
    exception that the built-in [expected] raises on the text [raw]: its
    message names the built-in and quotes the text, of which Python keeps
    200 characters at most, and holds nothing else.  [Exception] is the bare
    [Exception(msg)] of the [Frame] and [Trackable] constructors.
    [StopIteration] is raised by [fp.next()] on an exhausted reader. *)
Inductive exn : Type :=
| IndexError
| ValueError (expected : numtype) (raw : string)
| Exception (msg : string)
| StopIteration.

Inductive result (A : Type) : Type :=
| OK (a : A)
| Raise (e : exn).
Arguments OK {A} a.
Arguments Raise {A} e.

Definition bind {A B : Type} (c : result A) (k : A -> result B) : result B :=
  match c with
  | OK a => k a
  | Raise e => Raise e
  end.

Notation "x <- c ;; k" := (bind c (fun x => k))
  (at level 61, c at next level, right associativity).
Notation "' pat <- c ;; k" := (bind c (fun x => match x with pat => k end))
  (at level 61, pat pattern, c at next level, right associativity).

(** ** Python lists and strings *)

Definition row : Type := list string.

(** [l[i]]: a negative index counts from the end, an index outside
    [-len, len) raises [IndexError]. *)
Definition getitem {A : Type} (l : list A) (i : Z) : result A :=
  let n := Z.of_nat (List.length l) in
  let j := if i <? 0 then i + n else i in
  if (0 <=? j) && (j <? n) then
    match nth_error l (Z.to_nat j) with
    | Some a => OK a
    | None => Raise IndexError
    end
  else Raise IndexError.

(** [l[a:b]]: bounds are clipped to the list, never an error. *)
Definition clip (n i : Z) : Z :=
  if i <? 0 then Z.max 0 (i + n) else Z.min i n.

Definition getslice {A : Type} (l : list A) (a b : Z) : list A :=
  let n := Z.of_nat (List.length l) in
  let a' := clip n a in
  let b' := clip n b in
  firstn (Z.to_nat (b' - a')) (skipn (Z.to_nat a') l).

(** [str.lower()] on byte strings: the letters A to Z are mapped. *)
Definition lower_ascii (c : ascii) : ascii :=
  let n := nat_of_ascii c in
  if (Nat.leb 65 n && Nat.leb n 90)%bool then ascii_of_nat (n + 32) else c.

Fixpoint lower (s : string) : string :=
  match s with
  | EmptyString => EmptyString
  | String c s' => String (lower_ascii c) (lower s')
  end.

(** [for i in range(n): s = body(i, s)], stopping at the first exception.
    [for_range] runs [k] iterations from index [i]. *)
Fixpoint for_range {S : Type} (k : nat) (i : Z)
         (body : Z -> S -> result S) (s : S) : result S :=
  match k with
  | O => OK s
  | Datatypes.S k' => s' <- body i s ;; for_range k' (i + 1) body s'
  end.

Definition for_in_range {S : Type} (n : Z)
           (body : Z -> S -> result S) (s : S) : result S :=
  for_range (Z.to_nat n) 0 body s.

(** ** Module constants *)

Inductive handedness : Type := LEFT_HANDED | RIGHT_HANDED.

(** Trackable state vector length. *)
Definition TSL : Z := 11.
(** Marker state vector length. *)
Definition MSL : Z := 3.

Definition Frame_tag_error : string :=
  "You attempted to make a frame from something that is not frame data.".
Definition Trackable_tag_error : string :=
  "You attempted to make a trackable object from data that does not represent a trackable.".

(** ** Plain decimal literals

  A reader of plain decimal literals, used to run the decoders on
  concrete rows: an optional sign, digits, and for [float_literal] at
  most one point.  Every literal it accepts is accepted by Python's
  [int], respectively [float]; a rational stands for the floating-point
  value, the exact one where Python rounds to a double. *)
Module Literals.

Definition digit_of (c : ascii) : option Z :=
  let n := nat_of_ascii c in
  if (Nat.leb 48 n && Nat.leb n 57)%bool then Some (Z.of_nat (n - 48))
  else None.

Fixpoint digits (s : string) (acc : Z) : option Z :=
  match s with
  | EmptyString => Some acc
  | String c s' =>
    match digit_of c with
    | Some d => digits s' (10 * acc + d)
    | None => None
    end
  end.

Definition unsigned (s : string) : option Z :=
  match s with
  | EmptyString => None
  | _ => digits s 0
  end.

Definition int_literal (s : string) : option Z :=
  match s with
  | String "-"%char s' => option_map Z.opp (unsigned s')
  | String "+"%char s' => unsigned s'
  | _ => unsigned s
  end.

(** Digits after the point: [num / den] so far. *)
Fixpoint fraction (s : string) (num : Z) (den : positive) (seen : bool)
  : option Q :=
  match s with
  | EmptyString => if seen then Some (Qred (num # den)) else None
  | String c s' =>
    match digit_of c with
    | Some d => fraction s' (10 * num + d) (10 * den) true
    | None => None
    end
  end.

(** Digits before the point; [seen] tells whether a digit was read. *)
Fixpoint mantissa (s : string) (num : Z) (seen : bool) : option Q :=
  match s with
  | EmptyString => if seen then Some (num # 1) else None
  | String "."%char s' => fraction s' num 1 seen
  | String c s' =>
    match digit_of c with
    | Some d => mantissa s' (10 * num + d) true
    | None => None
    end
  end.

Definition float_literal (s : string) : option Q :=
  match s with
  | String "-"%char s' => option_map Qopp (mantissa s' 0 false)
  | String "+"%char s' => mantissa s' 0 false
  | _ => mantissa s 0 false
  end.

End Literals.

Section Decoder.

(** The built-ins [int] and [float] are not part of the module: the
    decoders are parametric in the literals they accept and in the type of
    floating-point values. *)
Variable Float : Type.
Variable int_of_str : string -> option Z.
Variable float_of_str : string -> option Float.

Definition py_int (s : string) : result Z :=
  match int_of_str s with
  | Some z => OK z
  | None => Raise (ValueError TInt s)
  end.

Definition py_float (s : string) : result Float :=
  match float_of_str s with
  | Some x => OK x
  | None => Raise (ValueError TFloat s)
  end.

(** [int(fields[i])] and [float(fields[i])]. *)
Definition int_at (fields : row) (i : Z) : result Z :=
  s <- getitem fields i ;; py_int s.

Definition float_at (fields : row) (i : Z) : result Float :=
  s <- getitem fields i ;; py_float s.

(** ** Leaf value objects *)

Record Position : Type := mkPosition {
  x : Float; y : Float; z : Float }.

Record QRot : Type := mkQRot {
  qx : Float; qy : Float; qz : Float; qw : Float }.

Record ERot : Type := mkERot {
  yaw : Float; pitch : Float; roll : Float }.

Definition Position_init (fields : row) : result Position :=
  x <- float_at fields 0 ;;
  y <- float_at fields 1 ;;
  z <- float_at fields 2 ;;
  OK (mkPosition x y z).

Definition QRot_init (fields : row) : result QRot :=
  qx <- float_at fields 0 ;;
  qy <- float_at fields 1 ;;
  qz <- float_at fields 2 ;;
  qw <- float_at fields 3 ;;
  OK (mkQRot qx qy qz qw).

Definition ERot_init (fields : row) : result ERot :=
  yaw <- float_at fields 0 ;;
  pitch <- float_at fields 1 ;;
  roll <- float_at fields 2 ;;
  OK (mkERot yaw pitch roll).

(** [Marker.id] is [None] or the raw field text. *)
Record Marker : Type := mkMarker {
  marker_id : option string;
  marker_pos : Position }.

Definition Marker_init (id : option string) (pos : row) : result Marker :=
  p <- Position_init pos ;;
  OK (mkMarker id p).

(** [TrackableMarker] extends [Marker]; [tracked] and [quality] are kept
    as the raw field text. *)
Record TrackableMarker : Type := mkTrackableMarker {
  tm_marker : Marker;
  tracked : string;
  quality : string }.

Definition TrackableMarker_init (id : option string) (pos : row)
           (tracked quality : string) : result TrackableMarker :=
  m <- Marker_init id pos ;;
  OK (mkTrackableMarker m tracked quality).

Record TrackableState : Type := mkTrackableState {
  ts_id : Z;
  ts_pos : Position;
  ts_qrot : QRot;
  ts_erot : ERot }.

Definition TrackableState_init (fields : row) : result TrackableState :=
  id <- int_at fields 0 ;;
  pos <- Position_init (getslice fields 1 4) ;;
  qrot <- QRot_init (getslice fields 4 8) ;;
  erot <- ERot_init (getslice fields 8 11) ;;
  OK (mkTrackableState id pos qrot erot).

(** ** Trackable *)

Record Trackable : Type := mkTrackable {
  t_name : string;
  t_id : Z;
  t_num_markers : Z;
  t_markers : list Position }.

(** One pass of the marker loop; the loop state is [(self.markers, idx)]. *)
Definition Trackable_body (fields : row) (i : Z)
           (st : list Position * Z) : result (list Position * Z) :=
  let '(markers, idx) := st in
  p <- Position_init (getslice fields idx (idx + MSL)) ;;
  OK (markers ++ [p], idx + MSL).

(** The constructor together with the value of [idx] it ends with. *)
Definition Trackable_run (fields : row) : result (Trackable * Z) :=
  tag <- getitem fields 0 ;;
  if negb (String.eqb (lower tag) "trackable") then
    Raise (Exception Trackable_tag_error)
  else
    name <- getitem fields 1 ;;
    id <- int_at fields 2 ;;
    num_markers <- int_at fields 3 ;;
    '(markers, idx) <-
      for_in_range num_markers (Trackable_body fields) ([], 4) ;;
    OK (mkTrackable name id num_markers markers, idx).

Definition Trackable_init (fields : row) : result Trackable :=
  '(t, _) <- Trackable_run fields ;; OK t.

(** ** Frame *)

Record Frame : Type := mkFrame {
  f_index : Z;
  f_timestamp : Float;
  f_trackable_count : Z;
  f_trackable_states : list TrackableState;
  f_marker_count : Z;
  f_markers : list Marker }.

(** The trackable-state loop; the loop state is
    [(self.trackable_states, idx)]. *)
Definition Frame_states_body (fields : row) (i : Z)
           (st : list TrackableState * Z)
  : result (list TrackableState * Z) :=
  let '(states, idx) := st in
  s <- TrackableState_init (getslice fields idx (idx + TSL)) ;;
  OK (states ++ [s], idx + TSL).

(** The marker loop; the loop state is [(self.markers, idx)]. *)
Definition Frame_markers_body (fields : row) (i : Z)
           (st : list Marker * Z) : result (list Marker * Z) :=
  let '(markers, idx) := st in
  id <- getitem fields (idx + MSL) ;;
  m <- Marker_init (Some id) (getslice fields idx (idx + MSL)) ;;
  OK (markers ++ [m], idx + 4).

(** The constructor together with the value of [idx] it ends with. *)
Definition Frame_run (fields : row) : result (Frame * Z) :=
  tag <- getitem fields 0 ;;
  if negb (String.eqb (lower tag) "frame") then
    Raise (Exception Frame_tag_error)
  else
    index <- int_at fields 1 ;;
    timestamp <- float_at fields 2 ;;
    trackable_count <- int_at fields 3 ;;
    let idx := 4 in
    '(states, idx) <-
      (if trackable_count >? 0 then
         for_in_range trackable_count (Frame_states_body fields) ([], idx)
       else OK ([], idx)) ;;
    marker_count <- int_at fields idx ;;
    let idx := idx + 1 in
    '(markers, idx) <-
      for_in_range marker_count (Frame_markers_body fields) ([], idx) ;;
    OK (mkFrame index timestamp trackable_count states marker_count markers,
        idx).

Definition Frame_init (fields : row) : result Frame :=
  '(f, _) <- Frame_run fields ;; OK f.

(** ** TrackableFrame *)

Record TrackableFrame : Type := mkTrackableFrame {
  tf_index : Z;
  tf_timestamp : Float;
  tf_name : string;
  tf_id : Z;
  tf_last_tracked : Z;
  tf_marker_count : Z;
  tf_markers : list TrackableMarker;
  tf_ptcld_markers : list Marker;
  tf_mean_error : Float }.

(** Where the first loop looks up [tracked] and [quality] for marker [i],
    as written in the source: relative to the running [idx]. *)
Definition tracked_offset (marker_count idx i : Z) : Z :=
  idx + (marker_count - i) * MSL + marker_count * MSL + i.

Definition quality_offset (marker_count idx i : Z) : Z :=
  idx + (marker_count - i) * MSL + marker_count * MSL + marker_count + i.

(** The trackable-marker loop; the loop state is [(self.markers, idx)]. *)
Definition TrackableFrame_markers_body (fields : row) (marker_count : Z)
           (i : Z) (st : list TrackableMarker * Z)
  : result (list TrackableMarker * Z) :=
  let '(markers, idx) := st in
  tracked <- getitem fields (tracked_offset marker_count idx i) ;;
  quality <- getitem fields (quality_offset marker_count idx i) ;;
  m <- TrackableMarker_init None (getslice fields idx (idx + MSL))
                            tracked quality ;;
  OK (markers ++ [m], idx + MSL).

(** The point-cloud loop; the loop state is [(self.ptcld_markers, idx)]. *)
Definition TrackableFrame_ptcld_body (fields : row) (i : Z)
           (st : list Marker * Z) : result (list Marker * Z) :=
  let '(ptcld, idx) := st in
  m <- Marker_init None (getslice fields idx (idx + MSL)) ;;
  OK (ptcld ++ [m], idx + MSL).

(** The constructor together with the value of [idx] after the first
    loop and after the second. *)
Definition TrackableFrame_run (fields : row)
  : result (TrackableFrame * Z * Z) :=
  index <- int_at fields 1 ;;
  timestamp <- float_at fields 2 ;;
  name <- getitem fields 3 ;;
  id <- int_at fields 4 ;;
  last_tracked <- int_at fields 5 ;;
  marker_count <- int_at fields 6 ;;
  let idx := 7 in
  '(markers, idx1) <-
    for_in_range marker_count
                 (TrackableFrame_markers_body fields marker_count)
                 ([], idx) ;;
  '(ptcld, idx2) <-
    for_in_range marker_count (TrackableFrame_ptcld_body fields)
                 ([], idx1) ;;
  mean_error <- float_at fields (idx2 + 2 * marker_count) ;;
  OK (mkTrackableFrame index timestamp name id last_tracked marker_count
                       markers ptcld mean_error, idx1, idx2).

Definition TrackableFrame_init (fields : row) : result TrackableFrame :=
  '(tf, _, _) <- TrackableFrame_run fields ;; OK tf.

(** ** Run *)

Record Run : Type := mkRun {
  trackables : list Trackable;
  frames : list Frame;
  trackable_frames : list TrackableFrame;
  coord_type : handedness;
  framecount : Z;
  trackablecount : Z }.

(** [Run.__init__]. *)
Definition Run_init : Run := mkRun [] [] [] RIGHT_HANDED 0 0.

Definition set_coord_type (self : Run) (c : handedness) : Run :=
  mkRun (trackables self) (frames self) (trackable_frames self)
        c (framecount self) (trackablecount self).

Definition set_framecount (self : Run) (n : Z) : Run :=
  mkRun (trackables self) (frames self) (trackable_frames self)
        (coord_type self) n (trackablecount self).

Definition set_trackablecount (self : Run) (n : Z) : Run :=
  mkRun (trackables self) (frames self) (trackable_frames self)
        (coord_type self) (framecount self) n.

Definition append_trackable (self : Run) (t : Trackable) : Run :=
  mkRun (trackables self ++ [t]) (frames self) (trackable_frames self)
        (coord_type self) (framecount self) (trackablecount self).

Definition append_frame (self : Run) (f : Frame) : Run :=
  mkRun (trackables self) (frames self ++ [f]) (trackable_frames self)
        (coord_type self) (framecount self) (trackablecount self).

Definition append_trackable_frame (self : Run) (tf : TrackableFrame) : Run :=
  mkRun (trackables self) (frames self) (trackable_frames self ++ [tf])
        (coord_type self) (framecount self) (trackablecount self).

(** The object and the reader are mutated in place, so what has been done
    before an exception stays done: a computation of [ReadFile] yields the
    [Run], the rows still unread, and the pending exception if any. *)
Definition outcome : Type := Run * list row * option exn.

(** [for i in range(self.trackablecount):
       self.trackables.append(Trackable(fp.next()))], [k] iterations. *)
Fixpoint read_trackables (k : nat) (self : Run) (fp : list row) : outcome :=
  match k with
  | O => (self, fp, None)
  | S k' =>
    match fp with
    | [] => (self, fp, Some StopIteration)
    | fields :: fp' =>
      match Trackable_init fields with
      | Raise e => (self, fp', Some e)
      | OK t => read_trackables k' (append_trackable self t) fp'
      end
    end
  end.

(** The [info] branch. *)
Definition dispatch_info (self : Run) (fields : row) (fp : list row)
  : outcome :=
  match getitem fields 1 with
  | Raise e => (self, fp, Some e)
  | OK key =>
    if String.eqb (lower key) "framecount" then
      match int_at fields 2 with
      | Raise e => (self, fp, Some e)
      | OK n => (set_framecount self n, fp, None)
      end
    else if String.eqb (lower key) "trackablecount" then
      match int_at fields 2 with
      | Raise e => (self, fp, Some e)
      | OK n =>
        let self := set_trackablecount self n in
        if n >? 0 then read_trackables (Z.to_nat n) self fp
        else (self, fp, None)
      end
    else (self, fp, None)
  end.

(** What the [else] branch does once [coord_type] has been set. *)
Definition dispatch_record (tag : string) (self : Run) (fields : row)
           (fp : list row) : outcome :=
  if String.eqb (lower tag) "info" then dispatch_info self fields fp
  else if String.eqb (lower tag) "frame" then
    match Frame_init fields with
    | Raise e => (self, fp, Some e)
    | OK f => (append_frame self f, fp, None)
    end
  else if String.eqb (lower tag) "trackable" then
    match TrackableFrame_init fields with
    | Raise e => (self, fp, Some e)
    | OK tf => (append_trackable_frame self tf, fp, None)
    end
  else (self, fp, None).

(** The body of the [while] loop for the row [fields] just read; [fp] is
    the reader after that row.  [fields[0].lower()] is evaluated once
    here: it raises on the first test or on none. *)
Definition dispatch (self : Run) (fields : row) (fp : list row) : outcome :=
  match getitem fields 0 with
  | Raise e => (self, fp, Some e)
  | OK tag =>
    if String.eqb (lower tag) "comment" then (self, fp, None)
    else if String.eqb (lower tag) "righthanded" then
      (set_coord_type self RIGHT_HANDED, fp, None)
    else
      dispatch_record tag (set_coord_type self LEFT_HANDED) fields fp
  end.

Definition inspect {A : Type} (a : A) : {b : A | a = b} :=
  exist _ a eq_refl.

(** The reader only moves forward. *)
Lemma read_trackables_rest k self fp self' fp' e :
  read_trackables k self fp = (self', fp', e) ->
  (List.length fp' <= List.length fp)%nat.
Proof.
  revert self fp.
  induction k as [|k IH]; intros self fp H; simpl in H.
  - injection H as <- <- <-. lia.
  - destruct fp as [|fields rest].
    + injection H as <- <- <-. lia.
    + destruct (Trackable_init fields).
      * apply IH in H. simpl. lia.
      * injection H as <- <- <-. simpl. lia.
Qed.

Lemma dispatch_rest self fields fp self' fp' e :
  dispatch self fields fp = (self', fp', e) ->
  (List.length fp' <= List.length fp)%nat.
Proof.
  unfold dispatch, dispatch_record, dispatch_info.
  intros H.
  repeat match type of H with
         | (match ?c with _ => _ end) = _ => destruct c
         | (if ?c then _ else _) = _ => destruct c
         end;
    try (injection H as <- <- <-; lia).
  eapply read_trackables_rest; eassumption.
Qed.

(** [while(1): fields = fp.next(); ...]: the loop is left only by an
    exception, [StopIteration] at the latest. *)
Equations? ReadFile_loop (self : Run) (fp : list row) : Run * exn
  by wf (List.length fp) lt :=
  ReadFile_loop self [] := (self, StopIteration);
  ReadFile_loop self (fields :: fp) with inspect (dispatch self fields fp) := {
    | exist _ (self', fp', Some e) _ := (self', e);
    | exist _ (self', fp', None) Heq := ReadFile_loop self' fp' }.
Proof.
  apply dispatch_rest in Heq. simpl. lia.
Qed.

(** [Run.ReadFile] on the rows of the opened file: [StopIteration] is
    caught and ends the load, any other exception reaches the caller. *)
Definition ReadFile (self : Run) (fp : list row) : Run * option exn :=
  match ReadFile_loop self fp with
  | (self', StopIteration) => (self', None)
  | (self', e) => (self', Some e)
  end.

(** ** The record layouts in closed form

    What the cursor arithmetic of the constructors amounts to, written
    with absolute field offsets. *)

(** A [Position] from the three fields at [i], [i+1], [i+2] of the row. *)
Definition Position_at (fields : row) (i : Z) : result Position :=
  x <- float_at fields i ;;
  y <- float_at fields (i + 1) ;;
  z <- float_at fields (i + 2) ;;
  OK (mkPosition x y z).

Definition QRot_at (fields : row) (i : Z) : result QRot :=
  qx <- float_at fields i ;;
  qy <- float_at fields (i + 1) ;;
  qz <- float_at fields (i + 2) ;;
  qw <- float_at fields (i + 3) ;;
  OK (mkQRot qx qy qz qw).

Definition ERot_at (fields : row) (i : Z) : result ERot :=
  yaw <- float_at fields i ;;
  pitch <- float_at fields (i + 1) ;;
  roll <- float_at fields (i + 2) ;;
  OK (mkERot yaw pitch roll).

(** A [TrackableState] from the 11 fields starting at [i]. *)
Definition TrackableState_at (fields : row) (i : Z) : result TrackableState :=
  id <- int_at fields i ;;
  pos <- Position_at fields (i + 1) ;;
  qrot <- QRot_at fields (i + 4) ;;
  erot <- ERot_at fields (i + 8) ;;
  OK (mkTrackableState id pos qrot erot).

(** The shape of every loop body of the module: read one item at the
    cursor, append it, advance the cursor by a fixed stride. *)
Definition cursor_body {A : Type} (read : Z -> Z -> result A) (stride : Z)
           (i : Z) (st : list A * Z) : result (list A * Z) :=
  let '(acc, idx) := st in
  a <- read i idx ;;
  OK (acc ++ [a], idx + stride).

(** The items read by [k] such iterations from index [i], cursor [idx]. *)
Fixpoint collect {A : Type} (read : Z -> Z -> result A) (stride : Z)
         (k : nat) (i idx : Z) : result (list A) :=
  match k with
  | O => OK []
  | S k' =>
    a <- read i idx ;;
    rest <- collect read stride k' (i + 1) (idx + stride) ;;
    OK (a :: rest)
  end.

Definition is_ok {A : Type} (r : result A) : bool :=
  match r with
  | OK _ => true
  | Raise _ => false
  end.

(** The offsets [a], [a+1], ..., [a+n-1]. *)
Definition offsets (a n : Z) : list Z :=
  map (fun k => a + Z.of_nat k) (seq 0 (Z.to_nat n)).

Definition all_float (fields : row) (a n : Z) : bool :=
  forallb (fun j => is_ok (float_at fields j)) (offsets a n).

Definition all_present (fields : row) (a n : Z) : bool :=
  forallb (fun j => is_ok (getitem fields j)) (offsets a n).

(** A [Marker] with the given id and the position at [i]. *)
Definition Marker_at (fields : row) (id : option string) (i : Z)
  : result Marker :=
  p <- Position_at fields i ;;
  OK (mkMarker id p).

(** *** Trackable rows: tag, name, id, count [N], then [N] positions of
    3 fields each from offset 4. *)
Definition Trackable_layout (fields : row) : result (Trackable * Z) :=
  tag <- getitem fields 0 ;;
  if negb (String.eqb (lower tag) "trackable") then
    Raise (Exception Trackable_tag_error)
  else
    name <- getitem fields 1 ;;
    id <- int_at fields 2 ;;
    N <- int_at fields 3 ;;
    markers <- collect (fun _ c => Position_at fields c) 3 (Z.to_nat N) 0 4 ;;
    OK (mkTrackable name id N markers, 4 + 3 * Z.max 0 N).

Definition Trackable_wf (fields : row) : bool :=
  match getitem fields 0, int_at fields 3 with
  | OK tag, OK N =>
    String.eqb (lower tag) "trackable"
    && is_ok (getitem fields 1)
    && is_ok (int_at fields 2)
    && (0 <=? N)
    && all_float fields 4 (3 * N)
  | _, _ => false
  end.

(** *** Frame rows: tag, index, timestamp, count [T], [T] trackable states
    of 11 fields each from offset 4, count [M], then [M] groups of 4 fields:
    a position and the marker id. *)
Definition Frame_marker_at (fields : row) (c : Z) : result Marker :=
  id <- getitem fields (c + 3) ;;
  Marker_at fields (Some id) c.

Definition Frame_layout (fields : row) : result (Frame * Z) :=
  tag <- getitem fields 0 ;;
  if negb (String.eqb (lower tag) "frame") then
    Raise (Exception Frame_tag_error)
  else
    index <- int_at fields 1 ;;
    timestamp <- float_at fields 2 ;;
    T <- int_at fields 3 ;;
    states <- collect (fun _ c => TrackableState_at fields c) 11
                      (Z.to_nat T) 0 4 ;;
    let after := 4 + 11 * Z.max 0 T in
    M <- int_at fields after ;;
    markers <- collect (fun _ c => Frame_marker_at fields c) 4
                       (Z.to_nat M) 0 (after + 1) ;;
    OK (mkFrame index timestamp T states M markers,
        after + 1 + 4 * Z.max 0 M).

Definition TrackableState_wf (fields : row) (a : Z) : bool :=
  is_ok (int_at fields a) && all_float fields (a + 1) 10.

Definition Frame_marker_wf (fields : row) (c : Z) : bool :=
  all_float fields c 3 && is_ok (getitem fields (c + 3)).

Definition Frame_wf (fields : row) : bool :=
  match getitem fields 0, int_at fields 3 with
  | OK tag, OK T =>
    String.eqb (lower tag) "frame"
    && is_ok (int_at fields 1)
    && is_ok (float_at fields 2)
    && (0 <=? T)
    && forallb (fun k => TrackableState_wf fields (4 + 11 * k)) (offsets 0 T)
    && match int_at fields (4 + 11 * T) with
       | OK M =>
         (0 <=? M)
         && forallb (fun k => Frame_marker_wf fields (5 + 11 * T + 4 * k))
                    (offsets 0 M)
       | Raise _ => false
       end
  | _, _ => false
  end.

(** *** TrackableFrame rows: six header fields, count [M] at offset 6, then
    from [base = 7]: [M] trackable-marker positions, [M] point-cloud
    positions, [M] tracked fields, [M] quality fields, the mean error. *)
Definition TrackableMarker_at (fields : row) (M base i : Z)
  : result TrackableMarker :=
  tracked <- getitem fields (base + 6 * M + i) ;;
  quality <- getitem fields (base + 7 * M + i) ;;
  m <- Marker_at fields None (base + 3 * i) ;;
  OK (mkTrackableMarker m tracked quality).

Definition TrackableFrame_layout (fields : row)
  : result (TrackableFrame * Z * Z) :=
  index <- int_at fields 1 ;;
  timestamp <- float_at fields 2 ;;
  name <- getitem fields 3 ;;
  id <- int_at fields 4 ;;
  last_tracked <- int_at fields 5 ;;
  M <- int_at fields 6 ;;
  let base := 7 in
  markers <- collect (fun i _ => TrackableMarker_at fields M base i) 3
                     (Z.to_nat M) 0 base ;;
  let idx1 := base + 3 * Z.max 0 M in
  ptcld <- collect (fun _ c => Marker_at fields None c) 3
                   (Z.to_nat M) 0 idx1 ;;
  let idx2 := idx1 + 3 * Z.max 0 M in
  mean_error <- float_at fields (idx2 + 2 * M) ;;
  OK (mkTrackableFrame index timestamp name id last_tracked M
                       markers ptcld mean_error, idx1, idx2).

Definition TrackableFrame_wf (fields : row) : bool :=
  match int_at fields 6 with
  | OK M =>
    is_ok (int_at fields 1)
    && is_ok (float_at fields 2)
    && is_ok (getitem fields 3)
    && is_ok (int_at fields 4)
    && is_ok (int_at fields 5)
    && (0 <=? M)
    && all_float fields 7 (6 * M)
    && all_present fields (7 + 6 * M) (2 * M)
    && is_ok (float_at fields (7 + 8 * M))
  | Raise _ => false
  end.

(** What a [ValueError] tells: a text found in the row, and the built-in
    that rejects it. *)
Definition names_rejected_field (fields : row) (e : exn) : Prop :=
  match e with
  | ValueError TInt raw => In raw fields /\ int_of_str raw = None
  | ValueError TFloat raw => In raw fields /\ float_of_str raw = None
  | _ => True
  end.

(** *** Rows with one field replaced

    The row [fields] with the text [raw] at offset [j], an offset of the
    row, in place of the text it had. *)
Definition replace_field (fields : row) (j : Z) (raw : string) : row :=
  firstn (Z.to_nat j) fields ++ raw :: skipn (S (Z.to_nat j)) fields.

(** The built-in [ty] does not accept the text. *)
Definition rejects (ty : numtype) (raw : string) : Prop :=
  match ty with
  | TInt => int_of_str raw = None
  | TFloat => float_of_str raw = None
  end.

(** The fields that the constructors pass to [int] or to [float], by
    offset: in the 11 fields of a [TrackableState] (the id, then position,
    quaternion and Euler angles), in a [Frame] row (index, timestamp, count
    [T], the [T] states, count [M], the three coordinates of each of the
    [M] groups of four) and in a [TrackableFrame] row (index, timestamp,
    id, last tracked frame, count [M], the [6 M] coordinates and the mean
    error).  The counts are those the row declares. *)
Definition TrackableState_numeric (j : Z) : option numtype :=
  if j =? 0 then Some TInt
  else if (1 <=? j) && (j <=? 10) then Some TFloat
  else None.

Definition Frame_numeric (fields : row) (j : Z) : option numtype :=
  if (j =? 1) || (j =? 3) then Some TInt
  else if j =? 2 then Some TFloat
  else
    match int_at fields 3 with
    | OK T =>
      if (4 <=? j) && (j <? 4 + 11 * T) then
        TrackableState_numeric ((j - 4) mod 11)
      else if j =? 4 + 11 * T then Some TInt
      else
        match int_at fields (4 + 11 * T) with
        | OK M =>
          if (5 + 11 * T <=? j) && (j <? 5 + 11 * T + 4 * M)
             && negb ((j - (5 + 11 * T)) mod 4 =? 3)
          then Some TFloat
          else None
        | Raise _ => None
        end
    | Raise _ => None
    end.

Definition TrackableFrame_numeric (fields : row) (j : Z) : option numtype :=
  if (j =? 1) || (j =? 4) || (j =? 5) || (j =? 6) then Some TInt
  else if j =? 2 then Some TFloat
  else
    match int_at fields 6 with
    | OK M =>
      if ((7 <=? j) && (j <? 7 + 6 * M)) || (j =? 7 + 8 * M)
      then Some TFloat
      else None
    | Raise _ => None
    end.

(** The offsets of a row other than [j]. *)
Definition kept_offset (j i : Z) : Prop := 0 <= i /\ i <> j.

(** ** Lemmas on Python lists *)

Lemma getitem_nonneg {A : Type} (l : list A) (i : Z) :
  0 <= i ->
  getitem l i = match nth_error l (Z.to_nat i) with
                | Some a => OK a
                | None => Raise IndexError
                end.
Proof.
  intros Hi. unfold getitem.
  destruct (Z.ltb_spec i 0) as [?|_]; [lia|].
  destruct (Z.leb_spec 0 i) as [_|?]; [|lia]. simpl.
  destruct (Z.ltb_spec i (Z.of_nat (List.length l))) as [?|Hge]; [reflexivity|].
  assert (Hnone : nth_error l (Z.to_nat i) = None)
    by (apply nth_error_None; lia).
  now rewrite Hnone.
Qed.

Lemma getitem_in_range {A : Type} (l : list A) (i : Z) :
  0 <= i < Z.of_nat (List.length l) -> exists a, getitem l i = OK a.
Proof.
  intros Hi. rewrite getitem_nonneg by lia.
  destruct (nth_error l (Z.to_nat i)) as [a|] eqn:E; [now exists a|].
  apply nth_error_None in E. lia.
Qed.

Lemma getitem_OK_range {A : Type} (l : list A) (i : Z) (a : A) :
  0 <= i -> getitem l i = OK a -> i < Z.of_nat (List.length l).
Proof.
  intros Hi H. rewrite getitem_nonneg in H by lia.
  destruct (nth_error l (Z.to_nat i)) eqn:E; [|discriminate].
  assert (Hs : nth_error l (Z.to_nat i) <> None) by congruence.
  apply nth_error_Some in Hs. lia.
Qed.

Lemma getitem_cons {A : Type} (a : A) (l : list A) (i : Z) :
  1 <= i -> getitem (a :: l) i = getitem l (i - 1).
Proof.
  intros Hi. rewrite !getitem_nonneg by lia.
  replace (Z.to_nat i) with (S (Z.to_nat (i - 1))) by lia.
  reflexivity.
Qed.

Lemma getitem_0 {A : Type} (a : A) (l : list A) : getitem (a :: l) 0 = OK a.
Proof. now rewrite getitem_nonneg by lia. Qed.

Lemma getitem_1 {A : Type} (a b : A) (l : list A) :
  getitem (a :: b :: l) 1 = OK b.
Proof. now rewrite getitem_nonneg by lia. Qed.

Lemma getitem_2 {A : Type} (a b c : A) (l : list A) :
  getitem (a :: b :: c :: l) 2 = OK c.
Proof. now rewrite getitem_nonneg by lia. Qed.

Lemma getitem_firstn {A : Type} (l : list A) (m : nat) (i : Z) :
  0 <= i < Z.of_nat m -> getitem (firstn m l) i = getitem l i.
Proof.
  intros Hi. rewrite !getitem_nonneg by lia.
  rewrite nth_error_firstn.
  destruct (Nat.ltb_spec (Z.to_nat i) m); [reflexivity|lia].
Qed.

Lemma getitem_getslice {A : Type} (l : list A) (a w k : Z) :
  0 <= a -> 0 <= k < w ->
  getitem (getslice l a (a + w)) k = getitem l (a + k).
Proof.
  intros Ha Hk. rewrite !getitem_nonneg by lia.
  unfold getslice, clip.
  destruct (Z.ltb_spec a 0); [lia|].
  destruct (Z.ltb_spec (a + w) 0); [lia|].
  rewrite nth_error_firstn, nth_error_skipn.
  set (n := Z.of_nat (List.length l)).
  destruct (Z.lt_ge_cases (a + k) n) as [Hin|Hout].
  - destruct (Nat.ltb_spec (Z.to_nat k)
                (Z.to_nat (Z.min (a + w) n - Z.min a n))); [|lia].
    replace (Z.to_nat (Z.min a n) + Z.to_nat k)%nat
      with (Z.to_nat (a + k)) by lia.
    reflexivity.
  - assert (Hnone : nth_error l (Z.to_nat (a + k)) = None)
      by (apply nth_error_None; lia).
    rewrite Hnone.
    destruct (Nat.ltb_spec (Z.to_nat k)
                (Z.to_nat (Z.min (a + w) n - Z.min a n))); [lia|reflexivity].
Qed.

Lemma getslice_cons {A : Type} (x0 : A) (l : list A) (a b : Z) :
  1 <= a -> 1 <= b ->
  getslice (x0 :: l) a b = getslice l (a - 1) (b - 1).
Proof.
  intros Ha Hb. unfold getslice, clip.
  change (List.length (x0 :: l)) with (S (List.length l)).
  destruct (Z.ltb_spec a 0); [lia|].
  destruct (Z.ltb_spec b 0); [lia|].
  destruct (Z.ltb_spec (a - 1) 0); [lia|].
  destruct (Z.ltb_spec (b - 1) 0); [lia|].
  set (n := List.length l).
  replace (Z.to_nat (Z.min a (Z.of_nat (S n))))
    with (S (Z.to_nat (Z.min (a - 1) (Z.of_nat n)))) by lia.
  simpl skipn. f_equal. lia.
Qed.

(** ** Lemmas on loops *)

Lemma for_range_ext {S : Type} (b1 b2 : Z -> S -> result S) :
  (forall i s, b1 i s = b2 i s) ->
  forall k i s, for_range k i b1 s = for_range k i b2 s.
Proof.
  intros Hb k. induction k as [|k IH]; intros i s; simpl; [reflexivity|].
  rewrite Hb. destruct (b2 i s); simpl; [apply IH|reflexivity].
Qed.

(** A cursor loop yields the collected items after what was there, and
    leaves the cursor [k] strides further. *)
Lemma for_range_cursor {A : Type} (read : Z -> Z -> result A) (stride : Z)
      (k : nat) :
  forall i acc idx,
    for_range k i (cursor_body read stride) (acc, idx) =
    (items <- collect read stride k i idx ;;
     OK (acc ++ items, idx + stride * Z.of_nat k)).
Proof.
  induction k as [|k IH]; intros i acc idx.
  - simpl. rewrite app_nil_r. do 2 f_equal. lia.
  - cbn [for_range collect cursor_body].
    destruct (read i idx) as [a|e]; simpl; [|reflexivity].
    rewrite IH.
    destruct (collect read stride k (i + 1) (idx + stride)) as [items|e];
      simpl; [|reflexivity].
    rewrite <- app_assoc. simpl. do 2 f_equal. lia.
Qed.

Lemma collect_length {A : Type} (read : Z -> Z -> result A) (stride : Z)
      (k : nat) :
  forall i idx items,
    collect read stride k i idx = OK items -> List.length items = k.
Proof.
  induction k as [|k IH]; intros i idx items H; simpl in H.
  - injection H as <-. reflexivity.
  - destruct (read i idx); simpl in H; [|discriminate].
    destruct (collect read stride k (i + 1) (idx + stride)) eqn:E;
      simpl in H; [|discriminate].
    injection H as <-. simpl. f_equal. eapply IH, E.
Qed.

(** Item [j] is what [read] returns at index [i + j], cursor
    [idx + stride * j]. *)
Lemma collect_nth {A : Type} (read : Z -> Z -> result A) (stride : Z)
      (k : nat) :
  forall i idx items,
    collect read stride k i idx = OK items ->
    forall j, (j < k)%nat ->
      exists a, nth_error items j = Some a /\
                read (i + Z.of_nat j) (idx + stride * Z.of_nat j) = OK a.
Proof.
  induction k as [|k IH]; intros i idx items H j Hj; [lia|].
  simpl in H.
  destruct (read i idx) as [a|] eqn:Ea; simpl in H; [|discriminate].
  destruct (collect read stride k (i + 1) (idx + stride)) as [rest|] eqn:E;
    simpl in H; [|discriminate].
  injection H as <-.
  destruct j as [|j].
  - exists a. split; [reflexivity|].
    replace (i + Z.of_nat 0) with i by lia.
    replace (idx + stride * Z.of_nat 0) with idx by lia.
    exact Ea.
  - destruct (IH _ _ _ E j) as (b & Hb & Hr); [lia|].
    exists b. split; [exact Hb|].
    replace (i + Z.of_nat (S j)) with (i + 1 + Z.of_nat j) by lia.
    replace (idx + stride * Z.of_nat (S j))
      with (idx + stride + stride * Z.of_nat j) by lia.
    exact Hr.
Qed.

(** Only what [read] does at the visited cursors matters. *)
Lemma collect_ext {A : Type} (r1 r2 : Z -> Z -> result A) (stride : Z)
      (k : nat) :
  forall i idx,
    (forall j, (j < k)%nat ->
       r1 (i + Z.of_nat j) (idx + stride * Z.of_nat j) =
       r2 (i + Z.of_nat j) (idx + stride * Z.of_nat j)) ->
    collect r1 stride k i idx = collect r2 stride k i idx.
Proof.
  induction k as [|k IH]; intros i idx H; [reflexivity|].
  simpl.
  generalize (H O ltac:(lia)).
  replace (i + Z.of_nat 0) with i by lia.
  replace (idx + stride * Z.of_nat 0) with idx by lia.
  intros ->.
  rewrite IH; [reflexivity|].
  intros j Hj. generalize (H (S j) ltac:(lia)).
  replace (i + Z.of_nat (S j)) with (i + 1 + Z.of_nat j) by lia.
  replace (idx + stride * Z.of_nat (S j))
    with (idx + stride + stride * Z.of_nat j) by lia.
  trivial.
Qed.

(** The loop succeeds when every read does. *)
Lemma collect_ok {A : Type} (read : Z -> Z -> result A) (stride : Z)
      (k : nat) :
  forall i idx,
    (forall j, (j < k)%nat ->
       is_ok (read (i + Z.of_nat j) (idx + stride * Z.of_nat j)) = true) ->
    exists items, collect read stride k i idx = OK items.
Proof.
  induction k as [|k IH]; intros i idx H; [now exists []|].
  simpl.
  generalize (H O ltac:(lia)).
  replace (i + Z.of_nat 0) with i by lia.
  replace (idx + stride * Z.of_nat 0) with idx by lia.
  destruct (read i idx) as [a|]; [intros _|discriminate].
  destruct (IH (i + 1) (idx + stride)) as [rest Hrest].
  - intros j Hj. generalize (H (S j) ltac:(lia)).
    replace (i + Z.of_nat (S j)) with (i + 1 + Z.of_nat j) by lia.
    replace (idx + stride * Z.of_nat (S j))
      with (idx + stride + stride * Z.of_nat j) by lia.
    trivial.
  - exists (a :: rest). simpl. now rewrite Hrest.
Qed.

(** The loop stops with the exception of its first failing read. *)
Lemma collect_raise {A : Type} (read : Z -> Z -> result A) (stride : Z)
      (k : nat) :
  forall i idx m e,
    (m < k)%nat ->
    (forall j, (j < m)%nat ->
       is_ok (read (i + Z.of_nat j) (idx + stride * Z.of_nat j)) = true) ->
    read (i + Z.of_nat m) (idx + stride * Z.of_nat m) = Raise e ->
    collect read stride k i idx = Raise e.
Proof.
  induction k as [|k IH]; intros i idx m e Hm Hbefore Hat; [lia|].
  simpl. destruct m as [|m].
  - replace (i + Z.of_nat 0) with i in Hat by lia.
    replace (idx + stride * Z.of_nat 0) with idx in Hat by lia.
    now rewrite Hat.
  - generalize (Hbefore O ltac:(lia)).
    replace (i + Z.of_nat 0) with i by lia.
    replace (idx + stride * Z.of_nat 0) with idx by lia.
    destruct (read i idx) as [a|]; [intros _|discriminate].
    simpl. rewrite (IH (i + 1) (idx + stride) m e); [reflexivity|lia| |].
    + intros j Hj. generalize (Hbefore (S j) ltac:(lia)).
      replace (i + Z.of_nat (S j)) with (i + 1 + Z.of_nat j) by lia.
      replace (idx + stride * Z.of_nat (S j))
        with (idx + stride + stride * Z.of_nat j) by lia.
      trivial.
    + replace (i + 1 + Z.of_nat m) with (i + Z.of_nat (S m)) by lia.
      replace (idx + stride + stride * Z.of_nat m)
        with (idx + stride * Z.of_nat (S m)) by lia.
      exact Hat.
Qed.

(** ** Slices read at absolute offsets *)

Lemma float_at_getslice (fields : row) (a w k : Z) :
  0 <= a -> 0 <= k < w ->
  float_at (getslice fields a (a + w)) k = float_at fields (a + k).
Proof.
  intros Ha Hk. unfold float_at. now rewrite getitem_getslice.
Qed.

Lemma int_at_getslice (fields : row) (a w k : Z) :
  0 <= a -> 0 <= k < w ->
  int_at (getslice fields a (a + w)) k = int_at fields (a + k).
Proof.
  intros Ha Hk. unfold int_at. now rewrite getitem_getslice.
Qed.

Lemma Position_init_getslice (fields : row) (a : Z) :
  0 <= a ->
  Position_init (getslice fields a (a + MSL)) = Position_at fields a.
Proof.
  intros Ha. unfold Position_init, Position_at, MSL.
  rewrite !float_at_getslice by lia.
  now rewrite Z.add_0_r.
Qed.

Lemma QRot_init_getslice (fields : row) (a : Z) :
  0 <= a -> QRot_init (getslice fields a (a + 4)) = QRot_at fields a.
Proof.
  intros Ha. unfold QRot_init, QRot_at.
  rewrite !float_at_getslice by lia.
  now rewrite Z.add_0_r.
Qed.

Lemma ERot_init_getslice (fields : row) (a : Z) :
  0 <= a -> ERot_init (getslice fields a (a + 3)) = ERot_at fields a.
Proof.
  intros Ha. unfold ERot_init, ERot_at.
  rewrite !float_at_getslice by lia.
  now rewrite Z.add_0_r.
Qed.

Lemma Position_at_getslice (fields : row) (a w k : Z) :
  0 <= a -> 0 <= k -> k + 2 < w ->
  Position_at (getslice fields a (a + w)) k = Position_at fields (a + k).
Proof.
  intros Ha Hk Hw. unfold Position_at.
  rewrite !float_at_getslice by lia.
  now rewrite !Z.add_assoc.
Qed.

Lemma QRot_at_getslice (fields : row) (a w k : Z) :
  0 <= a -> 0 <= k -> k + 3 < w ->
  QRot_at (getslice fields a (a + w)) k = QRot_at fields (a + k).
Proof.
  intros Ha Hk Hw. unfold QRot_at.
  rewrite !float_at_getslice by lia.
  now rewrite !Z.add_assoc.
Qed.

Lemma ERot_at_getslice (fields : row) (a w k : Z) :
  0 <= a -> 0 <= k -> k + 2 < w ->
  ERot_at (getslice fields a (a + w)) k = ERot_at fields (a + k).
Proof.
  intros Ha Hk Hw. unfold ERot_at.
  rewrite !float_at_getslice by lia.
  now rewrite !Z.add_assoc.
Qed.

Lemma TrackableState_init_getslice (fields : row) (a : Z) :
  0 <= a ->
  TrackableState_init (getslice fields a (a + TSL)) =
  TrackableState_at fields a.
Proof.
  intros Ha.
  unfold TrackableState_init, TrackableState_at, TSL.
  set (s := getslice fields a (a + 11)).
  change (getslice s 1 4) with (getslice s 1 (1 + MSL)).
  change (getslice s 4 8) with (getslice s 4 (4 + 4)).
  change (getslice s 8 11) with (getslice s 8 (8 + 3)).
  rewrite (Position_init_getslice s 1) by lia.
  rewrite (QRot_init_getslice s 4) by lia.
  rewrite (ERot_init_getslice s 8) by lia.
  subst s.
  rewrite int_at_getslice by lia.
  rewrite Position_at_getslice, QRot_at_getslice, ERot_at_getslice by lia.
  now rewrite Z.add_0_r.
Qed.

(** ** The constructors compute the closed-form layouts *)

Lemma Trackable_loop_closed (fields : row) (k : nat) (i idx : Z)
      (acc : list Position) :
  0 <= idx ->
  for_range k i (Trackable_body fields) (acc, idx) =
  (items <- collect (fun _ c => Position_at fields c) 3 k i idx ;;
   OK (acc ++ items, idx + 3 * Z.of_nat k)).
Proof.
  intros Hidx.
  rewrite (for_range_ext _
             (cursor_body
                (fun _ c => Position_init (getslice fields c (c + MSL))) MSL))
    by (intros ? [? ?]; reflexivity).
  rewrite for_range_cursor. unfold MSL.
  rewrite (collect_ext _ (fun _ c => Position_at fields c)); [reflexivity|].
  intros j _. apply Position_init_getslice. lia.
Qed.

Lemma Frame_states_loop_closed (fields : row) (k : nat) (i idx : Z)
      (acc : list TrackableState) :
  0 <= idx ->
  for_range k i (Frame_states_body fields) (acc, idx) =
  (items <- collect (fun _ c => TrackableState_at fields c) 11 k i idx ;;
   OK (acc ++ items, idx + 11 * Z.of_nat k)).
Proof.
  intros Hidx.
  rewrite (for_range_ext _
             (cursor_body
                (fun _ c => TrackableState_init (getslice fields c (c + TSL)))
                TSL))
    by (intros ? [? ?]; reflexivity).
  rewrite for_range_cursor. unfold TSL.
  rewrite (collect_ext _ (fun _ c => TrackableState_at fields c));
    [reflexivity|].
  intros j _. apply TrackableState_init_getslice. lia.
Qed.

Lemma Frame_markers_loop_closed (fields : row) (k : nat) (i idx : Z)
      (acc : list Marker) :
  0 <= idx ->
  for_range k i (Frame_markers_body fields) (acc, idx) =
  (items <- collect (fun _ c => Frame_marker_at fields c) 4 k i idx ;;
   OK (acc ++ items, idx + 4 * Z.of_nat k)).
Proof.
  intros Hidx.
  rewrite (for_range_ext _
             (cursor_body
                (fun _ c =>
                   id <- getitem fields (c + MSL) ;;
                   Marker_init (Some id) (getslice fields c (c + MSL))) 4)).
  - rewrite for_range_cursor.
    rewrite (collect_ext _ (fun _ c => Frame_marker_at fields c));
      [reflexivity|].
    intros j _. unfold Frame_marker_at, Marker_at, Marker_init.
    rewrite Position_init_getslice by lia. reflexivity.
  - intros j [acc0 c]. unfold Frame_markers_body, cursor_body.
    destruct (getitem fields (c + MSL)); reflexivity.
Qed.

Lemma TrackableFrame_markers_loop_closed (fields : row) (M : Z) (k : nat)
      (acc : list TrackableMarker) :
  for_range k 0 (TrackableFrame_markers_body fields M) (acc, 7) =
  (items <- collect (fun i _ => TrackableMarker_at fields M 7 i) 3 k 0 7 ;;
   OK (acc ++ items, 7 + 3 * Z.of_nat k)).
Proof.
  rewrite (for_range_ext _
             (cursor_body
                (fun i c =>
                   tracked <- getitem fields (tracked_offset M c i) ;;
                   quality <- getitem fields (quality_offset M c i) ;;
                   TrackableMarker_init None (getslice fields c (c + MSL))
                                        tracked quality) MSL)).
  - rewrite for_range_cursor. unfold MSL.
    rewrite (collect_ext _ (fun i _ => TrackableMarker_at fields M 7 i));
      [reflexivity|].
    intros j _.
    unfold TrackableMarker_at, TrackableMarker_init, Marker_at, Marker_init.
    unfold tracked_offset, quality_offset.
    change (getslice fields (7 + 3 * Z.of_nat j) (7 + 3 * Z.of_nat j + 3))
      with (getslice fields (7 + 3 * Z.of_nat j) (7 + 3 * Z.of_nat j + MSL)).
    rewrite Position_init_getslice by lia. unfold MSL.
    replace (7 + 3 * Z.of_nat j + (M - (0 + Z.of_nat j)) * 3 + M * 3
             + (0 + Z.of_nat j))
      with (7 + 6 * M + (0 + Z.of_nat j)) by lia.
    replace (7 + 3 * Z.of_nat j + (M - (0 + Z.of_nat j)) * 3 + M * 3 + M
             + (0 + Z.of_nat j))
      with (7 + 7 * M + (0 + Z.of_nat j)) by lia.
    replace (7 + 3 * (0 + Z.of_nat j)) with (7 + 3 * Z.of_nat j) by lia.
    reflexivity.
  - intros j [acc0 c]. unfold TrackableFrame_markers_body, cursor_body.
    destruct (getitem fields (tracked_offset M c j)); simpl; [|reflexivity].
    destruct (getitem fields (quality_offset M c j)); reflexivity.
Qed.

Lemma TrackableFrame_ptcld_loop_closed (fields : row) (k : nat) (i idx : Z)
      (acc : list Marker) :
  0 <= idx ->
  for_range k i (TrackableFrame_ptcld_body fields) (acc, idx) =
  (items <- collect (fun _ c => Marker_at fields None c) 3 k i idx ;;
   OK (acc ++ items, idx + 3 * Z.of_nat k)).
Proof.
  intros Hidx.
  rewrite (for_range_ext _
             (cursor_body
                (fun _ c => Marker_init None (getslice fields c (c + MSL)))
                MSL))
    by (intros ? [? ?]; reflexivity).
  rewrite for_range_cursor. unfold MSL.
  rewrite (collect_ext _ (fun _ c => Marker_at fields None c)); [reflexivity|].
  intros j _. unfold Marker_at, Marker_init.
  change (idx + 3 * Z.of_nat j + 3) with (idx + 3 * Z.of_nat j + MSL).
  rewrite Position_init_getslice by lia. reflexivity.
Qed.

Lemma Trackable_run_layout (fields : row) :
  Trackable_run fields = Trackable_layout fields.
Proof.
  unfold Trackable_run, Trackable_layout.
  destruct (getitem fields 0) as [tag|]; cbn [bind]; [|reflexivity].
  destruct (negb (String.eqb (lower tag) "trackable")); [reflexivity|].
  destruct (getitem fields 1) as [name|]; cbn [bind]; [|reflexivity].
  destruct (int_at fields 2) as [id|]; cbn [bind]; [|reflexivity].
  destruct (int_at fields 3) as [N|]; cbn [bind]; [|reflexivity].
  unfold for_in_range. rewrite Trackable_loop_closed by lia.
  destruct (collect _ 3 (Z.to_nat N) 0 4) as [items|]; cbn [bind]; [|reflexivity].
  do 3 f_equal. lia.
Qed.

Lemma Frame_run_layout (fields : row) :
  Frame_run fields = Frame_layout fields.
Proof.
  unfold Frame_run, Frame_layout.
  destruct (getitem fields 0) as [tag|]; cbn [bind]; [|reflexivity].
  destruct (negb (String.eqb (lower tag) "frame")); [reflexivity|].
  destruct (int_at fields 1) as [index|]; cbn [bind]; [|reflexivity].
  destruct (float_at fields 2) as [timestamp|]; cbn [bind]; [|reflexivity].
  destruct (int_at fields 3) as [T|]; cbn [bind]; [|reflexivity].
  assert (Hstates :
            (if T >? 0
             then for_in_range T (Frame_states_body fields) ([], 4)
             else OK ([], 4)) =
            (items <- collect (fun _ c => TrackableState_at fields c) 11
                              (Z.to_nat T) 0 4 ;;
             OK (items, 4 + 11 * Z.max 0 T))).
  { destruct (Z.gtb_spec T 0) as [Hpos|Hneg].
    - unfold for_in_range. rewrite Frame_states_loop_closed by lia.
      destruct (collect _ 11 (Z.to_nat T) 0 4); cbn [bind]; [|reflexivity].
      do 3 f_equal. lia.
    - replace (Z.to_nat T) with O by lia. cbn [collect bind]. do 3 f_equal. lia. }
  rewrite Hstates. clear Hstates.
  destruct (collect _ 11 (Z.to_nat T) 0 4) as [states|]; cbn [bind];
    [|reflexivity].
  destruct (int_at fields (4 + 11 * Z.max 0 T)) as [M|]; cbn [bind];
    [|reflexivity].
  unfold for_in_range. rewrite Frame_markers_loop_closed by lia.
  destruct (collect _ 4 (Z.to_nat M) 0 _) as [markers|]; cbn [bind];
    [|reflexivity].
  do 3 f_equal. lia.
Qed.

Lemma TrackableFrame_run_layout (fields : row) :
  TrackableFrame_run fields = TrackableFrame_layout fields.
Proof.
  unfold TrackableFrame_run, TrackableFrame_layout.
  destruct (int_at fields 1) as [index|]; cbn [bind]; [|reflexivity].
  destruct (float_at fields 2) as [timestamp|]; cbn [bind]; [|reflexivity].
  destruct (getitem fields 3) as [name|]; cbn [bind]; [|reflexivity].
  destruct (int_at fields 4) as [id|]; cbn [bind]; [|reflexivity].
  destruct (int_at fields 5) as [last|]; cbn [bind]; [|reflexivity].
  destruct (int_at fields 6) as [M|]; cbn [bind]; [|reflexivity].
  unfold for_in_range. rewrite TrackableFrame_markers_loop_closed.
  destruct (collect _ 3 (Z.to_nat M) 0 7) as [markers|]; cbn [bind];
    [|reflexivity].
  rewrite TrackableFrame_ptcld_loop_closed by lia.
  replace (7 + 3 * Z.of_nat (Z.to_nat M)) with (7 + 3 * Z.max 0 M) by lia.
  destruct (collect _ 3 (Z.to_nat M) 0 (7 + 3 * Z.max 0 M)) as [ptcld|];
    cbn [bind]; [|reflexivity].
  replace (7 + 3 * Z.max 0 M + 3 * Z.of_nat (Z.to_nat M))
    with (7 + 3 * Z.max 0 M + 3 * Z.max 0 M) by lia.
  destruct (float_at fields _) as [me|]; reflexivity.
Qed.

(** ** Well-formedness, field by field *)

Lemma forallb_offsets (f : Z -> bool) (a n : Z) :
  forallb f (offsets a n) = true ->
  forall j, a <= j < a + n -> f j = true.
Proof.
  intros H j Hj. rewrite forallb_forall in H. apply H.
  unfold offsets. apply in_map_iff. exists (Z.to_nat (j - a)).
  split; [lia|]. apply in_seq. lia.
Qed.

Lemma all_float_spec (fields : row) (a n : Z) :
  all_float fields a n = true ->
  forall j, a <= j < a + n -> is_ok (float_at fields j) = true.
Proof. intros H j Hj. exact (forallb_offsets _ a n H j Hj). Qed.

Lemma all_present_spec (fields : row) (a n : Z) :
  all_present fields a n = true ->
  forall j, a <= j < a + n -> is_ok (getitem fields j) = true.
Proof. intros H j Hj. exact (forallb_offsets _ a n H j Hj). Qed.

Lemma is_ok_true {A : Type} (r : result A) :
  is_ok r = true -> exists a, r = OK a.
Proof. destruct r as [a|e]; [now exists a|discriminate]. Qed.

Lemma float_at_range (fields : row) (i : Z) :
  0 <= i -> is_ok (float_at fields i) = true ->
  i < Z.of_nat (List.length fields).
Proof.
  intros Hi H. unfold float_at in H.
  destruct (getitem fields i) as [s|] eqn:E; [|discriminate].
  eapply getitem_OK_range; eassumption.
Qed.

Lemma int_at_range (fields : row) (i n : Z) :
  0 <= i -> int_at fields i = OK n -> i < Z.of_nat (List.length fields).
Proof.
  intros Hi H. unfold int_at in H.
  destruct (getitem fields i) as [s|] eqn:E; [|discriminate].
  eapply getitem_OK_range; eassumption.
Qed.

Lemma Position_at_ok (fields : row) (c : Z) :
  is_ok (float_at fields c) = true ->
  is_ok (float_at fields (c + 1)) = true ->
  is_ok (float_at fields (c + 2)) = true ->
  is_ok (Position_at fields c) = true.
Proof.
  unfold Position_at. intros H0 H1 H2.
  destruct (float_at fields c); [|discriminate].
  destruct (float_at fields (c + 1)); [|discriminate].
  destruct (float_at fields (c + 2)); [|discriminate].
  reflexivity.
Qed.

Lemma Position_at_range (fields : row) (c : Z) (p : Position) :
  0 <= c -> Position_at fields c = OK p ->
  c + 2 < Z.of_nat (List.length fields).
Proof.
  unfold Position_at. intros Hc H.
  destruct (float_at fields c); [|discriminate].
  destruct (float_at fields (c + 1)); [|discriminate].
  destruct (float_at fields (c + 2)) eqn:E; [|discriminate].
  apply float_at_range; [lia|]. now rewrite E.
Qed.

Lemma QRot_at_ok (fields : row) (c : Z) :
  (forall j, c <= j < c + 4 -> is_ok (float_at fields j) = true) ->
  is_ok (QRot_at fields c) = true.
Proof.
  intros H. unfold QRot_at.
  generalize (H c ltac:(lia)) (H (c + 1) ltac:(lia))
             (H (c + 2) ltac:(lia)) (H (c + 3) ltac:(lia)).
  destruct (float_at fields c); [|discriminate].
  destruct (float_at fields (c + 1)); [|discriminate].
  destruct (float_at fields (c + 2)); [|discriminate].
  destruct (float_at fields (c + 3)); [|discriminate].
  reflexivity.
Qed.

Lemma ERot_at_ok (fields : row) (c : Z) :
  (forall j, c <= j < c + 3 -> is_ok (float_at fields j) = true) ->
  is_ok (ERot_at fields c) = true.
Proof.
  intros H. unfold ERot_at.
  generalize (H c ltac:(lia)) (H (c + 1) ltac:(lia)) (H (c + 2) ltac:(lia)).
  destruct (float_at fields c); [|discriminate].
  destruct (float_at fields (c + 1)); [|discriminate].
  destruct (float_at fields (c + 2)); [|discriminate].
  reflexivity.
Qed.

Lemma TrackableState_at_ok (fields : row) (c : Z) :
  TrackableState_wf fields c = true ->
  is_ok (TrackableState_at fields c) = true.
Proof.
  unfold TrackableState_wf. intros H.
  apply andb_prop in H as [Hid Hfloats].
  assert (Hf : forall j, c + 1 <= j < c + 11 ->
                         is_ok (float_at fields j) = true)
    by (intros j Hj; apply (all_float_spec fields (c + 1) 10); trivial; lia).
  unfold TrackableState_at.
  destruct (int_at fields c); [|discriminate]. cbn [bind].
  assert (Hp : is_ok (Position_at fields (c + 1)) = true).
  { apply Position_at_ok; apply Hf; lia. }
  assert (Hq : is_ok (QRot_at fields (c + 4)) = true).
  { apply QRot_at_ok. intros j Hj. apply Hf. lia. }
  assert (He : is_ok (ERot_at fields (c + 8)) = true).
  { apply ERot_at_ok. intros j Hj. apply Hf. lia. }
  destruct (Position_at fields (c + 1)); [|discriminate].
  destruct (QRot_at fields (c + 4)); [|discriminate].
  destruct (ERot_at fields (c + 8)); [|discriminate].
  reflexivity.
Qed.

Lemma Frame_marker_at_ok (fields : row) (c : Z) :
  Frame_marker_wf fields c = true ->
  is_ok (Frame_marker_at fields c) = true.
Proof.
  unfold Frame_marker_wf. intros H.
  apply andb_prop in H as [Hfloats Hid].
  unfold Frame_marker_at, Marker_at.
  destruct (getitem fields (c + 3)); [|discriminate]. cbn [bind].
  assert (Hp : is_ok (Position_at fields c) = true).
  { apply Position_at_ok; apply (all_float_spec fields c 3); trivial; lia. }
  destruct (Position_at fields c); [|discriminate].
  reflexivity.
Qed.

(** What a [Frame] marker group at cursor [c] decodes to. *)
Lemma Frame_marker_at_inv (fields : row) (c : Z) (m : Marker) :
  Frame_marker_at fields c = OK m ->
  exists id, getitem fields (c + 3) = OK id /\
             marker_id m = Some id /\
             Position_at fields c = OK (marker_pos m).
Proof.
  unfold Frame_marker_at, Marker_at. intros H.
  destruct (getitem fields (c + 3)) as [id|]; [|discriminate].
  cbn [bind] in H.
  destruct (Position_at fields c) as [p|]; [|discriminate].
  injection H as <-. exists id. repeat split.
Qed.

(** ** Prefixes of a row *)

Lemma float_at_firstn (fields : row) (m : nat) (i : Z) :
  0 <= i < Z.of_nat m -> float_at (firstn m fields) i = float_at fields i.
Proof. intros Hi. unfold float_at. now rewrite getitem_firstn. Qed.

Lemma int_at_firstn (fields : row) (m : nat) (i : Z) :
  0 <= i < Z.of_nat m -> int_at (firstn m fields) i = int_at fields i.
Proof. intros Hi. unfold int_at. now rewrite getitem_firstn. Qed.

Lemma Position_at_firstn (fields : row) (m : nat) (c : Z) :
  0 <= c -> c + 2 < Z.of_nat m ->
  Position_at (firstn m fields) c = Position_at fields c.
Proof.
  intros Hc Hm. unfold Position_at. now rewrite !float_at_firstn by lia.
Qed.

(** A [Trackable] row is read up to offset [4 + 3 N] and no further. *)
Lemma Trackable_layout_firstn (fields : row) (N : Z) (m : nat) :
  int_at fields 3 = OK N ->
  0 <= N ->
  4 + 3 * N <= Z.of_nat m ->
  Trackable_layout (firstn m fields) = Trackable_layout fields.
Proof.
  intros HN Hpos Hm. unfold Trackable_layout.
  rewrite !getitem_firstn, !int_at_firstn by lia.
  destruct (getitem fields 0) as [tag|]; cbn [bind]; [|reflexivity].
  destruct (negb (String.eqb (lower tag) "trackable")); [reflexivity|].
  destruct (getitem fields 1) as [name|]; cbn [bind]; [|reflexivity].
  destruct (int_at fields 2) as [id|]; cbn [bind]; [|reflexivity].
  rewrite HN. cbn [bind].
  rewrite (collect_ext _ (fun _ c => Position_at fields c)); [reflexivity|].
  intros j Hj. apply Position_at_firstn; lia.
Qed.

(** A decoded [Trackable] row has at least [4 + 3 N] fields. *)
Lemma Trackable_layout_length (fields : row) (t : Trackable) (idx : Z) :
  Trackable_layout fields = OK (t, idx) ->
  int_at fields 3 = OK (t_num_markers t) /\
  4 + 3 * Z.max 0 (t_num_markers t) <= Z.of_nat (List.length fields).
Proof.
  unfold Trackable_layout. intros H.
  destruct (getitem fields 0) as [tag|]; cbn [bind] in H; [|discriminate].
  destruct (negb (String.eqb (lower tag) "trackable")); [discriminate|].
  destruct (getitem fields 1) as [name|]; cbn [bind] in H; [|discriminate].
  destruct (int_at fields 2) as [id|]; cbn [bind] in H; [|discriminate].
  destruct (int_at fields 3) as [N|] eqn:EN; cbn [bind] in H; [|discriminate].
  destruct (collect _ 3 (Z.to_nat N) 0 4) as [items|] eqn:Ec;
    cbn [bind] in H; [|discriminate].
  injection H as <- <-. cbn [t_num_markers]. split; [reflexivity|].
  apply int_at_range in EN; [|lia].
  destruct (Z.le_gt_cases N 0) as [Hle|Hgt]; [lia|].
  destruct (collect_nth _ _ _ _ _ _ Ec (Z.to_nat N - 1)) as (p & _ & Hp);
    [lia|].
  apply Position_at_range in Hp; lia.
Qed.

(** ** TrackableFrame rows *)

(** The first [k] iterations of a loop collect the first [k] items. *)
Lemma collect_prefix {A : Type} (read : Z -> Z -> result A) (stride : Z)
      (n : nat) :
  forall i idx items k,
    collect read stride n i idx = OK items ->
    (k <= n)%nat ->
    collect read stride k i idx = OK (firstn k items).
Proof.
  induction n as [|n IH]; intros i idx items k H Hk.
  - replace k with O by lia. simpl in H. injection H as <-. reflexivity.
  - simpl in H.
    destruct (read i idx) as [a|] eqn:Ea; cbn [bind] in H; [|discriminate].
    destruct (collect read stride n (i + 1) (idx + stride)) as [rest|] eqn:E;
      cbn [bind] in H; [|discriminate].
    injection H as <-.
    destruct k as [|k]; [reflexivity|].
    simpl. rewrite Ea. cbn [bind].
    rewrite (IH _ _ rest k E) by lia. reflexivity.
Qed.

Lemma Marker_at_ok (fields : row) (id : option string) (c : Z) :
  (forall j, c <= j < c + 3 -> is_ok (float_at fields j) = true) ->
  is_ok (Marker_at fields id c) = true.
Proof.
  intros H. unfold Marker_at.
  assert (Hp : is_ok (Position_at fields c) = true)
    by (apply Position_at_ok; apply H; lia).
  destruct (Position_at fields c); [|discriminate]. reflexivity.
Qed.

Lemma Marker_at_inv (fields : row) (id : option string) (c : Z) (m : Marker) :
  Marker_at fields id c = OK m ->
  marker_id m = id /\ Position_at fields c = OK (marker_pos m).
Proof.
  unfold Marker_at. intros H.
  destruct (Position_at fields c) as [p|]; [|discriminate].
  injection H as <-. split; reflexivity.
Qed.

Lemma TrackableMarker_at_inv (fields : row) (M base i : Z)
      (m : TrackableMarker) :
  TrackableMarker_at fields M base i = OK m ->
  getitem fields (base + 6 * M + i) = OK (tracked m) /\
  getitem fields (base + 7 * M + i) = OK (quality m) /\
  marker_id (tm_marker m) = None /\
  Position_at fields (base + 3 * i) = OK (marker_pos (tm_marker m)).
Proof.
  unfold TrackableMarker_at. intros H.
  destruct (getitem fields (base + 6 * M + i)) as [t|]; [|discriminate].
  destruct (getitem fields (base + 7 * M + i)) as [q|]; [|discriminate].
  cbn [bind] in H.
  destruct (Marker_at fields None (base + 3 * i)) as [mk|] eqn:E;
    [|discriminate].
  injection H as <-. apply Marker_at_inv in E. destruct E as [E1 E2].
  repeat split; assumption.
Qed.

(** A well-formed [TrackableFrame] row decodes, with the cursor at
    [7 + 3 M] after the first loop and at [7 + 6 M] after the second. *)
Lemma TrackableFrame_wf_decodes (fields : row) :
  TrackableFrame_wf fields = true ->
  exists (tf : TrackableFrame) (M : Z),
    int_at fields 6 = OK M /\
    0 <= M /\
    tf_marker_count tf = M /\
    collect (fun i _ => TrackableMarker_at fields M 7 i) 3 (Z.to_nat M) 0 7
      = OK (tf_markers tf) /\
    collect (fun _ c => Marker_at fields None c) 3 (Z.to_nat M) 0 (7 + 3 * M)
      = OK (tf_ptcld_markers tf) /\
    float_at fields (7 + 8 * M) = OK (tf_mean_error tf) /\
    TrackableFrame_run fields = OK (tf, 7 + 3 * M, 7 + 6 * M).
Proof.
  intros Hwf. unfold TrackableFrame_wf in Hwf.
  destruct (int_at fields 6) as [M|] eqn:EM; [|discriminate].
  apply andb_prop in Hwf as [Hwf Hmean].
  apply andb_prop in Hwf as [Hwf Hraw].
  apply andb_prop in Hwf as [Hwf Hfloats].
  apply andb_prop in Hwf as [Hwf HM0].
  apply andb_prop in Hwf as [Hwf Hlast].
  apply andb_prop in Hwf as [Hwf Hid].
  apply andb_prop in Hwf as [Hwf Hname].
  apply andb_prop in Hwf as [Hindex Htime].
  destruct (is_ok_true _ Hindex) as [index Eindex].
  destruct (is_ok_true _ Htime) as [timestamp Etime].
  destruct (is_ok_true _ Hname) as [name Ename].
  destruct (is_ok_true _ Hid) as [id Eid].
  destruct (is_ok_true _ Hlast) as [last Elast].
  destruct (is_ok_true _ Hmean) as [me Eme].
  assert (HM : 0 <= M) by lia.
  pose proof (all_float_spec _ _ _ Hfloats) as Hf.
  pose proof (all_present_spec _ _ _ Hraw) as Hp.
  destruct (collect_ok (fun i _ => TrackableMarker_at fields M 7 i) 3
                       (Z.to_nat M) 0 7) as [markers Emarkers].
  { intros j Hj. unfold TrackableMarker_at.
    generalize (Hp (7 + 6 * M + (0 + Z.of_nat j)) ltac:(lia)).
    generalize (Hp (7 + 7 * M + (0 + Z.of_nat j)) ltac:(lia)).
    destruct (getitem fields (7 + 7 * M + (0 + Z.of_nat j)));
      [intros _|discriminate].
    destruct (getitem fields (7 + 6 * M + (0 + Z.of_nat j)));
      [intros _|discriminate].
    cbn [bind].
    assert (Hm : is_ok (Marker_at fields None (7 + 3 * (0 + Z.of_nat j)))
                 = true)
      by (apply Marker_at_ok; intros c Hc; apply Hf; lia).
    destruct (Marker_at fields None (7 + 3 * (0 + Z.of_nat j)));
      [reflexivity|discriminate]. }
  destruct (collect_ok (fun _ c => Marker_at fields None c) 3
                       (Z.to_nat M) 0 (7 + 3 * M)) as [ptcld Eptcld].
  { intros j Hj. apply Marker_at_ok. intros c Hc. apply Hf. lia. }
  exists (mkTrackableFrame index timestamp name id last M markers ptcld me), M.
  cbn [tf_marker_count tf_markers tf_ptcld_markers tf_mean_error].
  repeat split; trivial.
  rewrite TrackableFrame_run_layout. unfold TrackableFrame_layout.
  rewrite Eindex, Etime, Ename, Eid, Elast, EM. cbn [bind].
  rewrite Emarkers. cbn [bind].
  replace (7 + 3 * Z.max 0 M) with (7 + 3 * M) by lia.
  rewrite Eptcld. cbn [bind].
  replace (7 + 3 * M + 3 * Z.max 0 M + 2 * M) with (7 + 8 * M) by lia.
  rewrite Eme. cbn [bind].
  f_equal. f_equal. lia.
Qed.

(** Above offset 0 a row does not show its first field. *)
Lemma getitem_tag_irrelevant (tag tag' : string) (rest : row) (i : Z) :
  1 <= i -> getitem (tag :: rest) i = getitem (tag' :: rest) i.
Proof. intros Hi. now rewrite !getitem_cons. Qed.

Lemma float_at_tag_irrelevant (tag tag' : string) (rest : row) (i : Z) :
  1 <= i -> float_at (tag :: rest) i = float_at (tag' :: rest) i.
Proof.
  intros Hi. unfold float_at.
  now rewrite (getitem_tag_irrelevant tag tag').
Qed.

Lemma int_at_tag_irrelevant (tag tag' : string) (rest : row) (i : Z) :
  1 <= i -> int_at (tag :: rest) i = int_at (tag' :: rest) i.
Proof.
  intros Hi. unfold int_at.
  now rewrite (getitem_tag_irrelevant tag tag').
Qed.

Lemma Marker_at_tag_irrelevant (tag tag' : string) (rest : row)
      (id : option string) (c : Z) :
  1 <= c -> Marker_at (tag :: rest) id c = Marker_at (tag' :: rest) id c.
Proof.
  intros Hc. unfold Marker_at, Position_at.
  now rewrite !(float_at_tag_irrelevant tag tag') by lia.
Qed.

(** With a count that is not negative, [TrackableFrame] reads no offset
    below 1: the first field has no influence on the result, be it a value
    or an exception. *)
Lemma TrackableFrame_layout_tag_irrelevant (tag tag' : string) (rest : row) :
  (forall M, int_at (tag :: rest) 6 = OK M -> 0 <= M) ->
  TrackableFrame_layout (tag :: rest) = TrackableFrame_layout (tag' :: rest).
Proof.
  intros Hcount. unfold TrackableFrame_layout.
  rewrite <- !(int_at_tag_irrelevant tag tag') by lia.
  rewrite <- !(float_at_tag_irrelevant tag tag' rest 2) by lia.
  rewrite <- !(getitem_tag_irrelevant tag tag' rest 3) by lia.
  destruct (int_at (tag :: rest) 1); cbn [bind]; [|reflexivity].
  destruct (float_at (tag :: rest) 2); cbn [bind]; [|reflexivity].
  destruct (getitem (tag :: rest) 3); cbn [bind]; [|reflexivity].
  destruct (int_at (tag :: rest) 4); cbn [bind]; [|reflexivity].
  destruct (int_at (tag :: rest) 5); cbn [bind]; [|reflexivity].
  destruct (int_at (tag :: rest) 6) as [M|] eqn:EM; cbn [bind];
    [|reflexivity].
  assert (HM : 0 <= M) by (apply Hcount; reflexivity).
  rewrite (collect_ext (fun i _ => TrackableMarker_at (tag :: rest) M 7 i)
                       (fun i _ => TrackableMarker_at (tag' :: rest) M 7 i)).
  2:{ intros j Hj. unfold TrackableMarker_at.
      rewrite !(getitem_tag_irrelevant tag tag') by lia.
      rewrite (Marker_at_tag_irrelevant tag tag') by lia. reflexivity. }
  destruct (collect _ 3 (Z.to_nat M) 0 7); cbn [bind]; [|reflexivity].
  rewrite (collect_ext (fun _ c => Marker_at (tag :: rest) None c)
                       (fun _ c => Marker_at (tag' :: rest) None c)).
  2:{ intros j Hj. apply Marker_at_tag_irrelevant. lia. }
  destruct (collect _ 3 (Z.to_nat M) 0 _); cbn [bind]; [|reflexivity].
  rewrite (float_at_tag_irrelevant tag tag') by lia.
  reflexivity.
Qed.

(** ** Malformed literals *)

Lemma float_at_malformed (fields : row) (j : Z) (raw : string) :
  getitem fields j = OK raw -> float_of_str raw = None ->
  float_at fields j = Raise (ValueError TFloat raw).
Proof.
  intros Hraw Hbad. unfold float_at, py_float.
  rewrite Hraw. cbn [bind]. now rewrite Hbad.
Qed.

Lemma int_at_malformed (fields : row) (j : Z) (raw : string) :
  getitem fields j = OK raw -> int_of_str raw = None ->
  int_at fields j = Raise (ValueError TInt raw).
Proof.
  intros Hraw Hbad. unfold int_at, py_int.
  rewrite Hraw. cbn [bind]. now rewrite Hbad.
Qed.

(** A position stops at its first field that does not convert. *)
Lemma Position_at_raise (fields : row) (c d : Z) (e : exn) :
  0 <= d < 3 ->
  (forall i, c <= i < c + d -> is_ok (float_at fields i) = true) ->
  float_at fields (c + d) = Raise e ->
  Position_at fields c = Raise e.
Proof.
  intros Hd Hbefore Hat. unfold Position_at.
  assert (Hcases : d = 0 \/ d = 1 \/ d = 2) by lia.
  destruct Hcases as [-> | [-> | ->]].
  - rewrite Z.add_0_r in Hat. now rewrite Hat.
  - generalize (Hbefore c ltac:(lia)).
    destruct (float_at fields c); [intros _|discriminate].
    cbn [bind]. now rewrite Hat.
  - generalize (Hbefore c ltac:(lia)) (Hbefore (c + 1) ltac:(lia)).
    destruct (float_at fields c); [intros _|discriminate].
    destruct (float_at fields (c + 1)); [intros _|discriminate].
    cbn [bind]. now rewrite Hat.
Qed.

(** ** Well-formed rows are the rows that decode

    The three well-formedness tests accept exactly the rows that their
    constructor decodes with counts that are not negative. *)

Lemma forallb_offsets_intro (f : Z -> bool) (a n : Z) :
  (forall j, a <= j < a + n -> f j = true) ->
  forallb f (offsets a n) = true.
Proof.
  intros H. apply forallb_forall. intros j Hj.
  unfold offsets in Hj. apply in_map_iff in Hj.
  destruct Hj as (k & <- & Hk). apply in_seq in Hk. apply H. lia.
Qed.

Lemma Position_at_floats (fields : row) (c : Z) (p : Position) :
  Position_at fields c = OK p ->
  forall j, c <= j < c + 3 -> is_ok (float_at fields j) = true.
Proof.
  unfold Position_at. intros H j Hj.
  destruct (float_at fields c) eqn:E0; [|discriminate].
  destruct (float_at fields (c + 1)) eqn:E1; [|discriminate].
  destruct (float_at fields (c + 2)) eqn:E2; [|discriminate].
  assert (Hcases : j = c \/ j = c + 1 \/ j = c + 2) by lia.
  destruct Hcases as [-> | [-> | ->]];
    [rewrite E0|rewrite E1|rewrite E2]; reflexivity.
Qed.

Lemma QRot_at_floats (fields : row) (c : Z) (q : QRot) :
  QRot_at fields c = OK q ->
  forall j, c <= j < c + 4 -> is_ok (float_at fields j) = true.
Proof.
  unfold QRot_at. intros H j Hj.
  destruct (float_at fields c) eqn:E0; [|discriminate].
  destruct (float_at fields (c + 1)) eqn:E1; [|discriminate].
  destruct (float_at fields (c + 2)) eqn:E2; [|discriminate].
  destruct (float_at fields (c + 3)) eqn:E3; [|discriminate].
  assert (Hcases : j = c \/ j = c + 1 \/ j = c + 2 \/ j = c + 3) by lia.
  destruct Hcases as [-> | [-> | [-> | ->]]];
    [rewrite E0|rewrite E1|rewrite E2|rewrite E3]; reflexivity.
Qed.

Lemma ERot_at_floats (fields : row) (c : Z) (e : ERot) :
  ERot_at fields c = OK e ->
  forall j, c <= j < c + 3 -> is_ok (float_at fields j) = true.
Proof.
  unfold ERot_at. intros H j Hj.
  destruct (float_at fields c) eqn:E0; [|discriminate].
  destruct (float_at fields (c + 1)) eqn:E1; [|discriminate].
  destruct (float_at fields (c + 2)) eqn:E2; [|discriminate].
  assert (Hcases : j = c \/ j = c + 1 \/ j = c + 2) by lia.
  destruct Hcases as [-> | [-> | ->]];
    [rewrite E0|rewrite E1|rewrite E2]; reflexivity.
Qed.

Lemma TrackableState_at_wf (fields : row) (c : Z) (st : TrackableState) :
  TrackableState_at fields c = OK st -> TrackableState_wf fields c = true.
Proof.
  unfold TrackableState_at, TrackableState_wf. intros H.
  destruct (int_at fields c); [|discriminate]. cbn [bind] in H.
  destruct (Position_at fields (c + 1)) eqn:Ep; [|discriminate].
  destruct (QRot_at fields (c + 4)) eqn:Eq; [|discriminate].
  destruct (ERot_at fields (c + 8)) eqn:Ee; [|discriminate].
  cbn [is_ok andb]. apply forallb_offsets_intro. intros j Hj.
  destruct (Z.lt_ge_cases j (c + 4)) as [H1|H1];
    [eapply Position_at_floats; [exact Ep|lia]|].
  destruct (Z.lt_ge_cases j (c + 8)) as [H2|H2];
    [eapply QRot_at_floats; [exact Eq|lia]|].
  eapply ERot_at_floats; [exact Ee|lia].
Qed.

(** Positions read with stride 3 from [a] cover the fields from [a] on. *)
Lemma collect_positions_floats {A : Type} (read : Z -> Z -> result A)
      (fields : row) (k : nat) (i a : Z) (items : list A) :
  (forall i' c x, read i' c = OK x ->
                  forall j, c <= j < c + 3 ->
                            is_ok (float_at fields j) = true) ->
  collect read 3 k i a = OK items ->
  forall j, a <= j < a + 3 * Z.of_nat k -> is_ok (float_at fields j) = true.
Proof.
  intros Hread Hc j Hj.
  destruct (collect_nth _ _ _ _ _ _ Hc (Z.to_nat ((j - a) / 3)))
    as (x & _ & Hx).
  - apply Nat2Z.inj_lt. rewrite Z2Nat.id by (apply Z.div_pos; lia).
    apply Z.div_lt_upper_bound; lia.
  - apply (Hread _ _ _ Hx).
    rewrite Z2Nat.id by (apply Z.div_pos; lia).
    pose proof (Z.div_mod (j - a) 3 ltac:(lia)) as Hdm.
    pose proof (Z.mod_pos_bound (j - a) 3 ltac:(lia)) as Hmod.
    lia.
Qed.

Lemma Trackable_wf_iff (fields : row) :
  Trackable_wf fields = true <->
  exists t idx, Trackable_run fields = OK (t, idx) /\ 0 <= t_num_markers t.
Proof.
  split.
  - intros Hwf. unfold Trackable_wf in Hwf.
    destruct (getitem fields 0) as [tag|] eqn:Etag; [|discriminate].
    destruct (int_at fields 3) as [N|] eqn:EN; [|discriminate].
    apply andb_prop in Hwf as [Hwf Hfloats].
    apply andb_prop in Hwf as [Hwf HN0].
    apply andb_prop in Hwf as [Hwf Hid].
    apply andb_prop in Hwf as [Hwf Hname].
    destruct (is_ok_true _ Hname) as [name Ename].
    destruct (is_ok_true _ Hid) as [id Eid].
    destruct (collect_ok (fun _ c => Position_at fields c) 3 (Z.to_nat N) 0 4)
      as [items Eitems].
    { intros j Hj. apply Position_at_ok;
        apply (all_float_spec fields 4 (3 * N)); trivial; lia. }
    exists (mkTrackable name id N items), (4 + 3 * Z.max 0 N).
    split; [|cbn [t_num_markers]; lia].
    rewrite Trackable_run_layout. unfold Trackable_layout.
    rewrite Etag. cbn [bind]. rewrite Hwf. cbn [negb].
    rewrite Ename, Eid, EN. cbn [bind]. rewrite Eitems. reflexivity.
  - intros (t & idx & Hrun & HN).
    rewrite Trackable_run_layout in Hrun.
    unfold Trackable_layout in Hrun. unfold Trackable_wf.
    destruct (getitem fields 0) as [tag|]; cbn [bind] in Hrun;
      [|discriminate].
    destruct (String.eqb (lower tag) "trackable"); [|discriminate].
    cbn [negb] in Hrun.
    destruct (getitem fields 1); cbn [bind] in Hrun; [|discriminate].
    destruct (int_at fields 2); cbn [bind] in Hrun; [|discriminate].
    destruct (int_at fields 3) as [N|]; cbn [bind] in Hrun; [|discriminate].
    destruct (collect _ 3 (Z.to_nat N) 0 4) as [items|] eqn:Ec;
      cbn [bind] in Hrun; [|discriminate].
    injection Hrun as <- <-. cbn [t_num_markers] in HN.
    cbn [is_ok andb].
    destruct (Z.leb_spec 0 N) as [_|?]; [|lia]. cbn [andb].
    apply forallb_offsets_intro. intros j Hj.
    apply (collect_positions_floats _ fields _ _ _ _
             (fun _ c x => Position_at_floats fields c x) Ec). lia.
Qed.

Lemma Frame_wf_iff (fields : row) :
  Frame_wf fields = true <->
  exists f idx, Frame_run fields = OK (f, idx) /\
                0 <= f_trackable_count f /\ 0 <= f_marker_count f.
Proof.
  split.
  - intros Hwf. unfold Frame_wf in Hwf.
    destruct (getitem fields 0) as [tag|] eqn:Etag; [|discriminate].
    destruct (int_at fields 3) as [T|] eqn:ET; [|discriminate].
    apply andb_prop in Hwf as [Hwf Hmarkers].
    apply andb_prop in Hwf as [Hwf Hstates].
    apply andb_prop in Hwf as [Hwf HT0].
    apply andb_prop in Hwf as [Hwf Htime].
    apply andb_prop in Hwf as [Htag Hindex].
    destruct (int_at fields (4 + 11 * T)) as [M|] eqn:EM; [|discriminate].
    apply andb_prop in Hmarkers as [HM0 Hmarkers].
    destruct (is_ok_true _ Hindex) as [index Eindex].
    destruct (is_ok_true _ Htime) as [timestamp Etime].
    destruct (collect_ok (fun _ c => TrackableState_at fields c) 11
                         (Z.to_nat T) 0 4) as [states Estates].
    { intros j Hj. apply TrackableState_at_ok.
      apply (forallb_offsets _ 0 T Hstates (Z.of_nat j)). lia. }
    destruct (collect_ok (fun _ c => Frame_marker_at fields c) 4
                         (Z.to_nat M) 0 (4 + 11 * Z.max 0 T + 1))
      as [markers Emarkers].
    { intros j Hj. apply Frame_marker_at_ok.
      replace (4 + 11 * Z.max 0 T + 1 + 4 * Z.of_nat j)
        with (5 + 11 * T + 4 * Z.of_nat j) by lia.
      apply (forallb_offsets _ 0 M Hmarkers (Z.of_nat j)). lia. }
    exists (mkFrame index timestamp T states M markers),
           (4 + 11 * Z.max 0 T + 1 + 4 * Z.max 0 M).
    split; [|cbn [f_trackable_count f_marker_count]; lia].
    rewrite Frame_run_layout. unfold Frame_layout.
    rewrite Etag. cbn [bind]. rewrite Htag. cbn [negb].
    rewrite Eindex, Etime, ET. cbn [bind]. rewrite Estates. cbn [bind].
    replace (4 + 11 * Z.max 0 T) with (4 + 11 * T) in * by lia.
    rewrite EM. cbn [bind]. rewrite Emarkers. reflexivity.
  - intros (f & idx & Hrun & HT & HM).
    rewrite Frame_run_layout in Hrun.
    unfold Frame_layout in Hrun. unfold Frame_wf.
    destruct (getitem fields 0) as [tag|]; cbn [bind] in Hrun;
      [|discriminate].
    destruct (String.eqb (lower tag) "frame"); [|discriminate].
    cbn [negb] in Hrun.
    destruct (int_at fields 1); cbn [bind] in Hrun; [|discriminate].
    destruct (float_at fields 2); cbn [bind] in Hrun; [|discriminate].
    destruct (int_at fields 3) as [T|]; cbn [bind] in Hrun; [|discriminate].
    destruct (collect _ 11 (Z.to_nat T) 0 4) as [states|] eqn:Es;
      cbn [bind] in Hrun; [|discriminate].
    destruct (int_at fields (4 + 11 * Z.max 0 T)) as [M|] eqn:EM;
      cbn [bind] in Hrun; [|discriminate].
    destruct (collect _ 4 (Z.to_nat M) 0 _) as [markers|] eqn:Em;
      cbn [bind] in Hrun; [|discriminate].
    injection Hrun as <- <-. cbn [f_trackable_count f_marker_count] in HT, HM.
    replace (4 + 11 * Z.max 0 T) with (4 + 11 * T) in * by lia.
    rewrite EM. cbn [is_ok andb].
    destruct (Z.leb_spec 0 T) as [_|?]; [|lia].
    destruct (Z.leb_spec 0 M) as [_|?]; [|lia]. cbn [andb].
    apply andb_true_intro. split.
    + apply forallb_offsets_intro. intros k Hk.
      destruct (collect_nth _ _ _ _ _ _ Es (Z.to_nat k)) as (st & _ & Hst);
        [lia|].
      rewrite Z2Nat.id in Hst by lia.
      eapply TrackableState_at_wf. exact Hst.
    + apply forallb_offsets_intro. intros k Hk.
      destruct (collect_nth _ _ _ _ _ _ Em (Z.to_nat k)) as (m & _ & Hm);
        [lia|].
      rewrite Z2Nat.id in Hm by lia.
      replace (4 + 11 * T + 1 + 4 * k) with (5 + 11 * T + 4 * k) in Hm
        by lia.
      unfold Frame_marker_wf.
      apply Frame_marker_at_inv in Hm. destruct Hm as (id & Hid & _ & Hpos).
      rewrite Hid. cbn [is_ok]. rewrite andb_true_r.
      apply forallb_offsets_intro. intros j Hj.
      eapply Position_at_floats; [exact Hpos|lia].
Qed.

Lemma TrackableFrame_wf_iff (fields : row) :
  TrackableFrame_wf fields = true <->
  exists tf idx1 idx2,
    TrackableFrame_run fields = OK (tf, idx1, idx2) /\
    0 <= tf_marker_count tf.
Proof.
  split.
  - intros Hwf.
    destruct (TrackableFrame_wf_decodes fields Hwf)
      as (tf & M & _ & HM & Hcount & _ & _ & _ & Hrun).
    exists tf, (7 + 3 * M), (7 + 6 * M). split; [exact Hrun|lia].
  - intros (tf & idx1 & idx2 & Hrun & HM).
    rewrite TrackableFrame_run_layout in Hrun.
    unfold TrackableFrame_layout in Hrun. unfold TrackableFrame_wf.
    destruct (int_at fields 1); cbn [bind] in Hrun; [|discriminate].
    destruct (float_at fields 2); cbn [bind] in Hrun; [|discriminate].
    destruct (getitem fields 3); cbn [bind] in Hrun; [|discriminate].
    destruct (int_at fields 4); cbn [bind] in Hrun; [|discriminate].
    destruct (int_at fields 5); cbn [bind] in Hrun; [|discriminate].
    destruct (int_at fields 6) as [M|]; cbn [bind] in Hrun; [|discriminate].
    destruct (collect _ 3 (Z.to_nat M) 0 7) as [markers|] eqn:Em;
      cbn [bind] in Hrun; [|discriminate].
    destruct (collect (fun _ c => Marker_at fields None c) 3 (Z.to_nat M) 0
                      (7 + 3 * Z.max 0 M)) as [ptcld|] eqn:Ep;
      cbn [bind] in Hrun; [|discriminate].
    destruct (float_at fields (7 + 3 * Z.max 0 M + 3 * Z.max 0 M + 2 * M))
      as [me|] eqn:Eme; cbn [bind] in Hrun; [|discriminate].
    injection Hrun as <- <- <-. cbn [tf_marker_count] in HM.
    replace (7 + 3 * Z.max 0 M) with (7 + 3 * M) in * by lia.
    replace (7 + 3 * M + 3 * Z.max 0 M + 2 * M) with (7 + 8 * M) in Eme
      by lia.
    rewrite Eme. cbn [is_ok andb].
    destruct (Z.leb_spec 0 M) as [_|?]; [|lia]. cbn [andb].
    rewrite andb_true_r.
    apply andb_true_intro. split.
    + apply forallb_offsets_intro. intros j Hj.
      destruct (Z.lt_ge_cases j (7 + 3 * M)) as [Hlo|Hhi].
      * destruct (collect_nth _ _ _ _ _ _ Em (Z.to_nat ((j - 7) / 3)))
          as (m & _ & Hm).
        { apply Nat2Z.inj_lt. rewrite Z2Nat.id by (apply Z.div_pos; lia).
          apply Z.div_lt_upper_bound; lia. }
        rewrite Z2Nat.id in Hm by (apply Z.div_pos; lia).
        apply TrackableMarker_at_inv in Hm.
        destruct Hm as (_ & _ & _ & Hpos).
        eapply Position_at_floats; [exact Hpos|].
        pose proof (Z.div_mod (j - 7) 3 ltac:(lia)) as Hdm.
        pose proof (Z.mod_pos_bound (j - 7) 3 ltac:(lia)) as Hmod.
        lia.
      * apply (collect_positions_floats _ fields _ _ _ _
                 (fun _ c x H => Position_at_floats fields c _
                                   (proj2 (Marker_at_inv fields None c x H)))
                 Ep).
        lia.
    + apply forallb_offsets_intro. intros j Hj.
      destruct (Z.lt_ge_cases j (7 + 7 * M)) as [Hlo|Hhi].
      * destruct (collect_nth _ _ _ _ _ _ Em (Z.to_nat (j - (7 + 6 * M))))
          as (m & _ & Hm); [lia|].
        apply TrackableMarker_at_inv in Hm. destruct Hm as (Ht & _).
        replace (7 + 6 * M + (0 + Z.of_nat (Z.to_nat (j - (7 + 6 * M)))))
          with j in Ht by lia.
        now rewrite Ht.
      * destruct (collect_nth _ _ _ _ _ _ Em (Z.to_nat (j - (7 + 7 * M))))
          as (m & _ & Hm); [lia|].
        apply TrackableMarker_at_inv in Hm. destruct Hm as (_ & Hq & _).
        replace (7 + 7 * M + (0 + Z.of_nat (Z.to_nat (j - (7 + 7 * M)))))
          with j in Hq by lia.
        now rewrite Hq.
Qed.

(** ** Where a [ValueError] comes from *)

Lemma getitem_In {A : Type} (l : list A) (i : Z) (a : A) :
  getitem l i = OK a -> In a l.
Proof.
  unfold getitem. intros H.
  destruct ((0 <=? _) && _); [|discriminate].
  destruct (nth_error l _) eqn:E; [|discriminate].
  injection H as <-. eapply nth_error_In, E.
Qed.

Lemma getslice_In {A : Type} (l : list A) (a b : Z) (v : A) :
  In v (getslice l a b) -> In v l.
Proof.
  unfold getslice. intros H.
  set (n := Z.to_nat (clip (Z.of_nat (List.length l)) a)) in *.
  rewrite <- (firstn_skipn n l). apply in_or_app. right.
  set (m := Z.to_nat _) in H.
  rewrite <- (firstn_skipn m (skipn n l)). apply in_or_app. now left.
Qed.

Lemma names_rejected_field_incl (l l' : row) (e : exn) :
  (forall v, In v l' -> In v l) ->
  names_rejected_field l' e -> names_rejected_field l e.
Proof.
  intros Hincl. destruct e as [|[|] raw| |]; simpl; trivial;
    intros [Hin Hbad]; split; auto.
Qed.

Lemma getitem_raise (fields : row) (i : Z) (e : exn) :
  getitem fields i = Raise e -> names_rejected_field fields e.
Proof.
  unfold getitem. intros H.
  destruct ((0 <=? _) && _) in H;
    [destruct (nth_error fields _) in H; [discriminate|]|];
    injection H as <-; exact I.
Qed.

Lemma int_at_raise (fields : row) (i : Z) (e : exn) :
  int_at fields i = Raise e -> names_rejected_field fields e.
Proof.
  unfold int_at, py_int. intros H.
  destruct (getitem fields i) as [s|] eqn:E; cbn [bind] in H.
  - destruct (int_of_str s) eqn:Es; [discriminate|].
    injection H as <-. split; [eapply getitem_In, E|exact Es].
  - injection H as <-. eapply getitem_raise, E.
Qed.

Lemma float_at_raise (fields : row) (i : Z) (e : exn) :
  float_at fields i = Raise e -> names_rejected_field fields e.
Proof.
  unfold float_at, py_float. intros H.
  destruct (getitem fields i) as [s|] eqn:E; cbn [bind] in H.
  - destruct (float_of_str s) eqn:Es; [discriminate|].
    injection H as <-. split; [eapply getitem_In, E|exact Es].
  - injection H as <-. eapply getitem_raise, E.
Qed.

Create HintDb raises.
#[local] Hint Resolve int_at_raise float_at_raise getitem_raise : raises.

(** Splits [x <- c ;; k = Raise e] into the failure of [c], to be closed by
    a lemma of the hint database, and the failure of [k]. *)
Ltac raise_cases H :=
  repeat match type of H with
         | bind ?c _ = Raise _ =>
           let E := fresh "E" in
           destruct c eqn:E; cbn [bind] in H;
           [|injection H as <-; eauto with raises]
         | (if ?c then _ else _) = Raise _ => destruct c
         | (let '(_, _) := ?p in _) = Raise _ => destruct p
         | OK _ = Raise _ => discriminate H
         | Raise _ = Raise _ => injection H as <-; exact I
         end.

Lemma Position_init_raise (fields : row) (e : exn) :
  Position_init fields = Raise e -> names_rejected_field fields e.
Proof. unfold Position_init. intros H. raise_cases H. Qed.

Lemma QRot_init_raise (fields : row) (e : exn) :
  QRot_init fields = Raise e -> names_rejected_field fields e.
Proof. unfold QRot_init. intros H. raise_cases H. Qed.

Lemma ERot_init_raise (fields : row) (e : exn) :
  ERot_init fields = Raise e -> names_rejected_field fields e.
Proof. unfold ERot_init. intros H. raise_cases H. Qed.

(** A constructor applied to a slice of the row. *)
Lemma slice_raise {A : Type} (init : row -> result A) (fields : row)
      (a b : Z) (e : exn) :
  (forall l e', init l = Raise e' -> names_rejected_field l e') ->
  init (getslice fields a b) = Raise e -> names_rejected_field fields e.
Proof.
  intros Hinit H. apply Hinit in H.
  eapply names_rejected_field_incl; [|exact H].
  intros v. apply getslice_In.
Qed.

Lemma Position_slice_raise (fields : row) (a b : Z) (e : exn) :
  Position_init (getslice fields a b) = Raise e ->
  names_rejected_field fields e.
Proof. apply slice_raise, Position_init_raise. Qed.

#[local] Hint Resolve Position_slice_raise : raises.

Lemma TrackableState_init_raise (fields : row) (e : exn) :
  TrackableState_init fields = Raise e -> names_rejected_field fields e.
Proof.
  unfold TrackableState_init. intros H. raise_cases H.
  - eapply slice_raise; [apply ERot_init_raise|eassumption].
  - eapply slice_raise; [apply QRot_init_raise|eassumption].
Qed.

Lemma TrackableState_slice_raise (fields : row) (a b : Z) (e : exn) :
  TrackableState_init (getslice fields a b) = Raise e ->
  names_rejected_field fields e.
Proof. apply slice_raise, TrackableState_init_raise. Qed.

Lemma Marker_slice_raise (fields : row) (id : option string) (a b : Z)
      (e : exn) :
  Marker_init id (getslice fields a b) = Raise e ->
  names_rejected_field fields e.
Proof. unfold Marker_init. intros H. raise_cases H. Qed.

#[local] Hint Resolve TrackableState_slice_raise Marker_slice_raise : raises.

Lemma TrackableMarker_slice_raise (fields : row) (id : option string)
      (a b : Z) (t q : string) (e : exn) :
  TrackableMarker_init id (getslice fields a b) t q = Raise e ->
  names_rejected_field fields e.
Proof. unfold TrackableMarker_init. intros H. raise_cases H. Qed.

#[local] Hint Resolve TrackableMarker_slice_raise : raises.

(** A loop raises what one of its iterations raises. *)
Lemma for_range_raise {S : Type} (body : Z -> S -> result S) (e : exn)
      (k : nat) :
  forall i s,
    for_range k i body s = Raise e -> exists j s', body j s' = Raise e.
Proof.
  induction k as [|k IH]; intros i s H; simpl in H; [discriminate|].
  destruct (body i s) as [s'|e'] eqn:E; cbn [bind] in H.
  - eapply IH, H.
  - injection H as <-. now exists i, s.
Qed.

Lemma for_in_range_raise {S : Type} (body : Z -> S -> result S)
      (fields : row) (n : Z) (s : S) (e : exn) :
  (forall j s' e', body j s' = Raise e' -> names_rejected_field fields e') ->
  for_in_range n body s = Raise e -> names_rejected_field fields e.
Proof.
  intros Hbody H. apply for_range_raise in H.
  destruct H as (j & s' & H). eapply Hbody, H.
Qed.

Lemma Trackable_body_raise (fields : row) (j : Z) (st : list Position * Z)
      (e : exn) :
  Trackable_body fields j st = Raise e -> names_rejected_field fields e.
Proof. unfold Trackable_body. destruct st. intros H. raise_cases H. Qed.

Lemma Frame_states_body_raise (fields : row) (j : Z)
      (st : list TrackableState * Z) (e : exn) :
  Frame_states_body fields j st = Raise e -> names_rejected_field fields e.
Proof. unfold Frame_states_body. destruct st. intros H. raise_cases H. Qed.

Lemma Frame_markers_body_raise (fields : row) (j : Z) (st : list Marker * Z)
      (e : exn) :
  Frame_markers_body fields j st = Raise e -> names_rejected_field fields e.
Proof. unfold Frame_markers_body. destruct st. intros H. raise_cases H. Qed.

Lemma TrackableFrame_markers_body_raise (fields : row) (M j : Z)
      (st : list TrackableMarker * Z) (e : exn) :
  TrackableFrame_markers_body fields M j st = Raise e ->
  names_rejected_field fields e.
Proof.
  unfold TrackableFrame_markers_body. destruct st. intros H. raise_cases H.
Qed.

Lemma TrackableFrame_ptcld_body_raise (fields : row) (j : Z)
      (st : list Marker * Z) (e : exn) :
  TrackableFrame_ptcld_body fields j st = Raise e ->
  names_rejected_field fields e.
Proof.
  unfold TrackableFrame_ptcld_body. destruct st. intros H. raise_cases H.
Qed.

Lemma Trackable_init_raise (fields : row) (e : exn) :
  Trackable_init fields = Raise e -> names_rejected_field fields e.
Proof.
  unfold Trackable_init. intros H.
  destruct (Trackable_run fields) as [[t idx]|e'] eqn:Hrun;
    cbn [bind] in H; [discriminate|].
  injection H as <-. unfold Trackable_run in Hrun. raise_cases Hrun.
  eapply for_in_range_raise; [|eassumption].
  intros j s' e'. apply Trackable_body_raise.
Qed.

Lemma Frame_init_raise (fields : row) (e : exn) :
  Frame_init fields = Raise e -> names_rejected_field fields e.
Proof.
  unfold Frame_init. intros H.
  destruct (Frame_run fields) as [[f idx]|e'] eqn:Hrun;
    cbn [bind] in H; [discriminate|].
  injection H as <-. unfold Frame_run in Hrun. raise_cases Hrun.
  - eapply for_in_range_raise; [|eassumption].
    intros j s' e'. apply Frame_markers_body_raise.
  - match goal with
    | E : (if ?c then _ else _) = Raise _ |- _ =>
      destruct c; [|discriminate E]
    end.
    eapply for_in_range_raise; [|eassumption].
    intros j s' e'. apply Frame_states_body_raise.
Qed.

Lemma TrackableFrame_init_raise (fields : row) (e : exn) :
  TrackableFrame_init fields = Raise e -> names_rejected_field fields e.
Proof.
  unfold TrackableFrame_init. intros H.
  destruct (TrackableFrame_run fields) as [[[tf idx1] idx2]|e'] eqn:Hrun;
    cbn [bind] in H; [discriminate|].
  injection H as <-. unfold TrackableFrame_run in Hrun. raise_cases Hrun.
  - eapply for_in_range_raise; [|eassumption].
    intros j s' e'. apply TrackableFrame_ptcld_body_raise.
  - eapply for_in_range_raise; [|eassumption].
    intros j s' e'. apply TrackableFrame_markers_body_raise.
Qed.

(** ** The dispatcher *)

(** One turn of the [while] loop. *)
Lemma ReadFile_loop_cons (self : Run) (fields : row) (fp : list row) :
  ReadFile_loop self (fields :: fp) =
  match dispatch self fields fp with
  | (self', fp', None) => ReadFile_loop self' fp'
  | (self', _, Some e) => (self', e)
  end.
Proof.
  simp ReadFile_loop. unfold inspect.
  assert (Hgen : forall (d : outcome) (H : dispatch self fields fp = d),
             ReadFile_loop_unfold_clause_2 self fields fp (exist _ d H) =
             match d with
             | (self', fp', None) => ReadFile_loop self' fp'
             | (self', _, Some e) => (self', e)
             end).
  { intros [[self' fp'] [e|]] H; simp ReadFile_loop; reflexivity. }
  apply Hgen.
Qed.

Lemma ReadFile_cons_continue (self self' : Run) (fields : row)
      (fp fp' : list row) :
  dispatch self fields fp = (self', fp', None) ->
  ReadFile self (fields :: fp) = ReadFile self' fp'.
Proof.
  intros H. unfold ReadFile. rewrite ReadFile_loop_cons, H. reflexivity.
Qed.

(** The sub-read touches [self.trackables] only. *)
Lemma read_trackables_coord_type (k : nat) :
  forall self fp,
    coord_type (fst (fst (read_trackables k self fp))) = coord_type self.
Proof.
  induction k as [|k IH]; intros self fp; simpl; [reflexivity|].
  destruct fp as [|fields fp]; [reflexivity|].
  destruct (Trackable_init fields) as [t|e]; [|reflexivity].
  rewrite IH. reflexivity.
Qed.

(** The sub-read of as many rows as asked for, all of them decodable. *)
Lemma read_trackables_all (rows : list row) (ts : list Trackable) :
  Forall2 (fun r t => Trackable_init r = OK t) rows ts ->
  forall self rest,
    read_trackables (List.length rows) self (rows ++ rest) =
    (mkRun (trackables self ++ ts) (frames self) (trackable_frames self)
           (coord_type self) (framecount self) (trackablecount self),
     rest, None).
Proof.
  induction 1 as [|r t rows ts Hr _ IH]; intros self rest; simpl.
  - rewrite app_nil_r. destruct self; reflexivity.
  - rewrite Hr, IH. simpl. rewrite <- app_assoc. reflexivity.
Qed.

Lemma dispatch_record_coord_type (tag : string) (self : Run) (fields : row)
      (fp : list row) :
  coord_type (fst (fst (dispatch_record tag self fields fp))) =
  coord_type self.
Proof.
  unfold dispatch_record, dispatch_info.
  repeat match goal with
         | |- context [match ?c with _ => _ end] =>
           lazymatch c with
           | read_trackables _ _ _ => fail
           | _ => destruct c
           end
         | |- context [if ?c then _ else _] => destruct c
         end;
    try reflexivity.
  rewrite read_trackables_coord_type. reflexivity.
Qed.

(** * Properties of the specification *)

(** C9. A row whose first field is [comment], in any letter case, has no
    effect on the [Run]: the loop body leaves the object and the reader as
    they are and raises nothing, so loading the row followed by [fp] is
    loading [fp]. *)
Theorem comment_row_no_effect (self : Run) (tag : string) (rest : row)
        (fp : list row) :
  lower tag = "comment" ->
  dispatch self (tag :: rest) fp = (self, fp, None) /\
  ReadFile self ((tag :: rest) :: fp) = ReadFile self fp.
Proof.
  intros Htag.
  assert (Hd : dispatch self (tag :: rest) fp = (self, fp, None)).
  { unfold dispatch. rewrite getitem_0, Htag. reflexivity. }
  split; [exact Hd|].
  now apply ReadFile_cons_continue.
Qed.

(** C4. A row whose first field is, in any letter case, neither [comment]
    nor [righthanded] has [coord_type] set to [LEFT_HANDED] before its tag
    is looked at any further (whatever the tag: [info], [frame],
    [trackable] or anything else), and [coord_type] is [LEFT_HANDED] when
    the row has been handled, also when handling it raised.  A
    [righthanded] row sets it to [RIGHT_HANDED] and does nothing else. *)
Theorem handedness_fallback (self : Run) (tag tag' : string)
        (rest rest' : row) (fp : list row) :
  lower tag <> "comment" ->
  lower tag <> "righthanded" ->
  lower tag' = "righthanded" ->
  dispatch self (tag :: rest) fp =
    dispatch_record tag (set_coord_type self LEFT_HANDED) (tag :: rest) fp /\
  coord_type (fst (fst (dispatch self (tag :: rest) fp))) = LEFT_HANDED /\
  dispatch self (tag' :: rest') fp =
    (set_coord_type self RIGHT_HANDED, fp, None).
Proof.
  intros Hc Hr Hr'.
  apply String.eqb_neq in Hc, Hr.
  assert (Hd : dispatch self (tag :: rest) fp =
               dispatch_record tag (set_coord_type self LEFT_HANDED)
                               (tag :: rest) fp).
  { unfold dispatch. rewrite getitem_0, Hc, Hr. reflexivity. }
  split; [exact Hd|]. split.
  - rewrite Hd, dispatch_record_coord_type. reflexivity.
  - unfold dispatch. rewrite getitem_0, Hr'. reflexivity.
Qed.

(** C7. An [info] row (any letter case) whose second field is
    [trackablecount] and whose third field reads as [N > 0], followed by
    [N] rows that each decode as a [Trackable]: the loop body takes exactly
    these [N] rows from the reader, appends their [Trackable]s in order to
    [self.trackables], and leaves the reader at the row after them, which
    is then dispatched like any other row. *)
Theorem trackablecount_reads_next_rows (self : Run) (tag key count : string)
        (more : row) (N : Z) (rows : list row) (ts : list Trackable)
        (rest : list row) :
  lower tag = "info" ->
  lower key = "trackablecount" ->
  int_of_str count = Some N ->
  0 < N ->
  List.length rows = Z.to_nat N ->
  Forall2 (fun r t => Trackable_init r = OK t) rows ts ->
  let self' := mkRun (trackables self ++ ts) (frames self)
                     (trackable_frames self) LEFT_HANDED
                     (framecount self) N in
  dispatch self (tag :: key :: count :: more) (rows ++ rest) =
    (self', rest, None) /\
  List.length (trackables self') =
    (List.length (trackables self) + Z.to_nat N)%nat /\
  ReadFile self ((tag :: key :: count :: more) :: rows ++ rest) =
    ReadFile self' rest.
Proof.
  intros Htag Hkey Hcount Hpos Hlen Hrows self'.
  assert (Hd : dispatch self (tag :: key :: count :: more) (rows ++ rest) =
               (self', rest, None)).
  { unfold dispatch. rewrite getitem_0, Htag.
    change (String.eqb "info" "comment") with false.
    change (String.eqb "info" "righthanded") with false. cbv iota.
    unfold dispatch_record. rewrite Htag.
    change (String.eqb "info" "info") with true. cbv iota.
    unfold dispatch_info. rewrite getitem_1, Hkey.
    change (String.eqb "trackablecount" "framecount") with false.
    change (String.eqb "trackablecount" "trackablecount") with true.
    cbv iota.
    unfold int_at. rewrite getitem_2. cbn [bind]. unfold py_int.
    rewrite Hcount.
    destruct (Z.gtb_spec N 0) as [_|?]; [|lia].
    rewrite <- Hlen. rewrite (read_trackables_all rows ts Hrows).
    reflexivity. }
  split; [exact Hd|]. split.
  - subst self'. simpl. rewrite length_app.
    apply Forall2_length in Hrows. lia.
  - now apply ReadFile_cons_continue.
Qed.

(** C6. A well-formed [Trackable] row with declared marker count [N] is
    decoded with the name from field 1, the id from field 2, the count from
    field 3 and [N] positions, the [k]-th from the three fields at
    [4 + 3 k]: [markers] has length [N].  The cursor ends at [4 + 3 N]; the
    row has that many fields, the result is that of its first [4 + 3 N]
    fields alone, and no shorter prefix of the row decodes. *)
Theorem Trackable_consumes (fields : row) :
  Trackable_wf fields = true ->
  exists (t : Trackable) (N : Z),
    Trackable_run fields = OK (t, 4 + 3 * N) /\
    Trackable_init fields = OK t /\
    int_at fields 3 = OK N /\
    t_num_markers t = N /\
    getitem fields 1 = OK (t_name t) /\
    int_at fields 2 = OK (t_id t) /\
    Z.of_nat (List.length (t_markers t)) = N /\
    (forall k, 0 <= k < N ->
       exists p, nth_error (t_markers t) (Z.to_nat k) = Some p /\
                 Position_at fields (4 + 3 * k) = OK p) /\
    4 + 3 * N <= Z.of_nat (List.length fields) /\
    Trackable_run (firstn (Z.to_nat (4 + 3 * N)) fields) = OK (t, 4 + 3 * N) /\
    (forall m, (m < Z.to_nat (4 + 3 * N))%nat ->
       is_ok (Trackable_run (firstn m fields)) = false).
Proof.
  intros Hwf. unfold Trackable_wf in Hwf.
  destruct (getitem fields 0) as [tag|] eqn:Etag; [|discriminate].
  destruct (int_at fields 3) as [N|] eqn:EN; [|discriminate].
  apply andb_prop in Hwf as [Hwf Hfloats].
  apply andb_prop in Hwf as [Hwf HN0].
  apply andb_prop in Hwf as [Hwf Hid].
  apply andb_prop in Hwf as [Hwf Hname].
  destruct (is_ok_true _ Hname) as [name Ename].
  destruct (is_ok_true _ Hid) as [id Eid].
  assert (HN : 0 <= N) by lia.
  destruct (collect_ok (fun _ c => Position_at fields c) 3 (Z.to_nat N) 0 4)
    as [items Eitems].
  { intros j Hj. apply Position_at_ok;
      apply (all_float_spec fields 4 (3 * N)); trivial; lia. }
  assert (Hrun : Trackable_run fields =
                 OK (mkTrackable name id N items, 4 + 3 * N)).
  { rewrite Trackable_run_layout. unfold Trackable_layout.
    rewrite Etag. cbn [bind]. rewrite Hwf. cbn [negb].
    rewrite Ename, Eid, EN. cbn [bind]. rewrite Eitems. cbn [bind].
    do 3 f_equal. lia. }
  exists (mkTrackable name id N items), N. cbn [t_name t_id t_num_markers
                                                t_markers].
  assert (Hlen : 4 + 3 * N <= Z.of_nat (List.length fields)).
  { rewrite Trackable_run_layout in Hrun.
    apply Trackable_layout_length in Hrun. cbn [t_num_markers] in Hrun. lia. }
  repeat split; trivial.
  - unfold Trackable_init. now rewrite Hrun.
  - apply collect_length in Eitems. lia.
  - intros k Hk.
    destruct (collect_nth _ _ _ _ _ _ Eitems (Z.to_nat k)) as (p & Hp & Hr);
      [lia|].
    exists p. split; [exact Hp|].
    replace (4 + 3 * k) with (4 + 3 * Z.of_nat (Z.to_nat k)) by lia.
    exact Hr.
  - rewrite Trackable_run_layout.
    rewrite (Trackable_layout_firstn fields N) by (trivial; lia).
    now rewrite <- Trackable_run_layout.
  - intros m Hm.
    destruct (Trackable_run (firstn m fields)) as [[t' idx']|] eqn:E;
      [|reflexivity].
    exfalso. rewrite Trackable_run_layout in E.
    apply Trackable_layout_length in E. destruct E as [E3 Elen].
    assert (H3 : 3 < Z.of_nat (List.length (firstn m fields)))
      by (eapply int_at_range; [|exact E3]; lia).
    rewrite length_firstn in H3, Elen.
    rewrite int_at_firstn in E3 by lia.
    rewrite EN in E3. injection E3 as E3. lia.
Qed.

(** C5. A well-formed [Frame] row with trackable-state count [T] and
    marker count [M]: [trackable_states] has length [T], the [k]-th state
    being the [TrackableState] of the 11 fields from [4 + 11 k]; [M] is the
    integer in the next field, at [4 + 11 T]; [markers] has length [M], the
    [k]-th marker having its position in the first three fields of the
    group at [c = 5 + 11 T + 4 k] and its id in the field at [c + 3].  The
    cursor moves by 4 per marker and ends at [5 + 11 T + 4 M]. *)
Theorem Frame_consumes (fields : row) :
  Frame_wf fields = true ->
  exists (f : Frame) (T M : Z),
    Frame_run fields = OK (f, 5 + 11 * T + 4 * M) /\
    Frame_init fields = OK f /\
    int_at fields 3 = OK T /\
    f_trackable_count f = T /\
    Z.of_nat (List.length (f_trackable_states f)) = T /\
    (forall k, 0 <= k < T ->
       exists st,
         nth_error (f_trackable_states f) (Z.to_nat k) = Some st /\
         TrackableState_init
           (getslice fields (4 + TSL * k) (4 + TSL * k + TSL)) = OK st) /\
    int_at fields (4 + TSL * T) = OK M /\
    f_marker_count f = M /\
    Z.of_nat (List.length (f_markers f)) = M /\
    (forall k, 0 <= k < M ->
       let c := 5 + TSL * T + 4 * k in
       exists m id,
         nth_error (f_markers f) (Z.to_nat k) = Some m /\
         Position_init (getslice fields c (c + MSL)) = OK (marker_pos m) /\
         getitem fields (c + MSL) = OK id /\
         marker_id m = Some id).
Proof.
  intros Hwf. unfold Frame_wf in Hwf.
  destruct (getitem fields 0) as [tag|] eqn:Etag; [|discriminate].
  destruct (int_at fields 3) as [T|] eqn:ET; [|discriminate].
  apply andb_prop in Hwf as [Hwf Hmarkers].
  apply andb_prop in Hwf as [Hwf Hstates].
  apply andb_prop in Hwf as [Hwf HT0].
  apply andb_prop in Hwf as [Hwf Htime].
  apply andb_prop in Hwf as [Htag Hindex].
  destruct (int_at fields (4 + 11 * T)) as [M|] eqn:EM; [|discriminate].
  apply andb_prop in Hmarkers as [HM0 Hmarkers].
  destruct (is_ok_true _ Hindex) as [index Eindex].
  destruct (is_ok_true _ Htime) as [timestamp Etime].
  assert (HT : 0 <= T) by lia.
  assert (HM : 0 <= M) by lia.
  destruct (collect_ok (fun _ c => TrackableState_at fields c) 11
                       (Z.to_nat T) 0 4) as [states Estates].
  { intros j Hj. apply TrackableState_at_ok.
    apply (forallb_offsets _ 0 T Hstates (Z.of_nat j)). lia. }
  destruct (collect_ok (fun _ c => Frame_marker_at fields c) 4
                       (Z.to_nat M) 0 (4 + 11 * Z.max 0 T + 1))
    as [markers Emarkers].
  { intros j Hj. apply Frame_marker_at_ok.
    replace (4 + 11 * Z.max 0 T + 1 + 4 * Z.of_nat j)
      with (5 + 11 * T + 4 * Z.of_nat j) by lia.
    apply (forallb_offsets _ 0 M Hmarkers (Z.of_nat j)). lia. }
  assert (Hrun : Frame_run fields =
                 OK (mkFrame index timestamp T states M markers,
                     5 + 11 * T + 4 * M)).
  { rewrite Frame_run_layout. unfold Frame_layout.
    rewrite Etag. cbn [bind]. rewrite Htag. cbn [negb].
    rewrite Eindex, Etime, ET. cbn [bind]. rewrite Estates. cbn [bind].
    replace (4 + 11 * Z.max 0 T) with (4 + 11 * T) in * by lia.
    rewrite EM. cbn [bind]. rewrite Emarkers. cbn [bind].
    f_equal. f_equal. lia. }
  exists (mkFrame index timestamp T states M markers), T, M.
  cbn [f_trackable_count f_trackable_states f_marker_count f_markers].
  unfold TSL, MSL.
  repeat split; trivial.
  - unfold Frame_init. now rewrite Hrun.
  - apply collect_length in Estates. lia.
  - intros k Hk.
    destruct (collect_nth _ _ _ _ _ _ Estates (Z.to_nat k))
      as (st & Hst & Hr); [lia|].
    exists st. split; [exact Hst|].
    change (4 + 11 * k + 11) with (4 + 11 * k + TSL).
    rewrite TrackableState_init_getslice by lia.
    replace (4 + 11 * k) with (4 + 11 * Z.of_nat (Z.to_nat k)) by lia.
    exact Hr.
  - apply collect_length in Emarkers. lia.
  - intros k Hk. set (c := 5 + 11 * T + 4 * k).
    destruct (collect_nth _ _ _ _ _ _ Emarkers (Z.to_nat k))
      as (m & Hm & Hr); [lia|].
    replace (4 + 11 * Z.max 0 T + 1 + 4 * Z.of_nat (Z.to_nat k))
      with c in Hr by (subst c; lia).
    apply Frame_marker_at_inv in Hr. destruct Hr as (id & Hid & Hmid & Hpos).
    exists m, id. repeat split; trivial.
    change (c + 3) with (c + MSL).
    rewrite Position_init_getslice by (subst c; lia). exact Hpos.
Qed.

(** C3. A well-formed [TrackableFrame] row with marker count [M]: the
    first loop leaves the cursor at [idx1 = 7 + M * 3]; the second loop
    reads [M] positions one after the other from [idx1], so
    [ptcld_markers] has length [M] (its markers have no id), and leaves the
    cursor at [idx2 = idx1 + M * 3]; [mean_error] is the float in the field
    at [idx2 + 2 * M]. *)
Theorem TrackableFrame_second_pass (fields : row) :
  TrackableFrame_wf fields = true ->
  exists (tf : TrackableFrame) (M idx1 idx2 : Z),
    TrackableFrame_run fields = OK (tf, idx1, idx2) /\
    tf_marker_count tf = M /\
    for_in_range M (TrackableFrame_markers_body fields M) ([], 7) =
      OK (tf_markers tf, idx1) /\
    idx1 = 7 + M * 3 /\
    for_in_range M (TrackableFrame_ptcld_body fields) ([], idx1) =
      OK (tf_ptcld_markers tf, idx2) /\
    idx2 = idx1 + M * 3 /\
    Z.of_nat (List.length (tf_ptcld_markers tf)) = M /\
    (forall k, 0 <= k < M ->
       let c := idx1 + 3 * k in
       exists m,
         nth_error (tf_ptcld_markers tf) (Z.to_nat k) = Some m /\
         marker_id m = None /\
         Position_init (getslice fields c (c + MSL)) = OK (marker_pos m)) /\
    float_at fields (idx2 + 2 * M) = OK (tf_mean_error tf).
Proof.
  intros Hwf.
  destruct (TrackableFrame_wf_decodes fields Hwf)
    as (tf & M & EM & HM & Hcount & Emarkers & Eptcld & Emean & Hrun).
  exists tf, M, (7 + 3 * M), (7 + 6 * M).
  split; [exact Hrun|]. split; [exact Hcount|].
  split.
  { unfold for_in_range. rewrite TrackableFrame_markers_loop_closed.
    rewrite Emarkers. cbn [bind app]. f_equal. f_equal. lia. }
  split; [lia|]. split.
  { unfold for_in_range. rewrite TrackableFrame_ptcld_loop_closed by lia.
    rewrite Eptcld. cbn [bind app]. f_equal. f_equal. lia. }
  split; [lia|]. split.
  { apply collect_length in Eptcld. lia. }
  split.
  - intros k Hk c.
    destruct (collect_nth _ _ _ _ _ _ Eptcld (Z.to_nat k))
      as (m & Hm & Hr); [lia|].
    replace (7 + 3 * M + 3 * Z.of_nat (Z.to_nat k)) with c in Hr
      by (subst c; lia).
    apply Marker_at_inv in Hr. destruct Hr as [Hid Hpos].
    exists m. repeat split; trivial.
    rewrite Position_init_getslice by (subst c; lia). exact Hpos.
  - replace (7 + 6 * M + 2 * M) with (7 + 8 * M) by lia. exact Emean.
Qed.

(** C1, as the code has it.  A well-formed [TrackableFrame] row with
    marker count [M] yields [M] trackable markers.  When the first loop
    reaches marker [i] its cursor is [idx = 7 + 3 i]; the [tracked] field of
    marker [i] is looked up at [idx + (M - i) * 3 + M * 3 + i] and the
    [quality] field at [idx + (M - i) * 3 + M * 3 + M + i], both relative
    to this running cursor: the absolute offsets [7 + 6 M + i] and
    [7 + 7 M + i]. *)
Theorem TrackableFrame_tracked_quality (fields : row) :
  TrackableFrame_wf fields = true ->
  exists (tf : TrackableFrame) (M : Z),
    TrackableFrame_init fields = OK tf /\
    tf_marker_count tf = M /\
    Z.of_nat (List.length (tf_markers tf)) = M /\
    (forall i, 0 <= i < M ->
       let idx := 7 + 3 * i in
       exists m,
         nth_error (tf_markers tf) (Z.to_nat i) = Some m /\
         for_in_range i (TrackableFrame_markers_body fields M) ([], 7) =
           OK (firstn (Z.to_nat i) (tf_markers tf), idx) /\
         getitem fields (tracked_offset M idx i) = OK (tracked m) /\
         getitem fields (quality_offset M idx i) = OK (quality m) /\
         tracked_offset M idx i = 7 + 6 * M + i /\
         quality_offset M idx i = 7 + 7 * M + i).
Proof.
  intros Hwf.
  destruct (TrackableFrame_wf_decodes fields Hwf)
    as (tf & M & EM & HM & Hcount & Emarkers & Eptcld & Emean & Hrun).
  exists tf, M.
  split; [unfold TrackableFrame_init; now rewrite Hrun|].
  split; [exact Hcount|].
  split; [apply collect_length in Emarkers; lia|].
  intros i Hi idx.
  destruct (collect_nth _ _ _ _ _ _ Emarkers (Z.to_nat i))
    as (m & Hm & Hr); [lia|].
  replace (0 + Z.of_nat (Z.to_nat i)) with i in Hr by lia.
  apply TrackableMarker_at_inv in Hr.
  destruct Hr as (Htracked & Hquality & _ & _).
  assert (Et : tracked_offset M idx i = 7 + 6 * M + i)
    by (unfold tracked_offset, MSL; subst idx; lia).
  assert (Eq : quality_offset M idx i = 7 + 7 * M + i)
    by (unfold quality_offset, MSL; subst idx; lia).
  exists m. rewrite Et, Eq. repeat split; trivial.
  unfold for_in_range. rewrite TrackableFrame_markers_loop_closed.
  rewrite (collect_prefix _ _ _ _ _ _ (Z.to_nat i) Emarkers) by lia.
  cbn [bind app]. f_equal. f_equal. subst idx. lia.
Qed.

(** C2, as the code has it.  For a well-formed [TrackableFrame] row with
    marker count [M], [mean_error] is the float in the field at
    [base + 6 * M + 2 * M], where [base = 7] is where the marker section
    starts. *)
Theorem TrackableFrame_mean_error_offset (fields : row) :
  TrackableFrame_wf fields = true ->
  exists (tf : TrackableFrame) (M : Z),
    TrackableFrame_init fields = OK tf /\
    tf_marker_count tf = M /\
    int_at fields 6 = OK M /\
    float_at fields (7 + 6 * M + 2 * M) = OK (tf_mean_error tf).
Proof.
  intros Hwf.
  destruct (TrackableFrame_wf_decodes fields Hwf)
    as (tf & M & EM & HM & Hcount & Emarkers & Eptcld & Emean & Hrun).
  exists tf, M.
  split; [unfold TrackableFrame_init; now rewrite Hrun|].
  split; [exact Hcount|]. split; [exact EM|].
  replace (7 + 6 * M + 2 * M) with (7 + 8 * M) by lia. exact Emean.
Qed.


(** * Further properties of the code *)

(** ** Exceptions of the constructors

    No constructor raises [StopIteration]: what a constructor raises inside
    [ReadFile] is never taken for the end of the file. *)

Definition decoder_exn (e : exn) : Prop :=
  match e with
  | StopIteration => False
  | _ => True
  end.

Lemma getitem_decoder_exn {A : Type} (l : list A) (i : Z) (e : exn) :
  getitem l i = Raise e -> decoder_exn e.
Proof.
  unfold getitem. intros H.
  destruct ((0 <=? _) && _) in H;
    [destruct (nth_error l _) in H; [discriminate|]|];
    injection H as <-; exact I.
Qed.

Lemma int_at_decoder_exn (fields : row) (i : Z) (e : exn) :
  int_at fields i = Raise e -> decoder_exn e.
Proof.
  unfold int_at, py_int. intros H.
  destruct (getitem fields i) as [s|] eqn:E; cbn [bind] in H.
  - destruct (int_of_str s); [discriminate|]. injection H as <-. exact I.
  - injection H as <-. eapply getitem_decoder_exn, E.
Qed.

Lemma float_at_decoder_exn (fields : row) (i : Z) (e : exn) :
  float_at fields i = Raise e -> decoder_exn e.
Proof.
  unfold float_at, py_float. intros H.
  destruct (getitem fields i) as [s|] eqn:E; cbn [bind] in H.
  - destruct (float_of_str s); [discriminate|]. injection H as <-. exact I.
  - injection H as <-. eapply getitem_decoder_exn, E.
Qed.

#[local] Hint Resolve getitem_decoder_exn int_at_decoder_exn
  float_at_decoder_exn : raises.

Lemma Position_init_decoder_exn (fields : row) (e : exn) :
  Position_init fields = Raise e -> decoder_exn e.
Proof. unfold Position_init. intros H. raise_cases H. Qed.

Lemma QRot_init_decoder_exn (fields : row) (e : exn) :
  QRot_init fields = Raise e -> decoder_exn e.
Proof. unfold QRot_init. intros H. raise_cases H. Qed.

Lemma ERot_init_decoder_exn (fields : row) (e : exn) :
  ERot_init fields = Raise e -> decoder_exn e.
Proof. unfold ERot_init. intros H. raise_cases H. Qed.

#[local] Hint Resolve Position_init_decoder_exn QRot_init_decoder_exn
  ERot_init_decoder_exn : raises.

Lemma TrackableState_init_decoder_exn (fields : row) (e : exn) :
  TrackableState_init fields = Raise e -> decoder_exn e.
Proof. unfold TrackableState_init. intros H. raise_cases H. Qed.

Lemma Marker_init_decoder_exn (id : option string) (pos : row) (e : exn) :
  Marker_init id pos = Raise e -> decoder_exn e.
Proof. unfold Marker_init. intros H. raise_cases H. Qed.

#[local] Hint Resolve TrackableState_init_decoder_exn
  Marker_init_decoder_exn : raises.

Lemma TrackableMarker_init_decoder_exn (id : option string) (pos : row)
      (t q : string) (e : exn) :
  TrackableMarker_init id pos t q = Raise e -> decoder_exn e.
Proof. unfold TrackableMarker_init. intros H. raise_cases H. Qed.

#[local] Hint Resolve TrackableMarker_init_decoder_exn : raises.

Lemma for_in_range_decoder_exn {S : Type} (body : Z -> S -> result S)
      (n : Z) (s : S) (e : exn) :
  (forall j s' e', body j s' = Raise e' -> decoder_exn e') ->
  for_in_range n body s = Raise e -> decoder_exn e.
Proof.
  intros Hbody H. apply for_range_raise in H.
  destruct H as (j & s' & H). eapply Hbody, H.
Qed.

Lemma Trackable_init_decoder_exn (fields : row) (e : exn) :
  Trackable_init fields = Raise e -> decoder_exn e.
Proof.
  unfold Trackable_init. intros H.
  destruct (Trackable_run fields) as [[t idx]|e'] eqn:Hrun;
    cbn [bind] in H; [discriminate|].
  injection H as <-. unfold Trackable_run in Hrun. raise_cases Hrun.
  eapply for_in_range_decoder_exn; [|eassumption].
  intros j [acc c] e' Hb. unfold Trackable_body in Hb. raise_cases Hb.
Qed.

Lemma Frame_init_decoder_exn (fields : row) (e : exn) :
  Frame_init fields = Raise e -> decoder_exn e.
Proof.
  unfold Frame_init. intros H.
  destruct (Frame_run fields) as [[f idx]|e'] eqn:Hrun;
    cbn [bind] in H; [discriminate|].
  injection H as <-. unfold Frame_run in Hrun. raise_cases Hrun.
  - eapply for_in_range_decoder_exn; [|eassumption].
    intros j [acc c] e' Hb. unfold Frame_markers_body in Hb. raise_cases Hb.
  - match goal with
    | E : (if ?c then _ else _) = Raise _ |- _ =>
      destruct c; [|discriminate E]
    end.
    eapply for_in_range_decoder_exn; [|eassumption].
    intros j [acc c] e' Hb. unfold Frame_states_body in Hb. raise_cases Hb.
Qed.

Lemma TrackableFrame_init_decoder_exn (fields : row) (e : exn) :
  TrackableFrame_init fields = Raise e -> decoder_exn e.
Proof.
  unfold TrackableFrame_init. intros H.
  destruct (TrackableFrame_run fields) as [[[tf idx1] idx2]|e'] eqn:Hrun;
    cbn [bind] in H; [discriminate|].
  injection H as <-. unfold TrackableFrame_run in Hrun. raise_cases Hrun.
  - eapply for_in_range_decoder_exn; [|eassumption].
    intros j [acc c] e' Hb. unfold TrackableFrame_ptcld_body in Hb.
    raise_cases Hb.
  - eapply for_in_range_decoder_exn; [|eassumption].
    intros j [acc c] e' Hb. unfold TrackableFrame_markers_body in Hb.
    raise_cases Hb.
Qed.

(** What [ReadFile] makes of an exception that left the loop. *)
Lemma ReadFile_cons_raise (self self' : Run) (fields : row)
      (fp fp' : list row) (e : exn) :
  dispatch self fields fp = (self', fp', Some e) ->
  decoder_exn e ->
  ReadFile self (fields :: fp) = (self', Some e).
Proof.
  intros H He. unfold ReadFile. rewrite ReadFile_loop_cons, H.
  destruct e; solve [reflexivity | destruct He].
Qed.

(** ** Rows of the dispatcher *)

(** X1. An [info] row whose second field is [framecount] (both in any
    letter case) stores the integer of its third field in [framecount],
    sets [coord_type] to [LEFT_HANDED] and touches nothing else; when the
    third field is no integer the load ends with the [ValueError], with
    [framecount] as it was. *)
Theorem info_framecount_row (self : Run) (tag key count : string)
        (more : row) (fp : list row) :
  lower tag = "info" ->
  lower key = "framecount" ->
  ReadFile self ((tag :: key :: count :: more) :: fp) =
  match int_of_str count with
  | Some N =>
    ReadFile (set_framecount (set_coord_type self LEFT_HANDED) N) fp
  | None =>
    (set_coord_type self LEFT_HANDED, Some (ValueError TInt count))
  end.
Proof.
  intros Htag Hkey.
  assert (Hd : dispatch self (tag :: key :: count :: more) fp =
               match int_of_str count with
               | Some N =>
                 (set_framecount (set_coord_type self LEFT_HANDED) N, fp,
                  None)
               | None =>
                 (set_coord_type self LEFT_HANDED, fp,
                  Some (ValueError TInt count))
               end).
  { unfold dispatch. rewrite getitem_0, Htag.
    change (String.eqb "info" "comment") with false.
    change (String.eqb "info" "righthanded") with false. cbv iota.
    unfold dispatch_record. rewrite Htag.
    change (String.eqb "info" "info") with true. cbv iota.
    unfold dispatch_info. rewrite getitem_1, Hkey.
    change (String.eqb "framecount" "framecount") with true. cbv iota.
    unfold int_at. rewrite getitem_2. cbn [bind]. unfold py_int.
    destruct (int_of_str count); reflexivity. }
  destruct (int_of_str count) as [N|].
  - now apply ReadFile_cons_continue.
  - eapply ReadFile_cons_raise; [exact Hd|exact I].
Qed.

(** X2. An [info] row whose second field is neither [framecount] nor
    [trackablecount] only sets [coord_type] to [LEFT_HANDED]: its other
    fields are not looked at. *)
Theorem info_other_key_row (self : Run) (tag key : string) (more : row)
        (fp : list row) :
  lower tag = "info" ->
  lower key <> "framecount" ->
  lower key <> "trackablecount" ->
  dispatch self (tag :: key :: more) fp =
    (set_coord_type self LEFT_HANDED, fp, None) /\
  ReadFile self ((tag :: key :: more) :: fp) =
    ReadFile (set_coord_type self LEFT_HANDED) fp.
Proof.
  intros Htag Hf Ht. apply String.eqb_neq in Hf, Ht.
  assert (Hd : dispatch self (tag :: key :: more) fp =
               (set_coord_type self LEFT_HANDED, fp, None)).
  { unfold dispatch. rewrite getitem_0, Htag.
    change (String.eqb "info" "comment") with false.
    change (String.eqb "info" "righthanded") with false. cbv iota.
    unfold dispatch_record. rewrite Htag.
    change (String.eqb "info" "info") with true. cbv iota.
    unfold dispatch_info. rewrite getitem_1, Hf, Ht. reflexivity. }
  split; [exact Hd|]. now apply ReadFile_cons_continue.
Qed.

(** X3. A [trackablecount] that is zero or negative is stored as it is and
    no row is taken from the reader. *)
Theorem trackablecount_not_positive (self : Run) (tag key count : string)
        (more : row) (N : Z) (fp : list row) :
  lower tag = "info" ->
  lower key = "trackablecount" ->
  int_of_str count = Some N ->
  N <= 0 ->
  dispatch self (tag :: key :: count :: more) fp =
    (set_trackablecount (set_coord_type self LEFT_HANDED) N, fp, None) /\
  ReadFile self ((tag :: key :: count :: more) :: fp) =
    ReadFile (set_trackablecount (set_coord_type self LEFT_HANDED) N) fp.
Proof.
  intros Htag Hkey Hcount HN.
  assert (Hd : dispatch self (tag :: key :: count :: more) fp =
               (set_trackablecount (set_coord_type self LEFT_HANDED) N, fp,
                None)).
  { unfold dispatch. rewrite getitem_0, Htag.
    change (String.eqb "info" "comment") with false.
    change (String.eqb "info" "righthanded") with false. cbv iota.
    unfold dispatch_record. rewrite Htag.
    change (String.eqb "info" "info") with true. cbv iota.
    unfold dispatch_info. rewrite getitem_1, Hkey.
    change (String.eqb "trackablecount" "framecount") with false.
    change (String.eqb "trackablecount" "trackablecount") with true.
    cbv iota.
    unfold int_at. rewrite getitem_2. cbn [bind]. unfold py_int.
    rewrite Hcount.
    destruct (Z.gtb_spec N 0) as [?|_]; [lia|reflexivity]. }
  split; [exact Hd|]. now apply ReadFile_cons_continue.
Qed.

(** The sub-read when the reader runs out first. *)
Lemma read_trackables_short (rows : list row) (ts : list Trackable) :
  Forall2 (fun r t => Trackable_init r = OK t) rows ts ->
  forall k self,
    (List.length rows < k)%nat ->
    read_trackables k self rows =
    (mkRun (trackables self ++ ts) (frames self) (trackable_frames self)
           (coord_type self) (framecount self) (trackablecount self),
     [], Some StopIteration).
Proof.
  induction 1 as [|r t rows ts Hr _ IH]; intros k self Hk.
  - destruct k as [|k]; [simpl in Hk; lia|].
    simpl. rewrite app_nil_r. destruct self; reflexivity.
  - destruct k as [|k]; [simpl in Hk; lia|].
    simpl. rewrite Hr, IH by (simpl in Hk; lia).
    simpl. rewrite <- app_assoc. reflexivity.
Qed.

(** X4. When fewer rows follow a [trackablecount] row than it announces,
    and each of them decodes as a [Trackable], all of them are read and the
    load ends without an exception: [trackablecount] keeps the announced
    number, [trackables] holds the fewer records. *)
Theorem trackablecount_file_ends_early (self : Run) (tag key count : string)
        (more : row) (N : Z) (rows : list row) (ts : list Trackable) :
  lower tag = "info" ->
  lower key = "trackablecount" ->
  int_of_str count = Some N ->
  Z.of_nat (List.length rows) < N ->
  Forall2 (fun r t => Trackable_init r = OK t) rows ts ->
  ReadFile self ((tag :: key :: count :: more) :: rows) =
  (mkRun (trackables self ++ ts) (frames self) (trackable_frames self)
         LEFT_HANDED (framecount self) N, None).
Proof.
  intros Htag Hkey Hcount HN Hrows.
  unfold ReadFile. rewrite ReadFile_loop_cons.
  unfold dispatch. rewrite getitem_0, Htag.
  change (String.eqb "info" "comment") with false.
  change (String.eqb "info" "righthanded") with false. cbv iota.
  unfold dispatch_record. rewrite Htag.
  change (String.eqb "info" "info") with true. cbv iota.
  unfold dispatch_info. rewrite getitem_1, Hkey.
  change (String.eqb "trackablecount" "framecount") with false.
  change (String.eqb "trackablecount" "trackablecount") with true.
  cbv iota.
  unfold int_at. rewrite getitem_2. cbn [bind]. unfold py_int.
  rewrite Hcount.
  destruct (Z.gtb_spec N 0) as [_|?]; [|lia].
  rewrite (read_trackables_short rows ts Hrows) by lia.
  reflexivity.
Qed.

(** The sub-read when one of its rows does not decode. *)
Lemma read_trackables_bad_row (rows : list row) (ts : list Trackable) :
  Forall2 (fun r t => Trackable_init r = OK t) rows ts ->
  forall k self bad e rest,
    (List.length rows < k)%nat ->
    Trackable_init bad = Raise e ->
    read_trackables k self (rows ++ bad :: rest) =
    (mkRun (trackables self ++ ts) (frames self) (trackable_frames self)
           (coord_type self) (framecount self) (trackablecount self),
     rest, Some e).
Proof.
  induction 1 as [|r t rows ts Hr _ IH]; intros k self bad e rest Hk Hbad.
  - destruct k as [|k]; [simpl in Hk; lia|].
    simpl. rewrite Hbad, app_nil_r. destruct self; reflexivity.
  - destruct k as [|k]; [simpl in Hk; lia|].
    simpl. rewrite Hr, (IH k _ bad e rest) by (simpl in Hk; lia || exact Hbad).
    simpl. rewrite <- app_assoc. reflexivity.
Qed.

(** X5. When a row of the [trackablecount] sub-read does not decode, the load
    ends with the exception of the [Trackable] constructor; the
    [Trackable]s of the rows before it stay in [trackables], and
    [trackablecount] holds the announced number. *)
Theorem trackablecount_bad_row (self : Run) (tag key count : string)
        (more : row) (N : Z) (rows : list row) (ts : list Trackable)
        (bad : row) (e : exn) (rest : list row) :
  lower tag = "info" ->
  lower key = "trackablecount" ->
  int_of_str count = Some N ->
  Z.of_nat (List.length rows) < N ->
  Forall2 (fun r t => Trackable_init r = OK t) rows ts ->
  Trackable_init bad = Raise e ->
  ReadFile self ((tag :: key :: count :: more) :: rows ++ bad :: rest) =
  (mkRun (trackables self ++ ts) (frames self) (trackable_frames self)
         LEFT_HANDED (framecount self) N, Some e).
Proof.
  intros Htag Hkey Hcount HN Hrows Hbad.
  eapply ReadFile_cons_raise; [|eapply Trackable_init_decoder_exn, Hbad].
  unfold dispatch. rewrite getitem_0, Htag.
  change (String.eqb "info" "comment") with false.
  change (String.eqb "info" "righthanded") with false. cbv iota.
  unfold dispatch_record. rewrite Htag.
  change (String.eqb "info" "info") with true. cbv iota.
  unfold dispatch_info. rewrite getitem_1, Hkey.
  change (String.eqb "trackablecount" "framecount") with false.
  change (String.eqb "trackablecount" "trackablecount") with true.
  cbv iota.
  unfold int_at. rewrite getitem_2. cbn [bind]. unfold py_int.
  rewrite Hcount.
  destruct (Z.gtb_spec N 0) as [_|?]; [|lia].
  rewrite (read_trackables_bad_row rows ts Hrows _ _ bad e rest) by
      (lia || exact Hbad).
  reflexivity.
Qed.

(** X6. A row whose first field is none of the five tags is dropped:
    it only sets [coord_type] to [LEFT_HANDED]. *)
Theorem unknown_tag_row (self : Run) (tag : string) (rest : row)
        (fp : list row) :
  lower tag <> "comment" ->
  lower tag <> "righthanded" ->
  lower tag <> "info" ->
  lower tag <> "frame" ->
  lower tag <> "trackable" ->
  dispatch self (tag :: rest) fp =
    (set_coord_type self LEFT_HANDED, fp, None) /\
  ReadFile self ((tag :: rest) :: fp) =
    ReadFile (set_coord_type self LEFT_HANDED) fp.
Proof.
  intros Hc Hr Hi Hf Ht.
  apply String.eqb_neq in Hc, Hr, Hi, Hf, Ht.
  assert (Hd : dispatch self (tag :: rest) fp =
               (set_coord_type self LEFT_HANDED, fp, None)).
  { unfold dispatch. rewrite getitem_0, Hc, Hr.
    unfold dispatch_record. rewrite Hi, Hf, Ht. reflexivity. }
  split; [exact Hd|]. now apply ReadFile_cons_continue.
Qed.

(** X7. A row tagged [frame] is decoded by [Frame]: the record is appended
    to [frames] and the load goes on, or the exception of the constructor
    ends the load and reaches the caller. *)
Theorem frame_row_dispatched (self : Run) (tag : string) (rest : row) (fp : list row) :
  lower tag = "frame" ->
  ReadFile self ((tag :: rest) :: fp) =
  match Frame_init (tag :: rest) with
  | OK f => ReadFile (append_frame (set_coord_type self LEFT_HANDED) f) fp
  | Raise e => (set_coord_type self LEFT_HANDED, Some e)
  end.
Proof.
  intros Htag.
  assert (Hd : dispatch self (tag :: rest) fp =
               match Frame_init (tag :: rest) with
               | OK f =>
                 (append_frame (set_coord_type self LEFT_HANDED) f, fp, None)
               | Raise e => (set_coord_type self LEFT_HANDED, fp, Some e)
               end).
  { unfold dispatch. rewrite getitem_0, Htag.
    change (String.eqb "frame" "comment") with false.
    change (String.eqb "frame" "righthanded") with false. cbv iota.
    unfold dispatch_record. rewrite Htag.
    change (String.eqb "frame" "info") with false.
    change (String.eqb "frame" "frame") with true. cbv iota.
    destruct (Frame_init (tag :: rest)); reflexivity. }
  destruct (Frame_init (tag :: rest)) as [f|e] eqn:E.
  - now apply ReadFile_cons_continue.
  - eapply ReadFile_cons_raise; [exact Hd|].
    eapply Frame_init_decoder_exn, E.
Qed.

(** X8. A row tagged [trackable] that the dispatcher meets is decoded by
    [TrackableFrame], not by [Trackable]: the record is appended to
    [trackable_frames], or the exception ends the load and reaches the
    caller. *)
Theorem trackable_row_dispatched (self : Run) (tag : string) (rest : row)
        (fp : list row) :
  lower tag = "trackable" ->
  ReadFile self ((tag :: rest) :: fp) =
  match TrackableFrame_init (tag :: rest) with
  | OK tf =>
    ReadFile (append_trackable_frame (set_coord_type self LEFT_HANDED) tf) fp
  | Raise e => (set_coord_type self LEFT_HANDED, Some e)
  end.
Proof.
  intros Htag.
  assert (Hd : dispatch self (tag :: rest) fp =
               match TrackableFrame_init (tag :: rest) with
               | OK tf =>
                 (append_trackable_frame (set_coord_type self LEFT_HANDED) tf,
                  fp, None)
               | Raise e => (set_coord_type self LEFT_HANDED, fp, Some e)
               end).
  { unfold dispatch. rewrite getitem_0, Htag.
    change (String.eqb "trackable" "comment") with false.
    change (String.eqb "trackable" "righthanded") with false. cbv iota.
    unfold dispatch_record. rewrite Htag.
    change (String.eqb "trackable" "info") with false.
    change (String.eqb "trackable" "frame") with false.
    change (String.eqb "trackable" "trackable") with true. cbv iota.
    destruct (TrackableFrame_init (tag :: rest)); reflexivity. }
  destruct (TrackableFrame_init (tag :: rest)) as [tf|e] eqn:E.
  - now apply ReadFile_cons_continue.
  - eapply ReadFile_cons_raise; [exact Hd|].
    eapply TrackableFrame_init_decoder_exn, E.
Qed.

(** X9. Rows that are too short end the load with [IndexError]: a row
    without fields (a blank line) before anything is changed; an [info] row
    without a second field, or a [framecount] or [trackablecount] row
    without a third, after [coord_type] has been set to [LEFT_HANDED]. *)
Theorem short_row_IndexError (self : Run) (tag key : string)
        (fp : list row) :
  lower tag = "info" ->
  lower key = "framecount" \/ lower key = "trackablecount" ->
  ReadFile self ([] :: fp) = (self, Some IndexError) /\
  ReadFile self ([tag] :: fp) =
    (set_coord_type self LEFT_HANDED, Some IndexError) /\
  ReadFile self ([tag; key] :: fp) =
    (set_coord_type self LEFT_HANDED, Some IndexError).
Proof.
  intros Htag Hkey. split; [|split].
  - eapply ReadFile_cons_raise; [reflexivity|exact I].
  - eapply ReadFile_cons_raise; [|exact I].
    unfold dispatch. rewrite getitem_0, Htag.
    change (String.eqb "info" "comment") with false.
    change (String.eqb "info" "righthanded") with false. cbv iota.
    unfold dispatch_record. rewrite Htag.
    change (String.eqb "info" "info") with true. cbv iota.
    reflexivity.
  - eapply ReadFile_cons_raise; [|exact I].
    unfold dispatch. rewrite getitem_0, Htag.
    change (String.eqb "info" "comment") with false.
    change (String.eqb "info" "righthanded") with false. cbv iota.
    unfold dispatch_record. rewrite Htag.
    change (String.eqb "info" "info") with true. cbv iota.
    unfold dispatch_info. rewrite getitem_1.
    destruct Hkey as [Hkey|Hkey]; rewrite Hkey.
    + change (String.eqb "framecount" "framecount") with true. cbv iota.
      reflexivity.
    + change (String.eqb "trackablecount" "framecount") with false.
      change (String.eqb "trackablecount" "trackablecount") with true.
      cbv iota. reflexivity.
Qed.

(** ** The load as a whole *)

(** Induction on the turns of the [while] loop. *)
Lemma ReadFile_loop_induction (P : Run -> list row -> Run * exn -> Prop) :
  (forall self, P self [] (self, StopIteration)) ->
  (forall self fields fp self' fp' e,
      dispatch self fields fp = (self', fp', Some e) ->
      P self (fields :: fp) (self', e)) ->
  (forall self fields fp self' fp',
      dispatch self fields fp = (self', fp', None) ->
      P self' fp' (ReadFile_loop self' fp') ->
      P self (fields :: fp) (ReadFile_loop self' fp')) ->
  forall self fp, P self fp (ReadFile_loop self fp).
Proof.
  intros Hnil Hraise Hcont.
  assert (H : forall n self fp,
             (List.length fp < n)%nat -> P self fp (ReadFile_loop self fp)).
  { induction n as [|n IH]; intros self fp Hlen; [lia|].
    destruct fp as [|fields fp].
    - autorewrite with ReadFile_loop. apply Hnil.
    - rewrite ReadFile_loop_cons.
      destruct (dispatch self fields fp) as [[self' fp'] [e|]] eqn:Hd.
      + eapply Hraise, Hd.
      + eapply Hcont; [exact Hd|].
        apply IH. apply dispatch_rest in Hd. simpl in Hlen. lia. }
  intros self fp. apply (H (S (List.length fp))). lia.
Qed.

(** [self'] is [self] with [n] records appended and any of the scalar
    attributes changed. *)
Definition grows (self self' : Run) (n : nat) : Prop :=
  exists ts fs tfs,
    trackables self' = trackables self ++ ts /\
    frames self' = frames self ++ fs /\
    trackable_frames self' = trackable_frames self ++ tfs /\
    (List.length ts + List.length fs + List.length tfs = n)%nat.

Lemma grows_scalars (self : Run) (c : handedness) (fc tc : Z) :
  grows self
        (mkRun (trackables self) (frames self) (trackable_frames self)
               c fc tc) 0.
Proof.
  exists [], [], []. simpl. rewrite !app_nil_r. repeat split.
Qed.

Lemma grows_trans (r1 r2 r3 : Run) (n m : nat) :
  grows r1 r2 n -> grows r2 r3 m -> grows r1 r3 (n + m).
Proof.
  intros (ts & fs & tfs & Ht & Hf & Htf & Hn)
         (ts' & fs' & tfs' & Ht' & Hf' & Htf' & Hm).
  exists (ts ++ ts'), (fs ++ fs'), (tfs ++ tfs').
  rewrite Ht', Hf', Htf', Ht, Hf, Htf, <- !app_assoc, !length_app.
  repeat split. lia.
Qed.

Lemma read_trackables_grows (k : nat) :
  forall self fp self' fp' e,
    read_trackables k self fp = (self', fp', e) ->
    exists n, grows self self' n /\
              (n + List.length fp' <= List.length fp)%nat /\
              coord_type self' = coord_type self.
Proof.
  induction k as [|k IH]; intros self fp self' fp' e H; simpl in H.
  - injection H as <- <- <-. exists O.
    split; [destruct self; apply grows_scalars|]. split; [lia|reflexivity].
  - destruct fp as [|fields fp].
    + injection H as <- <- <-. exists O.
      split; [destruct self; apply grows_scalars|]. split; [lia|reflexivity].
    + destruct (Trackable_init fields) as [t|e'].
      * apply IH in H. destruct H as (n & Hg & Hlen & Hc).
        exists (1 + n)%nat. split; [|split; [simpl; lia|exact Hc]].
        eapply grows_trans; [|exact Hg].
        exists [t], [], []. simpl. rewrite !app_nil_r. repeat split.
      * injection H as <- <- <-. exists O.
        split; [destruct self; apply grows_scalars|].
        split; [simpl; lia|reflexivity].
Qed.

(** One turn of the loop adds at most as many records as it takes rows. *)
Lemma dispatch_grows (self : Run) (fields : row) (fp : list row)
      (self' : Run) (fp' : list row) (e : option exn) :
  dispatch self fields fp = (self', fp', e) ->
  exists n, grows self self' n /\
            (n + List.length fp' <= S (List.length fp))%nat.
Proof.
  unfold dispatch, dispatch_record, dispatch_info. intros H.
  repeat match type of H with
         | (match ?c with _ => _ end) = _ =>
           lazymatch c with
           | read_trackables _ _ _ => fail
           | _ => destruct c
           end
         | (if ?c then _ else _) = _ => destruct c
         end;
    try (injection H as <- <- <-;
         first [ solve [ exists O; split; [|lia];
                         exists [], [], []; simpl; rewrite !app_nil_r;
                         repeat split ]
               | solve [ exists 1%nat; split; [|lia];
                         eexists [], [_], []; simpl; rewrite !app_nil_r;
                         repeat split ]
               | solve [ exists 1%nat; split; [|lia];
                         eexists [], [], [_]; simpl; rewrite !app_nil_r;
                         repeat split ] ]).
  apply read_trackables_grows in H. destruct H as (n & Hg & Hlen & _).
  exists n. split; [|lia].
  replace n with (0 + n)%nat by lia.
  eapply grows_trans; [|exact Hg].
  exists [], [], []. simpl. rewrite !app_nil_r. repeat split.
Qed.

Lemma ReadFile_loop_grows (self : Run) (fp : list row) :
  exists n, grows self (fst (ReadFile_loop self fp)) n /\
            (n <= List.length fp)%nat.
Proof.
  apply (ReadFile_loop_induction
           (fun self fp res =>
              exists n, grows self (fst res) n /\ (n <= List.length fp)%nat)).
  - intros r. exists O. split; [destruct r; apply grows_scalars|simpl; lia].
  - intros r fields rest r' rest' e Hd.
    apply dispatch_grows in Hd. destruct Hd as (n & Hg & Hlen).
    exists n. split; [exact Hg|simpl; lia].
  - intros r fields rest r' rest' Hd (m & Hg' & Hlen').
    apply dispatch_grows in Hd. destruct Hd as (n & Hg & Hlen).
    exists (n + m)%nat. split; [eapply grows_trans; eassumption|simpl; lia].
Qed.

Lemma ReadFile_fst (self : Run) (fp : list row) :
  fst (ReadFile self fp) = fst (ReadFile_loop self fp).
Proof.
  unfold ReadFile. destruct (ReadFile_loop self fp) as [r []]; reflexivity.
Qed.

(** X10. Whatever the rows are and however the load ends, [ReadFile] only
    appends: the records the [Run] held before are still there, in the
    same order, in front of the new ones. *)
Theorem ReadFile_only_appends (self : Run) (fp : list row) :
  exists ts fs tfs,
    trackables (fst (ReadFile self fp)) = trackables self ++ ts /\
    frames (fst (ReadFile self fp)) = frames self ++ fs /\
    trackable_frames (fst (ReadFile self fp)) = trackable_frames self ++ tfs.
Proof.
  rewrite ReadFile_fst.
  destruct (ReadFile_loop_grows self fp) as (n & (ts & fs & tfs & H) & _).
  exists ts, fs, tfs. tauto.
Qed.

(** X11. A load adds at most one record per row of the file. *)
Theorem ReadFile_one_record_per_row (self : Run) (fp : list row) :
  let self' := fst (ReadFile self fp) in
  (List.length (trackables self') + List.length (frames self')
   + List.length (trackable_frames self')
   <= List.length (trackables self) + List.length (frames self)
      + List.length (trackable_frames self) + List.length fp)%nat.
Proof.
  intros self'. subst self'. rewrite ReadFile_fst.
  destruct (ReadFile_loop_grows self fp)
    as (n & (ts & fs & tfs & Ht & Hf & Htf & Hn) & Hlen).
  rewrite Ht, Hf, Htf, !length_app. lia.
Qed.

(** Rows after the one an exception came from are never read. *)
Lemma read_trackables_app (k : nat) :
  forall self fp self' fp' e more,
    read_trackables k self fp = (self', fp', e) ->
    e <> Some StopIteration ->
    read_trackables k self (fp ++ more) = (self', fp' ++ more, e).
Proof.
  induction k as [|k IH]; intros self fp self' fp' e more H He; simpl in H.
  - injection H as <- <- <-. reflexivity.
  - destruct fp as [|fields fp].
    + injection H as <- <- <-. congruence.
    + simpl. destruct (Trackable_init fields) as [t|e'].
      * now apply IH.
      * injection H as <- <- <-. reflexivity.
Qed.

Lemma dispatch_app (self : Run) (fields : row) (fp : list row)
      (self' : Run) (fp' : list row) (e : option exn) (more : list row) :
  dispatch self fields fp = (self', fp', e) ->
  e <> Some StopIteration ->
  dispatch self fields (fp ++ more) = (self', fp' ++ more, e).
Proof.
  unfold dispatch, dispatch_record, dispatch_info. intros H He.
  repeat match type of H with
         | (match ?c with _ => _ end) = _ =>
           lazymatch c with
           | read_trackables _ _ _ => fail
           | _ => destruct c
           end
         | (if ?c then _ else _) = _ => destruct c
         end;
    try (injection H as <- <- <-; reflexivity).
  now apply read_trackables_app.
Qed.

Lemma ReadFile_loop_app (self : Run) (fp : list row) :
  snd (ReadFile_loop self fp) <> StopIteration ->
  forall more,
    ReadFile_loop self (fp ++ more) = ReadFile_loop self fp.
Proof.
  apply (ReadFile_loop_induction
           (fun self fp res =>
              snd res <> StopIteration ->
              forall more, ReadFile_loop self (fp ++ more) = res)).
  - intros r H. now destruct H.
  - intros r fields rest r' rest' e Hd He more. simpl in He.
    simpl app. rewrite ReadFile_loop_cons.
    rewrite (dispatch_app _ _ _ _ _ _ more Hd) by congruence. reflexivity.
  - intros r fields rest r' rest' Hd IH He more.
    simpl app. rewrite ReadFile_loop_cons.
    rewrite (dispatch_app _ _ _ _ _ _ more Hd) by discriminate.
    now apply IH.
Qed.

(** X12. A load that ended with an exception is not changed by rows added
    at the end of the file: the same exception, and the same [Run]. *)
Theorem ReadFile_error_stops_reading (self self' : Run) (fp : list row)
        (e : exn) :
  ReadFile self fp = (self', Some e) ->
  forall more, ReadFile self (fp ++ more) = (self', Some e).
Proof.
  intros H more. unfold ReadFile in *.
  rewrite ReadFile_loop_app; [exact H|].
  destruct (ReadFile_loop self fp) as [r []]; simpl;
    solve [discriminate].
Qed.

(** Is the first field of the row [righthanded]? *)
Definition righthanded_row (fields : row) : bool :=
  match fields with
  | tag :: _ => String.eqb (lower tag) "righthanded"
  | [] => false
  end.

Lemma read_trackables_suffix (k : nat) :
  forall self fp self' fp' e,
    read_trackables k self fp = (self', fp', e) ->
    exists pre, fp = pre ++ fp'.
Proof.
  induction k as [|k IH]; intros self fp self' fp' e H; simpl in H.
  - injection H as <- <- <-. now exists [].
  - destruct fp as [|fields fp].
    + injection H as <- <- <-. now exists [].
    + destruct (Trackable_init fields) as [t|e'].
      * apply IH in H. destruct H as [pre ->]. now exists (fields :: pre).
      * injection H as <- <- <-. now exists [fields].
Qed.

Lemma dispatch_suffix (self : Run) (fields : row) (fp : list row)
      (self' : Run) (fp' : list row) (e : option exn) :
  dispatch self fields fp = (self', fp', e) ->
  exists pre, fp = pre ++ fp'.
Proof.
  unfold dispatch, dispatch_record, dispatch_info. intros H.
  repeat match type of H with
         | (match ?c with _ => _ end) = _ =>
           lazymatch c with
           | read_trackables _ _ _ => fail
           | _ => destruct c
           end
         | (if ?c then _ else _) = _ => destruct c
         end;
    try (injection H as <- <- <-; now exists []).
  eapply read_trackables_suffix, H.
Qed.

(** Only a [righthanded] row takes [coord_type] away from [LEFT_HANDED]. *)
Lemma dispatch_keeps_left (self : Run) (fields : row) (fp : list row)
      (self' : Run) (fp' : list row) (e : option exn) :
  dispatch self fields fp = (self', fp', e) ->
  righthanded_row fields = false ->
  coord_type self = LEFT_HANDED ->
  coord_type self' = LEFT_HANDED.
Proof.
  intros H Hrow Hleft. unfold dispatch in H.
  destruct fields as [|tag rest].
  - injection H as <- <- <-. exact Hleft.
  - rewrite getitem_0 in H. simpl in Hrow. rewrite Hrow in H.
    destruct (String.eqb (lower tag) "comment").
    + injection H as <- <- <-. exact Hleft.
    + pose proof (dispatch_record_coord_type
                    tag (set_coord_type self LEFT_HANDED) (tag :: rest) fp)
        as Hc.
      rewrite H in Hc. exact Hc.
Qed.

Lemma ReadFile_loop_keeps_left (self : Run) (fp : list row) :
  existsb righthanded_row fp = false ->
  coord_type self = LEFT_HANDED ->
  coord_type (fst (ReadFile_loop self fp)) = LEFT_HANDED.
Proof.
  apply (ReadFile_loop_induction
           (fun self fp res =>
              existsb righthanded_row fp = false ->
              coord_type self = LEFT_HANDED ->
              coord_type (fst res) = LEFT_HANDED)).
  - intros r _ H. exact H.
  - intros r fields rest r' rest' e Hd Hno Hleft. simpl in Hno.
    apply orb_false_elim in Hno. destruct Hno as [Hrow _].
    eapply dispatch_keeps_left; eassumption.
  - intros r fields rest r' rest' Hd IH Hno Hleft. simpl in Hno.
    apply orb_false_elim in Hno. destruct Hno as [Hrow Hrest].
    destruct (dispatch_suffix _ _ _ _ _ _ Hd) as [pre ->].
    rewrite existsb_app in Hrest.
    apply orb_false_elim in Hrest. destruct Hrest as [_ Hrest'].
    apply IH; [exact Hrest'|].
    eapply dispatch_keeps_left; eassumption.
Qed.

(** X13. A file that starts with a row whose first field is neither
    [comment] nor [righthanded], and that has no [righthanded] row after
    it, is loaded as [LEFT_HANDED], whatever the [Run] said before and
    however the load ends. *)
Theorem left_handed_unless_declared (self : Run) (tag : string) (rest : row)
        (fp : list row) :
  lower tag <> "comment" ->
  lower tag <> "righthanded" ->
  existsb righthanded_row fp = false ->
  coord_type (fst (ReadFile self ((tag :: rest) :: fp))) = LEFT_HANDED.
Proof.
  intros Hc Hr Hno. apply String.eqb_neq in Hc, Hr.
  rewrite ReadFile_fst, ReadFile_loop_cons.
  destruct (dispatch self (tag :: rest) fp) as [[self' fp'] e] eqn:Hd.
  assert (Hleft : coord_type self' = LEFT_HANDED).
  { unfold dispatch in Hd. rewrite getitem_0, Hc, Hr in Hd.
    pose proof (dispatch_record_coord_type
                  tag (set_coord_type self LEFT_HANDED) (tag :: rest) fp)
      as H.
    rewrite Hd in H. exact H. }
  destruct e as [e|]; [exact Hleft|].
  destruct (dispatch_suffix _ _ _ _ _ _ Hd) as [pre ->].
  rewrite existsb_app in Hno.
  apply orb_false_elim in Hno. destruct Hno as [_ Hno].
  now apply ReadFile_loop_keeps_left.
Qed.

(** ** Records that decode *)

Lemma Trackable_init_run (fields : row) (t : Trackable) :
  Trackable_init fields = OK t ->
  exists idx, Trackable_run fields = OK (t, idx).
Proof.
  unfold Trackable_init. intros H.
  destruct (Trackable_run fields) as [[t' idx]|]; [|discriminate].
  injection H as <-. now exists idx.
Qed.

Lemma Frame_init_run (fields : row) (f : Frame) :
  Frame_init fields = OK f -> exists idx, Frame_run fields = OK (f, idx).
Proof.
  unfold Frame_init. intros H.
  destruct (Frame_run fields) as [[f' idx]|]; [|discriminate].
  injection H as <-. now exists idx.
Qed.

Lemma TrackableFrame_init_run (fields : row) (tf : TrackableFrame) :
  TrackableFrame_init fields = OK tf ->
  exists idx1 idx2, TrackableFrame_run fields = OK (tf, idx1, idx2).
Proof.
  unfold TrackableFrame_init. intros H.
  destruct (TrackableFrame_run fields) as [[[tf' idx1] idx2]|];
    [|discriminate].
  injection H as <-. now exists idx1, idx2.
Qed.

(** X14. A [Trackable] that was built has as many markers as its count says,
    none when the count is negative, and its row had the fields for them:
    a row that is too short never gives a shorter list. *)
Theorem Trackable_markers_match_count (fields : row) (t : Trackable) :
  Trackable_init fields = OK t ->
  int_at fields 3 = OK (t_num_markers t) /\
  List.length (t_markers t) = Z.to_nat (t_num_markers t) /\
  4 + 3 * Z.max 0 (t_num_markers t) <= Z.of_nat (List.length fields).
Proof.
  intros H. apply Trackable_init_run in H. destruct H as [idx Hrun].
  rewrite Trackable_run_layout in Hrun.
  destruct (Trackable_layout_length _ _ _ Hrun) as [H3 Hlen].
  split; [exact H3|]. split; [|exact Hlen].
  unfold Trackable_layout in Hrun.
  destruct (getitem fields 0) as [tag|]; cbn [bind] in Hrun; [|discriminate].
  destruct (negb (String.eqb (lower tag) "trackable")); [discriminate|].
  destruct (getitem fields 1); cbn [bind] in Hrun; [|discriminate].
  destruct (int_at fields 2); cbn [bind] in Hrun; [|discriminate].
  destruct (int_at fields 3) as [N|]; cbn [bind] in Hrun; [|discriminate].
  destruct (collect _ 3 (Z.to_nat N) 0 4) as [items|] eqn:Ec;
    cbn [bind] in Hrun; [|discriminate].
  injection Hrun as <- <-. cbn [t_markers t_num_markers].
  eapply collect_length, Ec.
Qed.

(** X15. A [Frame] that was built: the count of trackable states is the integer
    at offset 3; the count of markers is the integer that follows the
    states, at offset 4 when the first count is not positive; both lists
    have the length their count says, none when it is negative; and the
    row had the fields for them. *)
Theorem Frame_lists_match_counts (fields : row) (f : Frame) :
  Frame_init fields = OK f ->
  let T := f_trackable_count f in
  let M := f_marker_count f in
  int_at fields 3 = OK T /\
  int_at fields (4 + TSL * Z.max 0 T) = OK M /\
  List.length (f_trackable_states f) = Z.to_nat T /\
  List.length (f_markers f) = Z.to_nat M /\
  5 + TSL * Z.max 0 T + 4 * Z.max 0 M <= Z.of_nat (List.length fields).
Proof.
  intros H T M. subst T M.
  apply Frame_init_run in H. destruct H as [idx Hrun].
  rewrite Frame_run_layout in Hrun. unfold Frame_layout in Hrun.
  destruct (getitem fields 0) as [tag|]; cbn [bind] in Hrun; [|discriminate].
  destruct (negb (String.eqb (lower tag) "frame")); [discriminate|].
  destruct (int_at fields 1); cbn [bind] in Hrun; [|discriminate].
  destruct (float_at fields 2); cbn [bind] in Hrun; [|discriminate].
  destruct (int_at fields 3) as [T|]; cbn [bind] in Hrun; [|discriminate].
  destruct (collect _ 11 (Z.to_nat T) 0 4) as [states|] eqn:Es;
    cbn [bind] in Hrun; [|discriminate].
  destruct (int_at fields (4 + 11 * Z.max 0 T)) as [M|] eqn:EM;
    cbn [bind] in Hrun; [|discriminate].
  destruct (collect _ 4 (Z.to_nat M) 0 (4 + 11 * Z.max 0 T + 1))
    as [markers|] eqn:Em; cbn [bind] in Hrun; [|discriminate].
  injection Hrun as <- <-.
  cbn [f_trackable_count f_marker_count f_trackable_states f_markers].
  unfold TSL.
  split; [reflexivity|]. split; [exact EM|].
  split; [eapply collect_length, Es|].
  split; [eapply collect_length, Em|].
  apply int_at_range in EM; [|lia].
  destruct (Z.le_gt_cases M 0) as [Hle|Hgt]; [lia|].
  destruct (collect_nth _ _ _ _ _ _ Em (Z.to_nat M - 1)) as (m & _ & Hm);
    [lia|].
  apply Frame_marker_at_inv in Hm. destruct Hm as (id & Hid & _).
  apply getitem_OK_range in Hid; lia.
Qed.

(** X16. A [TrackableFrame] that was built has as many trackable markers and as
    many point-cloud markers as its count says, none when it is negative;
    with a count that is not negative its row had at least [8 + 8 M]
    fields. *)
Theorem TrackableFrame_lists_match_count (fields : row)
        (tf : TrackableFrame) :
  TrackableFrame_init fields = OK tf ->
  let M := tf_marker_count tf in
  int_at fields 6 = OK M /\
  List.length (tf_markers tf) = Z.to_nat M /\
  List.length (tf_ptcld_markers tf) = Z.to_nat M /\
  (0 <= M -> 8 + 8 * M <= Z.of_nat (List.length fields)).
Proof.
  intros H M. subst M.
  apply TrackableFrame_init_run in H. destruct H as (idx1 & idx2 & Hrun).
  rewrite TrackableFrame_run_layout in Hrun.
  unfold TrackableFrame_layout in Hrun.
  destruct (int_at fields 1); cbn [bind] in Hrun; [|discriminate].
  destruct (float_at fields 2); cbn [bind] in Hrun; [|discriminate].
  destruct (getitem fields 3); cbn [bind] in Hrun; [|discriminate].
  destruct (int_at fields 4); cbn [bind] in Hrun; [|discriminate].
  destruct (int_at fields 5); cbn [bind] in Hrun; [|discriminate].
  destruct (int_at fields 6) as [M|]; cbn [bind] in Hrun; [|discriminate].
  destruct (collect _ 3 (Z.to_nat M) 0 7) as [markers|] eqn:Em;
    cbn [bind] in Hrun; [|discriminate].
  destruct (collect (fun _ c => Marker_at fields None c) 3 (Z.to_nat M) 0
                    (7 + 3 * Z.max 0 M)) as [ptcld|] eqn:Ep;
    cbn [bind] in Hrun; [|discriminate].
  destruct (float_at fields (7 + 3 * Z.max 0 M + 3 * Z.max 0 M + 2 * M))
    as [me|] eqn:Eme; cbn [bind] in Hrun; [|discriminate].
  injection Hrun as <- <- <-.
  cbn [tf_marker_count tf_markers tf_ptcld_markers].
  split; [reflexivity|].
  split; [eapply collect_length, Em|].
  split; [eapply collect_length, Ep|].
  intros HM.
  assert (Hok : is_ok (float_at fields
                         (7 + 3 * Z.max 0 M + 3 * Z.max 0 M + 2 * M)) = true)
    by now rewrite Eme.
  apply float_at_range in Hok; lia.
Qed.

(** X17. A [TrackableFrame] row whose count [M] is not positive is decoded
    without any marker: the result is that of reading the five header
    fields and then the float at [7 + 2 M], a record with two empty lists
    when these reads succeed and their exception otherwise.  When
    [7 + 2 M] is negative, Python counts the offset from the end of the
    row. *)
Theorem TrackableFrame_count_not_positive (fields : row) (M : Z) :
  int_at fields 6 = OK M ->
  M <= 0 ->
  TrackableFrame_init fields =
    (index <- int_at fields 1 ;;
     timestamp <- float_at fields 2 ;;
     name <- getitem fields 3 ;;
     id <- int_at fields 4 ;;
     last_tracked <- int_at fields 5 ;;
     mean_error <- float_at fields (7 + 2 * M) ;;
     OK (mkTrackableFrame index timestamp name id last_tracked M [] []
                          mean_error)) /\
  (7 + 2 * M < 0 ->
   0 <= Z.of_nat (List.length fields) + (7 + 2 * M) ->
   float_at fields (7 + 2 * M) =
   float_at fields (Z.of_nat (List.length fields) + (7 + 2 * M))).
Proof.
  intros HM Hle. split.
  - unfold TrackableFrame_init. rewrite TrackableFrame_run_layout.
    unfold TrackableFrame_layout.
    destruct (int_at fields 1); cbn [bind]; [|reflexivity].
    destruct (float_at fields 2); cbn [bind]; [|reflexivity].
    destruct (getitem fields 3); cbn [bind]; [|reflexivity].
    destruct (int_at fields 4); cbn [bind]; [|reflexivity].
    destruct (int_at fields 5); cbn [bind]; [|reflexivity].
    rewrite HM. cbn [bind].
    replace (Z.to_nat M) with O by lia.
    replace (Z.max 0 M) with 0 by lia.
    cbn [collect bind].
    replace (7 + 3 * 0 + 3 * 0 + 2 * M) with (7 + 2 * M) by lia.
    destruct (float_at fields (7 + 2 * M)); reflexivity.
  - intros Hneg Hin. unfold float_at. f_equal. unfold getitem.
    set (n := Z.of_nat (List.length fields)) in *.
    destruct (Z.ltb_spec (7 + 2 * M) 0) as [_|?]; [|lia].
    destruct (Z.ltb_spec (n + (7 + 2 * M)) 0) as [?|_]; [lia|].
    replace (7 + 2 * M + n) with (n + (7 + 2 * M)) by lia.
    reflexivity.
Qed.

(** Where a decoded row holds its counts. *)
Lemma Frame_init_counts (fields : row) (f : Frame) :
  Frame_init fields = OK f ->
  int_at fields 3 = OK (f_trackable_count f) /\
  int_at fields (4 + 11 * Z.max 0 (f_trackable_count f)) =
    OK (f_marker_count f).
Proof.
  intros H. apply Frame_init_run in H. destruct H as [idx Hrun].
  rewrite Frame_run_layout in Hrun. unfold Frame_layout in Hrun.
  destruct (getitem fields 0) as [tag|]; cbn [bind] in Hrun; [|discriminate].
  destruct (negb (String.eqb (lower tag) "frame")); [discriminate|].
  destruct (int_at fields 1); cbn [bind] in Hrun; [|discriminate].
  destruct (float_at fields 2); cbn [bind] in Hrun; [|discriminate].
  destruct (int_at fields 3) as [T|]; cbn [bind] in Hrun; [|discriminate].
  destruct (collect _ 11 (Z.to_nat T) 0 4); cbn [bind] in Hrun;
    [|discriminate].
  destruct (int_at fields (4 + 11 * Z.max 0 T)) as [M|] eqn:EM;
    cbn [bind] in Hrun; [|discriminate].
  destruct (collect _ 4 (Z.to_nat M) 0 (4 + 11 * Z.max 0 T + 1));
    cbn [bind] in Hrun; [|discriminate].
  injection Hrun as <- <-. cbn [f_trackable_count f_marker_count].
  split; [reflexivity|exact EM].
Qed.

Lemma TrackableFrame_init_count (fields : row) (tf : TrackableFrame) :
  TrackableFrame_init fields = OK tf ->
  int_at fields 6 = OK (tf_marker_count tf).
Proof.
  intros H. apply TrackableFrame_init_run in H.
  destruct H as (idx1 & idx2 & Hrun).
  rewrite TrackableFrame_run_layout in Hrun.
  unfold TrackableFrame_layout in Hrun.
  destruct (int_at fields 1); cbn [bind] in Hrun; [|discriminate].
  destruct (float_at fields 2); cbn [bind] in Hrun; [|discriminate].
  destruct (getitem fields 3); cbn [bind] in Hrun; [|discriminate].
  destruct (int_at fields 4); cbn [bind] in Hrun; [|discriminate].
  destruct (int_at fields 5); cbn [bind] in Hrun; [|discriminate].
  destruct (int_at fields 6) as [M|]; cbn [bind] in Hrun; [|discriminate].
  destruct (collect _ 3 (Z.to_nat M) 0 7); cbn [bind] in Hrun;
    [|discriminate].
  destruct (collect (fun _ c => Marker_at fields None c) 3 (Z.to_nat M) 0
                    (7 + 3 * Z.max 0 M)); cbn [bind] in Hrun;
    [|discriminate].
  destruct (float_at fields (7 + 3 * Z.max 0 M + 3 * Z.max 0 M + 2 * M));
    cbn [bind] in Hrun; [|discriminate].
  injection Hrun as <- <- <-. reflexivity.
Qed.

(** ** Rows that agree where a constructor reads *)

Section Agree.

Variables X Y : row.
Variable inR : Z -> Prop.
Hypothesis Hagree : forall i, inR i -> getitem Y i = getitem X i.

Lemma float_at_agree (i : Z) : inR i -> float_at Y i = float_at X i.
Proof. intros Hi. unfold float_at. now rewrite Hagree. Qed.

Lemma int_at_agree (i : Z) : inR i -> int_at Y i = int_at X i.
Proof. intros Hi. unfold int_at. now rewrite Hagree. Qed.

Lemma Position_at_agree (c : Z) :
  (forall j, c <= j < c + 3 -> inR j) ->
  Position_at Y c = Position_at X c.
Proof.
  intros H. unfold Position_at.
  now rewrite !float_at_agree by (apply H; lia).
Qed.

Lemma QRot_at_agree (c : Z) :
  (forall j, c <= j < c + 4 -> inR j) -> QRot_at Y c = QRot_at X c.
Proof.
  intros H. unfold QRot_at.
  now rewrite !float_at_agree by (apply H; lia).
Qed.

Lemma ERot_at_agree (c : Z) :
  (forall j, c <= j < c + 3 -> inR j) -> ERot_at Y c = ERot_at X c.
Proof.
  intros H. unfold ERot_at.
  now rewrite !float_at_agree by (apply H; lia).
Qed.

Lemma TrackableState_at_agree (c : Z) :
  (forall j, c <= j < c + 11 -> inR j) ->
  TrackableState_at Y c = TrackableState_at X c.
Proof.
  intros H. unfold TrackableState_at.
  rewrite int_at_agree by (apply H; lia).
  rewrite Position_at_agree by (intros j Hj; apply H; lia).
  rewrite QRot_at_agree by (intros j Hj; apply H; lia).
  rewrite ERot_at_agree by (intros j Hj; apply H; lia).
  reflexivity.
Qed.

Lemma Marker_at_agree (id : option string) (c : Z) :
  (forall j, c <= j < c + 3 -> inR j) ->
  Marker_at Y id c = Marker_at X id c.
Proof. intros H. unfold Marker_at. now rewrite Position_at_agree. Qed.

Lemma Frame_marker_at_agree (c : Z) :
  (forall j, c <= j < c + 4 -> inR j) ->
  Frame_marker_at Y c = Frame_marker_at X c.
Proof.
  intros H. unfold Frame_marker_at.
  rewrite Hagree by (apply H; lia).
  destruct (getitem X (c + 3)); cbn [bind]; [|reflexivity].
  apply Marker_at_agree. intros j Hj. apply H. lia.
Qed.

(** What [Trackable] does after its tag check. *)
Lemma Trackable_layout_agree :
  (forall j, 1 <= j <= 3 -> inR j) ->
  (forall N, int_at X 3 = OK N -> forall j, 4 <= j < 4 + 3 * N -> inR j) ->
  (tag <- getitem Y 0 ;; OK (lower tag)) =
    (tag <- getitem X 0 ;; OK (lower tag)) ->
  Trackable_layout Y = Trackable_layout X.
Proof.
  intros Hhead Hbody Htag. unfold Trackable_layout.
  rewrite (Hagree 1) by (apply Hhead; lia).
  rewrite !int_at_agree by (apply Hhead; lia).
  destruct (getitem Y 0) as [tagY|eY], (getitem X 0) as [tagX|eX];
    cbn [bind] in *; try discriminate.
  2:{ injection Htag as <-. reflexivity. }
  injection Htag as ->.
  destruct (negb (String.eqb (lower tagX) "trackable")); [reflexivity|].
  destruct (getitem X 1); cbn [bind]; [|reflexivity].
  destruct (int_at X 2); cbn [bind]; [|reflexivity].
  destruct (int_at X 3) as [N|] eqn:EN; cbn [bind]; [|reflexivity].
  rewrite (collect_ext (fun _ c => Position_at Y c)
                       (fun _ c => Position_at X c)); [reflexivity|].
  intros j Hj. apply Position_at_agree.
  intros i Hi. apply (Hbody N eq_refl). lia.
Qed.

(** What [Frame] does after its tag check. *)
Lemma Frame_layout_agree :
  (forall j, 1 <= j <= 3 -> inR j) ->
  (forall T, int_at X 3 = OK T ->
             forall j, 4 <= j <= 4 + 11 * Z.max 0 T -> inR j) ->
  (forall T M, int_at X 3 = OK T ->
               int_at X (4 + 11 * Z.max 0 T) = OK M ->
               forall j, 4 + 11 * Z.max 0 T < j
                         < 5 + 11 * Z.max 0 T + 4 * M -> inR j) ->
  (tag <- getitem Y 0 ;; OK (lower tag)) =
    (tag <- getitem X 0 ;; OK (lower tag)) ->
  Frame_layout Y = Frame_layout X.
Proof.
  intros Hhead Hstates Hmarkers Htag. unfold Frame_layout.
  rewrite !int_at_agree by (apply Hhead; lia).
  rewrite float_at_agree by (apply Hhead; lia).
  destruct (getitem Y 0) as [tagY|eY], (getitem X 0) as [tagX|eX];
    cbn [bind] in *; try discriminate.
  2:{ injection Htag as <-. reflexivity. }
  injection Htag as ->.
  destruct (negb (String.eqb (lower tagX) "frame")); [reflexivity|].
  destruct (int_at X 1); cbn [bind]; [|reflexivity].
  destruct (float_at X 2); cbn [bind]; [|reflexivity].
  destruct (int_at X 3) as [T|] eqn:ET; cbn [bind]; [|reflexivity].
  rewrite (collect_ext (fun _ c => TrackableState_at Y c)
                       (fun _ c => TrackableState_at X c)).
  2:{ intros j Hj. apply TrackableState_at_agree.
      intros i Hi. apply (Hstates T eq_refl). lia. }
  destruct (collect _ 11 (Z.to_nat T) 0 4); cbn [bind]; [|reflexivity].
  rewrite int_at_agree by (apply (Hstates T eq_refl); lia).
  destruct (int_at X (4 + 11 * Z.max 0 T)) as [M|] eqn:EM; cbn [bind];
    [|reflexivity].
  rewrite (collect_ext (fun _ c => Frame_marker_at Y c)
                       (fun _ c => Frame_marker_at X c)); [reflexivity|].
  intros j Hj. apply Frame_marker_at_agree.
  intros i Hi. apply (Hmarkers T M eq_refl EM). lia.
Qed.

Lemma TrackableFrame_layout_agree :
  (forall j, 1 <= j <= 6 -> inR j) ->
  (forall M, int_at X 6 = OK M ->
             (forall j, 7 <= j < 7 + 8 * M -> inR j) /\
             inR (7 + 3 * Z.max 0 M + 3 * Z.max 0 M + 2 * M)) ->
  TrackableFrame_layout Y = TrackableFrame_layout X.
Proof.
  intros Hhead Hbody. unfold TrackableFrame_layout.
  rewrite !int_at_agree by (apply Hhead; lia).
  rewrite float_at_agree by (apply Hhead; lia).
  rewrite (Hagree 3) by (apply Hhead; lia).
  destruct (int_at X 1); cbn [bind]; [|reflexivity].
  destruct (float_at X 2); cbn [bind]; [|reflexivity].
  destruct (getitem X 3); cbn [bind]; [|reflexivity].
  destruct (int_at X 4); cbn [bind]; [|reflexivity].
  destruct (int_at X 5); cbn [bind]; [|reflexivity].
  destruct (int_at X 6) as [M|] eqn:EM; cbn [bind]; [|reflexivity].
  destruct (Hbody M eq_refl) as [Hin Hmean].
  rewrite (collect_ext (fun i _ => TrackableMarker_at Y M 7 i)
                       (fun i _ => TrackableMarker_at X M 7 i)).
  2:{ intros j Hj. unfold TrackableMarker_at.
      rewrite !Hagree by (apply Hin; lia).
      rewrite Marker_at_agree by (intros i Hi; apply Hin; lia).
      reflexivity. }
  destruct (collect _ 3 (Z.to_nat M) 0 7); cbn [bind]; [|reflexivity].
  rewrite (collect_ext (fun _ c => Marker_at Y None c)
                       (fun _ c => Marker_at X None c)).
  2:{ intros j Hj. apply Marker_at_agree. intros i Hi. apply Hin. lia. }
  destruct (collect _ 3 (Z.to_nat M) 0 _); cbn [bind]; [|reflexivity].
  rewrite float_at_agree by exact Hmean.
  reflexivity.
Qed.

End Agree.

(** Rows with the same first [n] fields agree below offset [n]. *)
Lemma firstn_agree (X Y : row) (n : nat) :
  firstn n Y = firstn n X ->
  forall i, 0 <= i < Z.of_nat n -> getitem Y i = getitem X i.
Proof.
  intros H i Hi.
  rewrite <- (getitem_firstn Y n i), <- (getitem_firstn X n i) by lia.
  now rewrite H.
Qed.

(** X18. A [Frame] row is read up to offset [5 + 11 T + 4 M] and no further:
    every row with the same fields below that offset decodes to the same
    [Frame]. *)
Theorem Frame_ignores_trailing_fields (X Y : row) (f : Frame) :
  Frame_init X = OK f ->
  let T := f_trackable_count f in
  let M := f_marker_count f in
  0 <= T ->
  0 <= M ->
  firstn (Z.to_nat (5 + TSL * T + 4 * M)) Y =
    firstn (Z.to_nat (5 + TSL * T + 4 * M)) X ->
  Frame_init Y = OK f.
Proof.
  intros HX T M HT HM Hfirst.
  destruct (Frame_init_counts X f HX) as (E3 & EM).
  fold T in E3, EM. fold M in EM. unfold TSL in *.
  replace (Z.max 0 T) with T in EM by lia.
  pose proof (firstn_agree X Y _ Hfirst) as Hagree.
  rewrite <- HX. unfold Frame_init. rewrite !Frame_run_layout.
  rewrite (Frame_layout_agree
             X Y (fun i => 0 <= i < 5 + 11 * T + 4 * M)); trivial.
  - intros i Hi. apply Hagree. lia.
  - intros j Hj. lia.
  - intros T' ET' j Hj. rewrite E3 in ET'. injection ET' as <-. lia.
  - intros T' M' ET' EM' j Hj. rewrite E3 in ET'. injection ET' as <-.
    replace (Z.max 0 T) with T in * by lia.
    rewrite EM in EM'. injection EM' as <-. lia.
  - rewrite (Hagree 0) by lia. reflexivity.
Qed.

(** X19. A [TrackableFrame] row with a count [M] that is not negative is read
    up to offset [8 + 8 M] and no further. *)
Theorem TrackableFrame_ignores_trailing_fields (X Y : row)
        (tf : TrackableFrame) :
  TrackableFrame_init X = OK tf ->
  let M := tf_marker_count tf in
  0 <= M ->
  firstn (Z.to_nat (8 + 8 * M)) Y = firstn (Z.to_nat (8 + 8 * M)) X ->
  TrackableFrame_init Y = OK tf.
Proof.
  intros HX M HM Hfirst.
  pose proof (TrackableFrame_init_count X tf HX) as E6.
  fold M in E6.
  pose proof (firstn_agree X Y _ Hfirst) as Hagree.
  rewrite <- HX. unfold TrackableFrame_init.
  rewrite !TrackableFrame_run_layout.
  rewrite (TrackableFrame_layout_agree
             X Y (fun i => 0 <= i < 8 + 8 * M)); trivial.
  - intros i Hi. apply Hagree. lia.
  - intros j Hj. lia.
  - intros M' EM'. rewrite E6 in EM'. injection EM' as <-.
    split; [intros j Hj; lia|lia].
Qed.

(** X20. Tags are matched without regard to letter case, and beyond that the
    text of the first field plays no part in what a row does: two rows
    that differ in the letter case of the first field only are handled
    alike.  (For a [trackable] row this needs a marker count that is not
    negative.) *)
Theorem dispatch_case_insensitive (self : Run) (tag tag' : string)
        (rest : row) (fp : list row) :
  lower tag = lower tag' ->
  (lower tag = "trackable" ->
   forall M, int_at (tag :: rest) 6 = OK M -> 0 <= M) ->
  dispatch self (tag :: rest) fp = dispatch self (tag' :: rest) fp.
Proof.
  intros Hlow Hcount.
  assert (Hagree : forall i, 1 <= i ->
                             getitem (tag' :: rest) i = getitem (tag :: rest) i)
    by (intros i Hi; now apply getitem_tag_irrelevant).
  assert (Htag : (t <- getitem (tag' :: rest) 0 ;; OK (lower t)) =
                 (t <- getitem (tag :: rest) 0 ;; OK (lower t)))
    by (rewrite !getitem_0; cbn [bind]; now rewrite Hlow).
  unfold dispatch. rewrite !getitem_0, <- Hlow.
  destruct (String.eqb (lower tag) "comment"); [reflexivity|].
  destruct (String.eqb (lower tag) "righthanded"); [reflexivity|].
  unfold dispatch_record. rewrite <- Hlow.
  destruct (String.eqb (lower tag) "info").
  { unfold dispatch_info.
    rewrite (getitem_tag_irrelevant tag tag' rest 1) by lia.
    rewrite (int_at_tag_irrelevant tag tag' rest 2) by lia.
    reflexivity. }
  destruct (String.eqb (lower tag) "frame").
  { unfold Frame_init. rewrite !Frame_run_layout.
    rewrite (Frame_layout_agree (tag :: rest) (tag' :: rest)
                                (fun i => 1 <= i)); trivial;
      intros; lia. }
  destruct (String.eqb_spec (lower tag) "trackable") as [Ht|_];
    [|reflexivity].
  unfold TrackableFrame_init. rewrite !TrackableFrame_run_layout.
  rewrite (TrackableFrame_layout_tag_irrelevant tag tag');
    [reflexivity|].
  now apply Hcount.
Qed.

(** X21. [TrackableState] reads 11 fields: it needs that many, and every list
    with the same first 11 fields gives the same state. *)
Theorem TrackableState_reads_11_fields (X Y : row) (st : TrackableState) :
  TrackableState_init X = OK st ->
  firstn 11 Y = firstn 11 X ->
  11 <= Z.of_nat (List.length X) /\ TrackableState_init Y = OK st.
Proof.
  intros HX Hfirst.
  assert (Hat : forall l, TrackableState_init l = TrackableState_at l 0).
  { intros l. unfold TrackableState_init, TrackableState_at.
    change (getslice l 1 4) with (getslice l 1 (1 + MSL)).
    change (getslice l 4 8) with (getslice l 4 (4 + 4)).
    change (getslice l 8 11) with (getslice l 8 (8 + 3)).
    rewrite Position_init_getslice, QRot_init_getslice, ERot_init_getslice
      by lia.
    reflexivity. }
  split.
  - rewrite Hat in HX. unfold TrackableState_at in HX.
    destruct (int_at X 0); cbn [bind] in HX; [|discriminate].
    destruct (Position_at X (0 + 1)); cbn [bind] in HX; [|discriminate].
    destruct (QRot_at X (0 + 4)); cbn [bind] in HX; [|discriminate].
    destruct (ERot_at X (0 + 8)) as [er|] eqn:Ee; cbn [bind] in HX;
      [|discriminate].
    pose proof (ERot_at_floats X _ _ Ee 10 ltac:(lia)) as H10.
    apply float_at_range in H10; lia.
  - rewrite <- HX, !Hat.
    apply (TrackableState_at_agree X Y (fun i => 0 <= i < 11)).
    + intros i Hi. apply (firstn_agree X Y 11 Hfirst). lia.
    + intros j Hj. lia.
Qed.

(** [Position.toArray]: the attributes in order (the numpy vector as a
    list). *)
Definition Position_toArray (self : Position) : list Float :=
  [x self; y self; z self].

(** X22. A [Position] comes out of exactly the lists that start with three
    floating-point literals, and [toArray] gives back their values in
    order; whatever follows them in the list is ignored. *)
Theorem Position_toArray_of_fields (fields : row) (p : Position) :
  Position_init fields = OK p <->
  exists s0 s1 s2 more,
    fields = s0 :: s1 :: s2 :: more /\
    map float_of_str [s0; s1; s2] = map Some (Position_toArray p).
Proof.
  unfold Position_toArray. split.
  - intros H. unfold Position_init, float_at, py_float in H.
    destruct fields as [|s0 [|s1 [|s2 more]]];
      try (rewrite ?getitem_0, ?getitem_1 in H; cbn [bind] in H;
           repeat match type of H with
                  | context [float_of_str ?s] =>
                    destruct (float_of_str s); cbn [bind] in H
                  end;
           rewrite ?getitem_nonneg in H by lia; simpl in H;
           discriminate).
    rewrite getitem_0, getitem_1, getitem_2 in H. cbn [bind] in H.
    exists s0, s1, s2, more. split; [reflexivity|]. cbn [map].
    destruct (float_of_str s0); cbn [bind] in H; [|discriminate].
    destruct (float_of_str s1); cbn [bind] in H; [|discriminate].
    destruct (float_of_str s2); cbn [bind] in H; [|discriminate].
    injection H as <-. reflexivity.
  - intros (s0 & s1 & s2 & more & -> & H).
    simpl in H. injection H as H0 H1 H2.
    unfold Position_init, float_at, py_float.
    rewrite getitem_0, getitem_1, getitem_2. cbn [bind].
    rewrite H0, H1, H2. cbn [bind]. now destruct p.
Qed.

(** ** A malformed literal in a well-formed row *)

Lemma getitem_replace_field_same (X : row) (j : Z) (raw : string) :
  0 <= j < Z.of_nat (List.length X) ->
  getitem (replace_field X j raw) j = OK raw.
Proof.
  intros Hj. rewrite getitem_nonneg by lia. unfold replace_field.
  rewrite nth_error_app2 by (rewrite length_firstn; lia).
  rewrite length_firstn.
  replace (Z.to_nat j - Nat.min (Z.to_nat j) (List.length X))%nat with O
    by lia.
  reflexivity.
Qed.

Lemma getitem_replace_field_other (X : row) (j : Z) (raw : string) :
  0 <= j < Z.of_nat (List.length X) ->
  forall i, 0 <= i /\ i <> j ->
            getitem (replace_field X j raw) i = getitem X i.
Proof.
  intros Hj i [Hi Hne]. rewrite !getitem_nonneg by lia. unfold replace_field.
  destruct (Z.lt_ge_cases i j) as [Hlt|Hge].
  - rewrite nth_error_app1 by (rewrite length_firstn; lia).
    rewrite nth_error_firstn.
    destruct (Nat.ltb_spec (Z.to_nat i) (Z.to_nat j)); [reflexivity|lia].
  - rewrite nth_error_app2 by (rewrite length_firstn; lia).
    rewrite length_firstn.
    replace (Z.to_nat i - Nat.min (Z.to_nat j) (List.length X))%nat
      with (S (Z.to_nat i - Z.to_nat j - 1)) by lia.
    cbn [nth_error]. rewrite nth_error_skipn.
    replace (S (Z.to_nat j) + (Z.to_nat i - Z.to_nat j - 1))%nat
      with (Z.to_nat i) by lia.
    reflexivity.
Qed.

Lemma getitem_ok_range {A : Type} (l : list A) (i : Z) :
  0 <= i -> is_ok (getitem l i) = true -> i < Z.of_nat (List.length l).
Proof.
  intros Hi H. destruct (getitem l i) eqn:E; [|discriminate].
  eapply getitem_OK_range; eassumption.
Qed.

Lemma int_at_ok_range (fields : row) (i : Z) :
  0 <= i -> is_ok (int_at fields i) = true ->
  i < Z.of_nat (List.length fields).
Proof.
  intros Hi H. destruct (int_at fields i) eqn:E; [|discriminate].
  eapply int_at_range; eassumption.
Qed.

Lemma QRot_at_raise (fields : row) (c d : Z) (e : exn) :
  0 <= d < 4 ->
  (forall i, c <= i < c + d -> is_ok (float_at fields i) = true) ->
  float_at fields (c + d) = Raise e ->
  QRot_at fields c = Raise e.
Proof.
  intros Hd Hbefore Hat. unfold QRot_at.
  assert (Hcases : d = 0 \/ d = 1 \/ d = 2 \/ d = 3) by lia.
  destruct Hcases as [-> | [-> | [-> | ->]]].
  - rewrite Z.add_0_r in Hat. now rewrite Hat.
  - generalize (Hbefore c ltac:(lia)).
    destruct (float_at fields c); [intros _|discriminate].
    cbn [bind]. now rewrite Hat.
  - generalize (Hbefore c ltac:(lia)) (Hbefore (c + 1) ltac:(lia)).
    destruct (float_at fields c); [intros _|discriminate].
    destruct (float_at fields (c + 1)); [intros _|discriminate].
    cbn [bind]. now rewrite Hat.
  - generalize (Hbefore c ltac:(lia)) (Hbefore (c + 1) ltac:(lia))
               (Hbefore (c + 2) ltac:(lia)).
    destruct (float_at fields c); [intros _|discriminate].
    destruct (float_at fields (c + 1)); [intros _|discriminate].
    destruct (float_at fields (c + 2)); [intros _|discriminate].
    cbn [bind]. now rewrite Hat.
Qed.

Lemma ERot_at_raise (fields : row) (c d : Z) (e : exn) :
  0 <= d < 3 ->
  (forall i, c <= i < c + d -> is_ok (float_at fields i) = true) ->
  float_at fields (c + d) = Raise e ->
  ERot_at fields c = Raise e.
Proof.
  intros Hd Hbefore Hat. unfold ERot_at.
  assert (Hcases : d = 0 \/ d = 1 \/ d = 2) by lia.
  destruct Hcases as [-> | [-> | ->]].
  - rewrite Z.add_0_r in Hat. now rewrite Hat.
  - generalize (Hbefore c ltac:(lia)).
    destruct (float_at fields c); [intros _|discriminate].
    cbn [bind]. now rewrite Hat.
  - generalize (Hbefore c ltac:(lia)) (Hbefore (c + 1) ltac:(lia)).
    destruct (float_at fields c); [intros _|discriminate].
    destruct (float_at fields (c + 1)); [intros _|discriminate].
    cbn [bind]. now rewrite Hat.
Qed.

Lemma TrackableState_init_at (fields : row) :
  TrackableState_init fields = TrackableState_at fields 0.
Proof.
  unfold TrackableState_init, TrackableState_at.
  change (getslice fields 1 4) with (getslice fields 1 (1 + MSL)).
  change (getslice fields 4 8) with (getslice fields 4 (4 + 4)).
  change (getslice fields 8 11) with (getslice fields 8 (8 + 3)).
  rewrite Position_init_getslice, QRot_init_getslice, ERot_init_getslice
    by lia.
  reflexivity.
Qed.

Section Replaced.

Variable X : row.
Variable j : Z.
Variable raw : string.
Hypothesis Hj : 0 <= j < Z.of_nat (List.length X).

Lemma replaced_agree :
  forall i, kept_offset j i ->
            getitem (replace_field X j raw) i = getitem X i.
Proof. apply getitem_replace_field_other, Hj. Qed.

Lemma float_at_replaced :
  float_of_str raw = None ->
  float_at (replace_field X j raw) j = Raise (ValueError TFloat raw).
Proof.
  intros Hbad. apply float_at_malformed; [|exact Hbad].
  apply getitem_replace_field_same, Hj.
Qed.

Lemma int_at_replaced :
  int_of_str raw = None ->
  int_at (replace_field X j raw) j = Raise (ValueError TInt raw).
Proof.
  intros Hbad. apply int_at_malformed; [|exact Hbad].
  apply getitem_replace_field_same, Hj.
Qed.

Lemma float_at_kept (i : Z) :
  0 <= i -> i <> j -> float_at (replace_field X j raw) i = float_at X i.
Proof.
  intros Hi Hne.
  apply (float_at_agree X (replace_field X j raw) (kept_offset j)
                        replaced_agree).
  split; assumption.
Qed.

Lemma int_at_kept (i : Z) :
  0 <= i -> i <> j -> int_at (replace_field X j raw) i = int_at X i.
Proof.
  intros Hi Hne.
  apply (int_at_agree X (replace_field X j raw) (kept_offset j)
                      replaced_agree).
  split; assumption.
Qed.

Lemma getitem_kept (i : Z) :
  0 <= i -> i <> j -> getitem (replace_field X j raw) i = getitem X i.
Proof. intros Hi Hne. apply replaced_agree. split; assumption. Qed.

Lemma Position_at_kept (c : Z) :
  0 <= c -> ~ (c <= j < c + 3) ->
  Position_at (replace_field X j raw) c = Position_at X c.
Proof.
  intros Hc Hout.
  apply (Position_at_agree X (replace_field X j raw) (kept_offset j)
                           replaced_agree).
  intros i Hi. split; lia.
Qed.

Lemma Position_at_replaced (c : Z) :
  0 <= c -> c <= j < c + 3 ->
  (forall i, c <= i < c + 3 -> is_ok (float_at X i) = true) ->
  float_of_str raw = None ->
  Position_at (replace_field X j raw) c = Raise (ValueError TFloat raw).
Proof.
  intros Hc Hin Hok Hbad.
  apply (Position_at_raise (replace_field X j raw) c (j - c)); [lia| |].
  - intros i Hi. rewrite float_at_kept by lia. apply Hok. lia.
  - replace (c + (j - c)) with j by lia. now apply float_at_replaced.
Qed.

Lemma QRot_at_replaced (c : Z) :
  0 <= c -> c <= j < c + 4 ->
  (forall i, c <= i < c + 4 -> is_ok (float_at X i) = true) ->
  float_of_str raw = None ->
  QRot_at (replace_field X j raw) c = Raise (ValueError TFloat raw).
Proof.
  intros Hc Hin Hok Hbad.
  apply (QRot_at_raise (replace_field X j raw) c (j - c)); [lia| |].
  - intros i Hi. rewrite float_at_kept by lia. apply Hok. lia.
  - replace (c + (j - c)) with j by lia. now apply float_at_replaced.
Qed.

Lemma ERot_at_replaced (c : Z) :
  0 <= c -> c <= j < c + 3 ->
  (forall i, c <= i < c + 3 -> is_ok (float_at X i) = true) ->
  float_of_str raw = None ->
  ERot_at (replace_field X j raw) c = Raise (ValueError TFloat raw).
Proof.
  intros Hc Hin Hok Hbad.
  apply (ERot_at_raise (replace_field X j raw) c (j - c)); [lia| |].
  - intros i Hi. rewrite float_at_kept by lia. apply Hok. lia.
  - replace (c + (j - c)) with j by lia. now apply float_at_replaced.
Qed.

Lemma TrackableState_at_kept (c : Z) :
  0 <= c -> ~ (c <= j < c + 11) ->
  TrackableState_at (replace_field X j raw) c = TrackableState_at X c.
Proof.
  intros Hc Hout.
  apply (TrackableState_at_agree X (replace_field X j raw) (kept_offset j)
                                 replaced_agree).
  intros i Hi. split; lia.
Qed.

Lemma TrackableState_at_replaced (c : Z) (ty : numtype) :
  0 <= c ->
  TrackableState_wf X c = true ->
  TrackableState_numeric (j - c) = Some ty ->
  rejects ty raw ->
  TrackableState_at (replace_field X j raw) c = Raise (ValueError ty raw).
Proof.
  intros Hc Hwf Hnum Hbad. unfold TrackableState_wf in Hwf.
  apply andb_prop in Hwf as [Hid Hfloats].
  pose proof (all_float_spec _ _ _ Hfloats) as Hf.
  unfold TrackableState_numeric in Hnum. unfold TrackableState_at.
  destruct (Z.eqb_spec (j - c) 0) as [E0|E0].
  - injection Hnum as <-. replace c with j by lia.
    rewrite int_at_replaced by exact Hbad. reflexivity.
  - destruct (Z.leb_spec 1 (j - c)); [|discriminate].
    destruct (Z.leb_spec (j - c) 10); [|discriminate].
    injection Hnum as <-. simpl in Hbad.
    rewrite int_at_kept by lia.
    destruct (int_at X c); [|discriminate]. cbn [bind].
    destruct (Z.lt_ge_cases j (c + 4)) as [H4|H4].
    { rewrite Position_at_replaced; trivial; try lia.
      intros i Hi. apply Hf. lia. }
    rewrite Position_at_kept by lia.
    assert (Hp : is_ok (Position_at X (c + 1)) = true)
      by (apply Position_at_ok; apply Hf; lia).
    destruct (Position_at X (c + 1)); [|discriminate]. cbn [bind].
    destruct (Z.lt_ge_cases j (c + 8)) as [H8|H8].
    { rewrite QRot_at_replaced; trivial; try lia.
      intros i Hi. apply Hf. lia. }
    rewrite (QRot_at_agree X (replace_field X j raw) (kept_offset j)
                           replaced_agree)
      by (intros i Hi; split; lia).
    assert (Hq : is_ok (QRot_at X (c + 4)) = true)
      by (apply QRot_at_ok; intros i Hi; apply Hf; lia).
    destruct (QRot_at X (c + 4)); [|discriminate]. cbn [bind].
    rewrite ERot_at_replaced; trivial; try lia.
    intros i Hi. apply Hf. lia.
Qed.

Lemma Marker_at_kept (id : option string) (c : Z) :
  0 <= c -> ~ (c <= j < c + 3) ->
  Marker_at (replace_field X j raw) id c = Marker_at X id c.
Proof.
  intros Hc Hout. unfold Marker_at. now rewrite Position_at_kept.
Qed.

Lemma Marker_at_replaced (id : option string) (c : Z) :
  0 <= c -> c <= j < c + 3 ->
  (forall i, c <= i < c + 3 -> is_ok (float_at X i) = true) ->
  float_of_str raw = None ->
  Marker_at (replace_field X j raw) id c = Raise (ValueError TFloat raw).
Proof.
  intros Hc Hin Hok Hbad. unfold Marker_at.
  now rewrite Position_at_replaced.
Qed.

End Replaced.

Lemma TrackableState_init_replaced (X : row) (j : Z) (raw : string)
      (ty : numtype) :
  TrackableState_wf X 0 = true ->
  TrackableState_numeric j = Some ty ->
  rejects ty raw ->
  TrackableState_init (replace_field X j raw) = Raise (ValueError ty raw).
Proof.
  intros Hwf Hnum Hbad. rewrite TrackableState_init_at.
  assert (Hj : 0 <= j < Z.of_nat (List.length X)).
  { pose proof Hwf as Hwf'. unfold TrackableState_wf in Hwf'.
    apply andb_prop in Hwf' as [_ Hfloats].
    pose proof (all_float_spec _ _ _ Hfloats 10 ltac:(lia)) as H10.
    apply float_at_range in H10; [|lia].
    unfold TrackableState_numeric in Hnum.
    destruct (Z.eqb_spec j 0); [lia|].
    destruct (Z.leb_spec 1 j); [|discriminate].
    destruct (Z.leb_spec j 10); [|discriminate]. lia. }
  apply TrackableState_at_replaced; trivial; [lia|].
  now rewrite Z.sub_0_r.
Qed.

Lemma Frame_numeric_spec (X : row) (j T M : Z) (ty : numtype) :
  int_at X 3 = OK T ->
  int_at X (4 + 11 * T) = OK M ->
  0 <= T -> 0 <= M ->
  Frame_numeric X j = Some ty ->
  1 <= j < 5 + 11 * T + 4 * M /\
  ((j = 1 /\ ty = TInt) \/
   (j = 2 /\ ty = TFloat) \/
   (j = 3 /\ ty = TInt) \/
   (4 <= j < 4 + 11 * T /\
    TrackableState_numeric ((j - 4) mod 11) = Some ty) \/
   (j = 4 + 11 * T /\ ty = TInt) \/
   (5 + 11 * T <= j < 5 + 11 * T + 4 * M /\
    (j - (5 + 11 * T)) mod 4 <> 3 /\ ty = TFloat)).
Proof.
  intros ET EM HT0 HM0 Hnum. unfold Frame_numeric in Hnum.
  rewrite ET, EM in Hnum.
  destruct (Z.eqb_spec j 1) as [E1|E1].
  { injection Hnum as <-. split; [lia|]. left. now split. }
  destruct (Z.eqb_spec j 3) as [E3|E3].
  { injection Hnum as <-. split; [lia|]. right. right. left. now split. }
  cbn [orb] in Hnum.
  destruct (Z.eqb_spec j 2) as [E2|E2].
  { injection Hnum as <-. split; [lia|]. right. left. now split. }
  destruct (Z.leb_spec 4 j) as [H4|H4]; cbn [andb] in Hnum.
  - destruct (Z.ltb_spec j (4 + 11 * T)) as [HT|HT].
    { split; [lia|]. do 3 right. left. now split. }
    destruct (Z.eqb_spec j (4 + 11 * T)) as [E|E].
    { injection Hnum as <-. split; [lia|]. do 4 right. left. now split. }
    destruct (Z.leb_spec (5 + 11 * T) j) as [H5|H5]; cbn [andb] in Hnum;
      [|discriminate].
    destruct (Z.ltb_spec j (5 + 11 * T + 4 * M)) as [HM|HM];
      cbn [andb] in Hnum; [|discriminate].
    destruct (Z.eqb_spec ((j - (5 + 11 * T)) mod 4) 3) as [E4|E4];
      cbn [negb] in Hnum; [discriminate|].
    injection Hnum as <-. split; [lia|]. do 5 right. repeat split; trivial.
  - destruct (Z.eqb_spec j (4 + 11 * T)) as [E|E]; [lia|].
    destruct (Z.leb_spec (5 + 11 * T) j) as [H5|H5]; [lia|].
    discriminate.
Qed.

(** One malformed number in a [Frame] row that is well-formed otherwise. *)
Lemma Frame_init_replaced (X : row) (j : Z) (raw : string) (ty : numtype) :
  Frame_wf X = true ->
  Frame_numeric X j = Some ty ->
  rejects ty raw ->
  Frame_init (replace_field X j raw) = Raise (ValueError ty raw).
Proof.
  intros Hwf Hnum Hbad. unfold Frame_wf in Hwf.
  destruct (getitem X 0) as [tag|] eqn:Etag; [|discriminate].
  destruct (int_at X 3) as [T|] eqn:ET; [|discriminate].
  apply andb_prop in Hwf as [Hwf Hmarkers].
  apply andb_prop in Hwf as [Hwf Hstates].
  apply andb_prop in Hwf as [Hwf HT0].
  apply andb_prop in Hwf as [Hwf Hts].
  apply andb_prop in Hwf as [Htag Hidx].
  apply Z.leb_le in HT0. apply String.eqb_eq in Htag.
  destruct (int_at X (4 + 11 * T)) as [M|] eqn:EM; [|discriminate].
  apply andb_prop in Hmarkers as [HM0 Hmarkers]. apply Z.leb_le in HM0.
  pose proof (forallb_offsets _ _ _ Hstates) as Hst.
  pose proof (forallb_offsets _ _ _ Hmarkers) as Hmk.
  cbv beta in Hst, Hmk.
  assert (Hlen : 5 + 11 * T + 4 * M <= Z.of_nat (List.length X)).
  { destruct (Z.eq_dec M 0) as [HM|HM].
    - pose proof (int_at_range X (4 + 11 * T) M ltac:(lia) EM). lia.
    - pose proof (Hmk (M - 1) ltac:(lia)) as H.
      unfold Frame_marker_wf in H. apply andb_prop in H as [_ H].
      apply getitem_ok_range in H; lia. }
  destruct (Frame_numeric_spec X j T M ty ET EM HT0 HM0 Hnum)
    as [Hrange Hcls].
  assert (Hj : 0 <= j < Z.of_nat (List.length X)) by lia.
  assert (Hstates_kept :
            forall i, (i < Z.to_nat T)%nat ->
                      ~ (4 + 11 * Z.of_nat i <= j < 4 + 11 * Z.of_nat i + 11) ->
                      is_ok (TrackableState_at (replace_field X j raw)
                                               (4 + 11 * Z.of_nat i)) = true).
  { intros i Hi Hout. rewrite TrackableState_at_kept by (trivial; lia).
    apply TrackableState_at_ok, Hst. lia. }
  unfold Frame_init. rewrite Frame_run_layout. unfold Frame_layout.
  rewrite (getitem_kept X j raw Hj 0) by lia.
  rewrite Etag. cbn [bind]. rewrite Htag.
  change (String.eqb "frame" "frame") with true. cbn [negb].
  destruct Hcls as [[Ej Ety]|[[Ej Ety]|[[Ej Ety]|[[Ej Ety]|[[Ej Ety]|
                   (Ej & Emod & Ety)]]]]].
  - (* the frame index *)
    subst ty. rewrite <- Ej. rewrite int_at_replaced; trivial.
  - (* the timestamp *)
    subst ty. rewrite (int_at_kept X j raw Hj 1) by lia.
    destruct (int_at X 1); [|discriminate]. cbn [bind].
    rewrite <- Ej. rewrite float_at_replaced; trivial.
  - (* the trackable count *)
    subst ty. rewrite (int_at_kept X j raw Hj 1) by lia.
    destruct (int_at X 1); [|discriminate]. cbn [bind].
    rewrite (float_at_kept X j raw Hj 2) by lia.
    destruct (float_at X 2); [|discriminate]. cbn [bind].
    rewrite <- Ej. rewrite int_at_replaced; trivial.
  - (* a field of trackable state [k] *)
    rewrite (int_at_kept X j raw Hj 1) by lia.
    destruct (int_at X 1); [|discriminate]. cbn [bind].
    rewrite (float_at_kept X j raw Hj 2) by lia.
    destruct (float_at X 2); [|discriminate]. cbn [bind].
    rewrite (int_at_kept X j raw Hj 3) by lia. rewrite ET. cbn [bind].
    pose proof (Z.div_mod (j - 4) 11 ltac:(lia)) as Hdm.
    pose proof (Z.mod_pos_bound (j - 4) 11 ltac:(lia)) as Hmb.
    set (k := (j - 4) / 11) in *.
    rewrite (collect_raise
               (fun _ c => TrackableState_at (replace_field X j raw) c) 11
               (Z.to_nat T) 0 4 (Z.to_nat k) (ValueError ty raw));
      [reflexivity|lia| |].
    + intros i Hi. cbv beta. apply Hstates_kept; lia.
    + cbv beta. apply TrackableState_at_replaced; trivial; [lia| |].
      * apply Hst. lia.
      * replace (j - (4 + 11 * Z.of_nat (Z.to_nat k)))
          with ((j - 4) mod 11) by lia.
        exact Ety.
  - (* the marker count *)
    subst ty. rewrite (int_at_kept X j raw Hj 1) by lia.
    destruct (int_at X 1); [|discriminate]. cbn [bind].
    rewrite (float_at_kept X j raw Hj 2) by lia.
    destruct (float_at X 2); [|discriminate]. cbn [bind].
    rewrite (int_at_kept X j raw Hj 3) by lia. rewrite ET. cbn [bind].
    destruct (collect_ok
                (fun _ c => TrackableState_at (replace_field X j raw) c) 11
                (Z.to_nat T) 0 4) as [states Hs].
    { intros i Hi. cbv beta. apply Hstates_kept; lia. }
    rewrite Hs. cbn [bind]. rewrite Z.max_r by lia.
    rewrite <- Ej. rewrite int_at_replaced; trivial.
  - (* a coordinate of marker [k] *)
    subst ty. rewrite (int_at_kept X j raw Hj 1) by lia.
    destruct (int_at X 1); [|discriminate]. cbn [bind].
    rewrite (float_at_kept X j raw Hj 2) by lia.
    destruct (float_at X 2); [|discriminate]. cbn [bind].
    rewrite (int_at_kept X j raw Hj 3) by lia. rewrite ET. cbn [bind].
    destruct (collect_ok
                (fun _ c => TrackableState_at (replace_field X j raw) c) 11
                (Z.to_nat T) 0 4) as [states Hs].
    { intros i Hi. cbv beta. apply Hstates_kept; lia. }
    rewrite Hs. cbn [bind]. rewrite Z.max_r by lia.
    rewrite (int_at_kept X j raw Hj (4 + 11 * T)) by lia.
    rewrite EM. cbn [bind].
    pose proof (Z.div_mod (j - (5 + 11 * T)) 4 ltac:(lia)) as Hdm.
    pose proof (Z.mod_pos_bound (j - (5 + 11 * T)) 4 ltac:(lia)) as Hmb.
    set (k := (j - (5 + 11 * T)) / 4) in *.
    rewrite (collect_raise
               (fun _ c => Frame_marker_at (replace_field X j raw) c) 4
               (Z.to_nat M) 0 (4 + 11 * T + 1) (Z.to_nat k)
               (ValueError TFloat raw));
      [reflexivity|lia| |].
    + intros i Hi. cbv beta.
      rewrite (Frame_marker_at_agree X (replace_field X j raw)
                                     (kept_offset j)
                                     (replaced_agree X j raw Hj))
        by (intros i' Hi'; split; lia).
      apply Frame_marker_at_ok.
      replace (4 + 11 * T + 1 + 4 * Z.of_nat i)
        with (5 + 11 * T + 4 * Z.of_nat i) by lia.
      apply Hmk. lia.
    + cbv beta.
      replace (4 + 11 * T + 1 + 4 * Z.of_nat (Z.to_nat k))
        with (5 + 11 * T + 4 * k) by lia.
      pose proof (Hmk k ltac:(lia)) as Hk. unfold Frame_marker_wf in Hk.
      apply andb_prop in Hk as [Hfl Hid].
      unfold Frame_marker_at.
      rewrite (getitem_kept X j raw Hj) by lia.
      destruct (getitem X (5 + 11 * T + 4 * k + 3)); [|discriminate].
      cbn [bind]. apply Marker_at_replaced; trivial; [lia|lia|].
      intros i Hi. apply (all_float_spec X (5 + 11 * T + 4 * k) 3); trivial.
Qed.

Lemma TrackableFrame_numeric_spec (X : row) (j M : Z) (ty : numtype) :
  int_at X 6 = OK M ->
  0 <= M ->
  TrackableFrame_numeric X j = Some ty ->
  1 <= j <= 7 + 8 * M /\
  (j < 7 + 6 * M \/ j = 7 + 8 * M) /\
  ((ty = TInt /\ (j = 1 \/ j = 4 \/ j = 5 \/ j = 6)) \/
   (ty = TFloat /\ j = 2) \/
   (ty = TFloat /\ 7 <= j < 7 + 3 * M) \/
   (ty = TFloat /\ 7 + 3 * M <= j < 7 + 6 * M) \/
   (ty = TFloat /\ j = 7 + 8 * M)).
Proof.
  intros EM HM0 Hnum. unfold TrackableFrame_numeric in Hnum.
  rewrite EM in Hnum.
  destruct (Z.eqb_spec j 1) as [E1|E1].
  { injection Hnum as <-. repeat split; try lia.
    left. split; [reflexivity|lia]. }
  destruct (Z.eqb_spec j 4) as [E4|E4].
  { injection Hnum as <-. repeat split; try lia.
    left. split; [reflexivity|lia]. }
  destruct (Z.eqb_spec j 5) as [E5|E5].
  { injection Hnum as <-. repeat split; try lia.
    left. split; [reflexivity|lia]. }
  destruct (Z.eqb_spec j 6) as [E6|E6].
  { injection Hnum as <-. repeat split; try lia.
    left. split; [reflexivity|lia]. }
  cbn [orb] in Hnum.
  destruct (Z.eqb_spec j 2) as [E2|E2].
  { injection Hnum as <-. repeat split; try lia. right. left. now split. }
  destruct (Z.leb_spec 7 j) as [H7|H7]; cbn [andb orb] in Hnum.
  - destruct (Z.ltb_spec j (7 + 6 * M)) as [H6|H6]; cbn [orb] in Hnum.
    + injection Hnum as <-. repeat split; try lia.
      destruct (Z.lt_ge_cases j (7 + 3 * M)).
      * do 2 right. left. split; [reflexivity|lia].
      * do 3 right. left. split; [reflexivity|lia].
    + destruct (Z.eqb_spec j (7 + 8 * M)) as [E|E]; [|discriminate].
      injection Hnum as <-. repeat split; try lia.
      do 4 right. now split.
  - destruct (Z.eqb_spec j (7 + 8 * M)) as [E|E]; [lia|discriminate].
Qed.

(** The header fields before field [j] are read as before. *)
Ltac kept_header X j raw Hj EM :=
  try (rewrite (int_at_kept X j raw Hj 1) by lia;
       destruct (int_at X 1); [|discriminate]; cbn [bind];
  try (rewrite (float_at_kept X j raw Hj 2) by lia;
       destruct (float_at X 2); [|discriminate]; cbn [bind];
  try (rewrite (getitem_kept X j raw Hj 3) by lia;
       destruct (getitem X 3); [|discriminate]; cbn [bind];
  try (rewrite (int_at_kept X j raw Hj 4) by lia;
       destruct (int_at X 4); [|discriminate]; cbn [bind];
  try (rewrite (int_at_kept X j raw Hj 5) by lia;
       destruct (int_at X 5); [|discriminate]; cbn [bind];
  try (rewrite (int_at_kept X j raw Hj 6) by lia;
       rewrite EM; cbn [bind])))))).

(** One malformed number in a [TrackableFrame] row that is well-formed
    otherwise. *)
Lemma TrackableFrame_init_replaced (X : row) (j : Z) (raw : string)
      (ty : numtype) :
  TrackableFrame_wf X = true ->
  TrackableFrame_numeric X j = Some ty ->
  rejects ty raw ->
  TrackableFrame_init (replace_field X j raw) = Raise (ValueError ty raw).
Proof.
  intros Hwf Hnum Hbad. unfold TrackableFrame_wf in Hwf.
  destruct (int_at X 6) as [M|] eqn:EM; [|discriminate].
  apply andb_prop in Hwf as [Hwf Hmean].
  apply andb_prop in Hwf as [Hwf Hpresent].
  apply andb_prop in Hwf as [Hwf Hfloats].
  apply andb_prop in Hwf as [Hwf HM0].
  apply andb_prop in Hwf as [Hwf H5].
  apply andb_prop in Hwf as [Hwf H4].
  apply andb_prop in Hwf as [Hwf H3].
  apply andb_prop in Hwf as [H1 H2].
  apply Z.leb_le in HM0.
  pose proof (all_float_spec _ _ _ Hfloats) as Hf.
  pose proof (all_present_spec _ _ _ Hpresent) as Hp.
  assert (Hlen : 7 + 8 * M < Z.of_nat (List.length X))
    by (apply float_at_range; [lia|exact Hmean]).
  destruct (TrackableFrame_numeric_spec X j M ty EM HM0 Hnum)
    as (Hrange & Hnot & Hcls).
  assert (Hj : 0 <= j < Z.of_nat (List.length X)) by lia.
  assert (Hmarker_kept :
            forall i, 0 <= i < M -> ~ (7 + 3 * i <= j < 7 + 3 * i + 3) ->
                      is_ok (TrackableMarker_at (replace_field X j raw)
                                                M 7 i) = true).
  { intros i Hi Hout. unfold TrackableMarker_at.
    rewrite (getitem_kept X j raw Hj (7 + 6 * M + i)) by lia.
    generalize (Hp (7 + 6 * M + i) ltac:(lia)).
    destruct (getitem X (7 + 6 * M + i)); [intros _|discriminate].
    cbn [bind].
    rewrite (getitem_kept X j raw Hj (7 + 7 * M + i)) by lia.
    generalize (Hp (7 + 7 * M + i) ltac:(lia)).
    destruct (getitem X (7 + 7 * M + i)); [intros _|discriminate].
    cbn [bind].
    rewrite Marker_at_kept by (trivial; lia).
    assert (Hm : is_ok (Marker_at X None (7 + 3 * i)) = true)
      by (apply Marker_at_ok; intros i' Hi'; apply Hf; lia).
    destruct (Marker_at X None (7 + 3 * i)); [|discriminate].
    reflexivity. }
  assert (Hptcld_kept :
            forall i, 0 <= i < M ->
                      ~ (7 + 3 * M + 3 * i <= j < 7 + 3 * M + 3 * i + 3) ->
                      is_ok (Marker_at (replace_field X j raw) None
                                       (7 + 3 * M + 3 * i)) = true).
  { intros i Hi Hout. rewrite Marker_at_kept by (trivial; lia).
    apply Marker_at_ok. intros i' Hi'. apply Hf. lia. }
  unfold TrackableFrame_init. rewrite TrackableFrame_run_layout.
  unfold TrackableFrame_layout.
  destruct Hcls as [[Ety Ej]|[[Ety Ej]|[[Ety Ej]|[[Ety Ej]|[Ety Ej]]]]];
    subst ty.
  - (* index, id, last-tracked frame or marker count *)
    destruct Ej as [Ej|[Ej|[Ej|Ej]]]; kept_header X j raw Hj EM;
      rewrite <- Ej; rewrite int_at_replaced; trivial.
  - (* the timestamp *)
    kept_header X j raw Hj EM. rewrite <- Ej.
    rewrite float_at_replaced; trivial.
  - (* a coordinate of trackable marker [k] *)
    kept_header X j raw Hj EM.
    pose proof (Z.div_mod (j - 7) 3 ltac:(lia)) as Hdm.
    pose proof (Z.mod_pos_bound (j - 7) 3 ltac:(lia)) as Hmb.
    set (k := (j - 7) / 3) in *.
    rewrite (collect_raise
               (fun i _ => TrackableMarker_at (replace_field X j raw) M 7 i)
               3 (Z.to_nat M) 0 7 (Z.to_nat k) (ValueError TFloat raw));
      [reflexivity|lia| |].
    + intros i Hi. cbv beta. apply Hmarker_kept; lia.
    + cbv beta. replace (0 + Z.of_nat (Z.to_nat k)) with k by lia.
      unfold TrackableMarker_at.
      rewrite (getitem_kept X j raw Hj (7 + 6 * M + k)) by lia.
      generalize (Hp (7 + 6 * M + k) ltac:(lia)).
      destruct (getitem X (7 + 6 * M + k)); [intros _|discriminate].
      cbn [bind].
      rewrite (getitem_kept X j raw Hj (7 + 7 * M + k)) by lia.
      generalize (Hp (7 + 7 * M + k) ltac:(lia)).
      destruct (getitem X (7 + 7 * M + k)); [intros _|discriminate].
      cbn [bind].
      rewrite Marker_at_replaced; trivial; try lia.
      intros i Hi. apply Hf. lia.
  - (* a coordinate of point-cloud marker [k] *)
    kept_header X j raw Hj EM.
    destruct (collect_ok
                (fun i _ => TrackableMarker_at (replace_field X j raw) M 7 i)
                3 (Z.to_nat M) 0 7) as [markers Hms].
    { intros i Hi. cbv beta. apply Hmarker_kept; lia. }
    rewrite Hms. cbn [bind]. rewrite Z.max_r by lia.
    pose proof (Z.div_mod (j - (7 + 3 * M)) 3 ltac:(lia)) as Hdm.
    pose proof (Z.mod_pos_bound (j - (7 + 3 * M)) 3 ltac:(lia)) as Hmb.
    set (k := (j - (7 + 3 * M)) / 3) in *.
    rewrite (collect_raise
               (fun _ c => Marker_at (replace_field X j raw) None c)
               3 (Z.to_nat M) 0 (7 + 3 * M) (Z.to_nat k)
               (ValueError TFloat raw));
      [reflexivity|lia| |].
    + intros i Hi. cbv beta. apply Hptcld_kept; lia.
    + cbv beta. apply Marker_at_replaced; trivial; try lia.
      intros i Hi. apply Hf. lia.
  - (* the mean error *)
    kept_header X j raw Hj EM.
    destruct (collect_ok
                (fun i _ => TrackableMarker_at (replace_field X j raw) M 7 i)
                3 (Z.to_nat M) 0 7) as [markers Hms].
    { intros i Hi. cbv beta. apply Hmarker_kept; lia. }
    rewrite Hms. cbn [bind]. rewrite Z.max_r by lia.
    destruct (collect_ok
                (fun _ c => Marker_at (replace_field X j raw) None c)
                3 (Z.to_nat M) 0 (7 + 3 * M)) as [ptcld Hps].
    { intros i Hi. cbv beta. apply Hptcld_kept; lia. }
    rewrite Hps. cbn [bind].
    replace (7 + 3 * M + 3 * M + 2 * M) with j by lia.
    rewrite float_at_replaced; trivial.
Qed.


End Decoder.

Arguments marker_id {Float} _.
Arguments marker_pos {Float} _.
Arguments tm_marker {Float} _.
Arguments tracked {Float} _.
Arguments quality {Float} _.
Arguments t_name {Float} _.
Arguments t_id {Float} _.
Arguments t_num_markers {Float} _.
Arguments t_markers {Float} _.
Arguments f_trackable_count {Float} _.
Arguments f_trackable_states {Float} _.
Arguments f_marker_count {Float} _.
Arguments f_markers {Float} _.
Arguments tf_marker_count {Float} _.
Arguments tf_markers {Float} _.
Arguments tf_ptcld_markers {Float} _.
Arguments tf_mean_error {Float} _.
Arguments trackables {Float} _.
Arguments frames {Float} _.
Arguments trackable_frames {Float} _.
Arguments coord_type {Float} _.
Arguments framecount {Float} _.
Arguments trackablecount {Float} _.
Arguments Run_init {Float}.
Arguments mkRun {Float} _ _ _ _ _ _.
Arguments set_coord_type {Float} _ _.
Arguments set_trackablecount {Float} _ _.

(** * The decoders on concrete rows

    The decoders run on rows of plain decimal literals, with rationals for
    floating-point values. *)

Import Literals.

(** A [Trackable] row with two markers. *)
Definition trackable_row : row :=
  ["Trackable"; "wand"; "3"; "2";
   "0.5"; "1.5"; "2.5";
   "-1"; "0"; "4.25"].

(** A [Frame] row with one trackable state and two markers. *)
Definition frame_row : row :=
  ["frame"; "12"; "0.12"; "1";
   "3"; "0.5"; "1.5"; "2.5"; "0"; "0"; "0"; "1"; "10"; "20"; "30";
   "2";
   "1"; "2"; "3"; "m1";
   "4"; "5"; "6"; "m2"].

(** A [TrackableFrame] row with two markers: header, two trackable-marker
    positions (offsets 7 to 12), two point-cloud positions (13 to 18), the
    tracked fields (19, 20), the quality fields (21, 22), the mean error
    (23). *)
Definition trackable_frame_row : row :=
  ["trackable"; "10"; "0.25"; "wand"; "3"; "9"; "2";
   "1"; "2"; "3"; "4"; "5"; "6";
   "7"; "8"; "9"; "10"; "11"; "12";
   "T0"; "T1";
   "Q0"; "Q1";
   "0.5"].

(** A [TrackableFrame] row with one marker and one field after the mean
    error (offset 15). *)
Definition trackable_frame_row_1 : row :=
  ["trackable"; "10"; "0.25"; "wand"; "3"; "9"; "1";
   "1"; "2"; "3";
   "4"; "5"; "6";
   "T0";
   "Q0";
   "0.5";
   "99"].

(** Two loads with a malformed integer: the id of the trackable in row 1,
    and the marker count of the trackable in row 2. *)
Definition load_bad_id : list row :=
  [["info"; "trackablecount"; "1"];
   ["trackable"; "wand"; "4x"; "0"]].

Definition load_bad_count : list row :=
  [["comment"];
   ["info"; "trackablecount"; "1"];
   ["trackable"; "wand"; "3"; "4x"]].

Example Position_of_literals :
  Position_init Q float_literal ["1.5"; "2.5"; "3.5"] =
  OK (mkPosition Q (3 # 2) (5 # 2) (7 # 2)).
Proof. reflexivity. Qed.

Example framecount_mixed_case :
  ReadFile Q int_literal float_literal Run_init [["Info"; "FrameCount"; "42"]] =
  (mkRun [] [] [] LEFT_HANDED 42 0, None).
Proof. vm_compute. reflexivity. Qed.

(** ** Instances of the theorems *)

Lemma comment_row_no_effect_witness :
  lower "Comment" = "comment" /\
  ReadFile Q int_literal float_literal Run_init
           (["Comment"; "ignored"] :: [["Info"; "FrameCount"; "42"]]) =
  ReadFile Q int_literal float_literal Run_init [["Info"; "FrameCount"; "42"]].
Proof.
  split; [reflexivity|].
  apply (comment_row_no_effect Q int_literal float_literal Run_init
                               "Comment" ["ignored"]).
  reflexivity.
Defined.

Lemma handedness_fallback_witness :
  coord_type
    (fst (fst (dispatch Q int_literal float_literal Run_init
                        ["frame"; "oops"] []))) = LEFT_HANDED /\
  dispatch Q int_literal float_literal
           (set_coord_type Run_init LEFT_HANDED) ["RightHanded"] [] =
  (set_coord_type (set_coord_type Run_init LEFT_HANDED) RIGHT_HANDED,
   [], None).
Proof.
  split.
  - apply (handedness_fallback Q int_literal float_literal Run_init
                               "frame" "RightHanded" ["oops"] [] []).
    + discriminate.
    + discriminate.
    + reflexivity.
  - apply (handedness_fallback Q int_literal float_literal
                               (set_coord_type Run_init LEFT_HANDED)
                               "frame" "RightHanded" [] [] []).
    + discriminate.
    + discriminate.
    + reflexivity.
Defined.

Lemma trackablecount_reads_next_rows_witness :
  exists t1 t2,
    Trackable_init Q int_literal float_literal trackable_row = OK t1 /\
    Trackable_init Q int_literal float_literal
                   ["trackable"; "probe"; "4"; "0"] = OK t2 /\
    ReadFile Q int_literal float_literal Run_init
             (["info"; "trackablecount"; "2"]
                :: [trackable_row; ["trackable"; "probe"; "4"; "0"]]
                ++ [["comment"; "next"]]) =
    ReadFile Q int_literal float_literal
             (mkRun [t1; t2] [] [] LEFT_HANDED 0 2) [["comment"; "next"]].
Proof.
  eexists. eexists.
  split; [vm_compute; reflexivity|].
  split; [vm_compute; reflexivity|].
  apply (trackablecount_reads_next_rows
           Q int_literal float_literal Run_init
           "info" "trackablecount" "2" [] 2
           [trackable_row; ["trackable"; "probe"; "4"; "0"]]).
  - reflexivity.
  - reflexivity.
  - reflexivity.
  - lia.
  - reflexivity.
  - repeat constructor.
Defined.

Lemma Trackable_consumes_witness :
  Trackable_wf Q int_literal float_literal trackable_row = true /\
  exists t,
    Trackable_run Q int_literal float_literal trackable_row = OK (t, 10) /\
    List.length (t_markers t) = 2%nat.
Proof.
  split; [vm_compute; reflexivity|].
  destruct (Trackable_consumes Q int_literal float_literal trackable_row)
    as (t & N & Hrun & _ & HN & _ & _ & _ & Hlen & _).
  - vm_compute. reflexivity.
  - assert (E : N = 2)
      by (vm_compute in HN; injection HN as <-; reflexivity).
    rewrite E in Hrun, Hlen. exists t. split; [exact Hrun|lia].
Defined.

Lemma Frame_consumes_witness :
  Frame_wf Q int_literal float_literal frame_row = true /\
  exists f,
    Frame_run Q int_literal float_literal frame_row = OK (f, 24) /\
    List.length (f_trackable_states f) = 1%nat /\
    List.length (f_markers f) = 2%nat.
Proof.
  split; [vm_compute; reflexivity|].
  destruct (Frame_consumes Q int_literal float_literal frame_row)
    as (f & T & M & Hrun & _ & HT & _ & HlenT & _ & HM & _ & HlenM & _).
  - vm_compute. reflexivity.
  - assert (ET : T = 1)
      by (vm_compute in HT; injection HT as <-; reflexivity).
    rewrite ET in Hrun, HlenT, HM.
    assert (EM : M = 2)
      by (vm_compute in HM; injection HM as <-; reflexivity).
    rewrite EM in Hrun, HlenM.
    exists f. repeat split; [exact Hrun|lia|lia].
Defined.

Lemma TrackableFrame_second_pass_witness :
  TrackableFrame_wf Q int_literal float_literal trackable_frame_row = true /\
  exists tf,
    TrackableFrame_run Q int_literal float_literal trackable_frame_row =
      OK (tf, 13, 19) /\
    List.length (tf_ptcld_markers tf) = 2%nat /\
    float_at Q float_literal trackable_frame_row (19 + 2 * 2) =
      OK (tf_mean_error tf).
Proof.
  split; [vm_compute; reflexivity|].
  destruct (TrackableFrame_second_pass Q int_literal float_literal
                                       trackable_frame_row)
    as (tf & M & idx1 & idx2 & Hrun & HM & _ & H1 & _ & H2 & Hlen & _ & Hme).
  - vm_compute. reflexivity.
  - assert (EM : M = 2).
    { rewrite <- HM. generalize Hrun. vm_compute.
      intros E. injection E as <- _ _. reflexivity. }
    rewrite EM in H1, H2, Hlen, Hme. rewrite H1 in H2. rewrite H2 in Hme.
    rewrite H1, H2 in Hrun.
    exists tf. repeat split; [exact Hrun|lia|exact Hme].
Defined.

Lemma TrackableFrame_tracked_quality_witness :
  TrackableFrame_wf Q int_literal float_literal trackable_frame_row = true /\
  exists tf m,
    TrackableFrame_init Q int_literal float_literal trackable_frame_row =
      OK tf /\
    nth_error (tf_markers tf) 1 = Some m /\
    getitem trackable_frame_row 20 = OK (tracked m) /\
    getitem trackable_frame_row 22 = OK (quality m).
Proof.
  split; [vm_compute; reflexivity|].
  destruct (TrackableFrame_tracked_quality Q int_literal float_literal
                                           trackable_frame_row)
    as (tf & M & Hinit & HM & _ & Hmarkers).
  - vm_compute. reflexivity.
  - assert (EM : M = 2).
    { rewrite <- HM. generalize Hinit. vm_compute.
      intros E. injection E as <-. reflexivity. }
    destruct (Hmarkers 1 ltac:(lia)) as (m & Hm & _ & Ht & Hq & Et & Eq).
    rewrite Et in Ht. rewrite Eq in Hq. rewrite EM in Ht, Hq.
    exists tf, m. repeat split; assumption.
Defined.

Lemma TrackableFrame_mean_error_offset_witness :
  TrackableFrame_wf Q int_literal float_literal trackable_frame_row_1 = true /\
  exists tf,
    TrackableFrame_init Q int_literal float_literal trackable_frame_row_1 =
      OK tf /\
    float_at Q float_literal trackable_frame_row_1 15 = OK (tf_mean_error tf).
Proof.
  split; [vm_compute; reflexivity|].
  destruct (TrackableFrame_mean_error_offset Q int_literal float_literal
                                             trackable_frame_row_1)
    as (tf & M & Hinit & _ & HM & Hme).
  - vm_compute. reflexivity.
  - assert (EM : M = 1)
      by (vm_compute in HM; injection HM as <-; reflexivity).
    rewrite EM in Hme. exists tf. split; assumption.
Defined.



(** ** Where the specification departs from the code *)

(** C1 as stated fails: with two markers, the tracked field of marker 1
    is not the field at [7 + (2 - 1) * 3 + 2 * 3 + 1 = 17], nor its quality
    field the one at [7 + (2 - 1) * 3 + 2 * 3 + 2 + 1 = 19]; these offsets
    hold a point-cloud coordinate and the tracked field of marker 0. *)
Lemma tracked_quality_not_relative_to_base :
  exists tf m,
    TrackableFrame_init Q int_literal float_literal trackable_frame_row =
      OK tf /\
    tf_marker_count tf = 2 /\
    nth_error (tf_markers tf) 1 = Some m /\
    getitem trackable_frame_row (7 + (2 - 1) * 3 + 2 * 3 + 1) = OK "11" /\
    getitem trackable_frame_row (7 + (2 - 1) * 3 + 2 * 3 + 2 + 1) = OK "T0" /\
    getitem trackable_frame_row (7 + (2 - 1) * 3 + 2 * 3 + 1)
      <> OK (tracked m) /\
    getitem trackable_frame_row (7 + (2 - 1) * 3 + 2 * 3 + 2 + 1)
      <> OK (quality m).
Proof.
  eexists. eexists.
  split; [vm_compute; reflexivity|].
  split; [reflexivity|].
  split; [reflexivity|].
  split; [reflexivity|].
  split; [reflexivity|].
  split; vm_compute; discriminate.
Qed.

(** C2 as stated fails: with one marker, the mean error is not the field
    at [7 + 7 * 1 + 2 * 1 = 16]. *)
Lemma mean_error_not_at_9M :
  exists tf,
    TrackableFrame_init Q int_literal float_literal trackable_frame_row_1 =
      OK tf /\
    tf_marker_count tf = 1 /\
    float_at Q float_literal trackable_frame_row_1 (7 + 7 * 1 + 2 * 1)
      = OK (99 # 1) /\
    float_at Q float_literal trackable_frame_row_1 (7 + 7 * 1 + 2 * 1)
      <> OK (tf_mean_error tf).
Proof.
  eexists.
  split; [vm_compute; reflexivity|].
  split; [reflexivity|].
  split; [reflexivity|].
  vm_compute. discriminate.
Qed.



Arguments set_framecount {Float} _ _.
Arguments append_frame {Float} _ _.
Arguments append_trackable_frame {Float} _ _.

(** ** Instances of the further properties *)

Lemma info_framecount_row_witness :
  ReadFile Q int_literal float_literal Run_init
           (["Info"; "FrameCount"; "42"] :: [["comment"]]) =
    ReadFile Q int_literal float_literal
             (set_framecount (set_coord_type Run_init LEFT_HANDED) 42)
             [["comment"]] /\
  ReadFile Q int_literal float_literal Run_init
           [["info"; "framecount"; "4x"]] =
    (set_coord_type Run_init LEFT_HANDED, Some (ValueError TInt "4x")).
Proof.
  split.
  - apply (info_framecount_row Q int_literal float_literal Run_init
                               "Info" "FrameCount" "42" [] [["comment"]]);
      reflexivity.
  - apply (info_framecount_row Q int_literal float_literal Run_init
                               "info" "framecount" "4x" [] []);
      reflexivity.
Defined.

Lemma info_other_key_row_witness :
  dispatch Q int_literal float_literal Run_init
           ["info"; "version"; "not a number"] [] =
  (set_coord_type Run_init LEFT_HANDED, [], None).
Proof.
  apply (info_other_key_row Q int_literal float_literal Run_init
                            "info" "version" ["not a number"] []).
  - reflexivity.
  - discriminate.
  - discriminate.
Defined.

Lemma trackablecount_not_positive_witness :
  dispatch Q int_literal float_literal Run_init
           ["info"; "trackablecount"; "-2"] [trackable_row] =
  (set_trackablecount (set_coord_type Run_init LEFT_HANDED) (-2),
   [trackable_row], None).
Proof.
  apply (trackablecount_not_positive Q int_literal float_literal Run_init
                                     "info" "trackablecount" "-2" [] (-2)
                                     [trackable_row]).
  - reflexivity.
  - reflexivity.
  - reflexivity.
  - lia.
Defined.

Lemma trackablecount_file_ends_early_witness :
  exists t,
    Trackable_init Q int_literal float_literal trackable_row = OK t /\
    ReadFile Q int_literal float_literal Run_init
             [["info"; "trackablecount"; "3"]; trackable_row] =
    (mkRun [t] [] [] LEFT_HANDED 0 3, None).
Proof.
  eexists. split; [vm_compute; reflexivity|].
  apply (trackablecount_file_ends_early
           Q int_literal float_literal Run_init
           "info" "trackablecount" "3" [] 3 [trackable_row]).
  - reflexivity.
  - reflexivity.
  - reflexivity.
  - simpl. lia.
  - repeat constructor.
Defined.

Lemma trackablecount_bad_row_witness :
  exists t,
    Trackable_init Q int_literal float_literal trackable_row = OK t /\
    ReadFile Q int_literal float_literal Run_init
             (["info"; "trackablecount"; "2"]
                :: [trackable_row] ++ ["trackable"; "probe"; "x"]
                :: [["comment"]]) =
    (mkRun [t] [] [] LEFT_HANDED 0 2, Some (ValueError TInt "x")).
Proof.
  eexists. split; [vm_compute; reflexivity|].
  apply (trackablecount_bad_row
           Q int_literal float_literal Run_init
           "info" "trackablecount" "2" [] 2 [trackable_row]).
  - reflexivity.
  - reflexivity.
  - reflexivity.
  - simpl. lia.
  - repeat constructor.
  - reflexivity.
Defined.

Lemma unknown_tag_row_witness :
  dispatch Q int_literal float_literal Run_init ["LeftHanded"] [] =
  (set_coord_type Run_init LEFT_HANDED, [], None).
Proof.
  apply (unknown_tag_row Q int_literal float_literal Run_init
                         "LeftHanded" [] []); discriminate.
Defined.

Lemma frame_row_dispatched_witness :
  exists f,
    Frame_init Q int_literal float_literal frame_row = OK f /\
    ReadFile Q int_literal float_literal Run_init [frame_row] =
      (mkRun [] [f] [] LEFT_HANDED 0 0, None) /\
    ReadFile Q int_literal float_literal Run_init [["Frame"; "1"]] =
      (set_coord_type Run_init LEFT_HANDED, Some IndexError).
Proof.
  eexists. split; [vm_compute; reflexivity|]. split.
  - etransitivity.
    + apply (frame_row_dispatched Q int_literal float_literal Run_init
                                  "frame" (tl frame_row) []).
      reflexivity.
    + vm_compute. reflexivity.
  - apply (frame_row_dispatched Q int_literal float_literal Run_init
                                "Frame" ["1"] []).
    reflexivity.
Defined.

Lemma trackable_row_dispatched_witness :
  exists tf,
    TrackableFrame_init Q int_literal float_literal trackable_frame_row =
      OK tf /\
    ReadFile Q int_literal float_literal Run_init [trackable_frame_row] =
      (mkRun [] [] [tf] LEFT_HANDED 0 0, None) /\
    ReadFile Q int_literal float_literal Run_init [trackable_row] =
      (set_coord_type Run_init LEFT_HANDED, Some (ValueError TInt "wand")).
Proof.
  eexists. split; [vm_compute; reflexivity|]. split.
  - etransitivity.
    + apply (trackable_row_dispatched Q int_literal float_literal Run_init
                                      "trackable" (tl trackable_frame_row)
                                      []).
      reflexivity.
    + vm_compute. reflexivity.
  - apply (trackable_row_dispatched Q int_literal float_literal Run_init
                                    "Trackable" (tl trackable_row) []).
    reflexivity.
Defined.

Lemma short_row_IndexError_witness :
  ReadFile Q int_literal float_literal Run_init ([] :: [frame_row]) =
    (Run_init, Some IndexError) /\
  ReadFile Q int_literal float_literal Run_init (["Info"] :: [frame_row]) =
    (set_coord_type Run_init LEFT_HANDED, Some IndexError) /\
  ReadFile Q int_literal float_literal Run_init
           (["Info"; "FrameCount"] :: [frame_row]) =
    (set_coord_type Run_init LEFT_HANDED, Some IndexError).
Proof.
  apply (short_row_IndexError Q int_literal float_literal Run_init
                              "Info" "FrameCount").
  - reflexivity.
  - left. reflexivity.
Defined.

Lemma ReadFile_error_stops_reading_witness :
  ReadFile Q int_literal float_literal Run_init
           ([["frame"; "x"]] ++ [frame_row]) =
  (set_coord_type Run_init LEFT_HANDED, Some (ValueError TInt "x")).
Proof.
  apply (ReadFile_error_stops_reading Q int_literal float_literal).
  vm_compute. reflexivity.
Defined.

Lemma left_handed_unless_declared_witness :
  coord_type
    (fst (ReadFile Q int_literal float_literal Run_init
                   (["info"; "framecount"; "1"]
                      :: [["comment"]; frame_row; ["frame"; "x"]]))) =
  LEFT_HANDED.
Proof.
  apply (left_handed_unless_declared Q int_literal float_literal).
  - discriminate.
  - discriminate.
  - reflexivity.
Defined.

Lemma Trackable_markers_match_count_witness :
  exists t,
    Trackable_init Q int_literal float_literal
                   ["trackable"; "probe"; "4"; "-3"] = OK t /\
    t_num_markers t = -3 /\
    List.length (t_markers t) = 0%nat.
Proof.
  eexists. split; [vm_compute; reflexivity|]. split; [reflexivity|].
  apply (Trackable_markers_match_count
           Q int_literal float_literal ["trackable"; "probe"; "4"; "-3"]).
  vm_compute. reflexivity.
Defined.

Lemma Frame_lists_match_counts_witness :
  exists f,
    Frame_init Q int_literal float_literal frame_row = OK f /\
    List.length (f_trackable_states f) = 1%nat /\
    List.length (f_markers f) = 2%nat.
Proof.
  eexists. split; [vm_compute; reflexivity|].
  match goal with
  | |- List.length (f_trackable_states ?f) = _ /\ _ =>
    destruct (Frame_lists_match_counts Q int_literal float_literal
                                       frame_row f)
      as (_ & _ & Hs & Hm & _)
  end.
  - vm_compute. reflexivity.
  - split; [exact Hs|exact Hm].
Defined.

Lemma TrackableFrame_lists_match_count_witness :
  exists tf,
    TrackableFrame_init Q int_literal float_literal trackable_frame_row =
      OK tf /\
    List.length (tf_markers tf) = 2%nat /\
    List.length (tf_ptcld_markers tf) = 2%nat.
Proof.
  eexists. split; [vm_compute; reflexivity|].
  match goal with
  | |- List.length (tf_markers ?tf) = _ /\ _ =>
    destruct (TrackableFrame_lists_match_count
                Q int_literal float_literal trackable_frame_row tf)
      as (_ & Hm & Hp & _)
  end.
  - vm_compute. reflexivity.
  - split; [exact Hm|exact Hp].
Defined.

Lemma TrackableFrame_count_not_positive_witness :
  TrackableFrame_init Q int_literal float_literal
                      ["1.5"; "10"; "0.25"; "wand"; "3"; "9"; "-7"] =
    OK (mkTrackableFrame Q 10 (1 # 4) "wand" 3 9 (-7) [] [] (3 # 2)) /\
  float_at Q float_literal
           ["1.5"; "10"; "0.25"; "wand"; "3"; "9"; "-7"] (7 + 2 * -7) =
    float_at Q float_literal
             ["1.5"; "10"; "0.25"; "wand"; "3"; "9"; "-7"] 0.
Proof.
  destruct (TrackableFrame_count_not_positive
              Q int_literal float_literal
              ["1.5"; "10"; "0.25"; "wand"; "3"; "9"; "-7"] (-7))
    as [Hinit Hneg].
  - reflexivity.
  - lia.
  - split.
    + rewrite Hinit. vm_compute. reflexivity.
    + apply Hneg; simpl; lia.
Defined.

Lemma Frame_ignores_trailing_fields_witness :
  exists f,
    Frame_init Q int_literal float_literal frame_row = OK f /\
    Frame_init Q int_literal float_literal (frame_row ++ ["junk"; "9"]) =
      OK f.
Proof.
  eexists. split; [vm_compute; reflexivity|].
  apply (Frame_ignores_trailing_fields Q int_literal float_literal
                                       frame_row).
  - vm_compute. reflexivity.
  - simpl. lia.
  - simpl. lia.
  - reflexivity.
Defined.

Lemma TrackableFrame_ignores_trailing_fields_witness :
  exists tf,
    TrackableFrame_init Q int_literal float_literal trackable_frame_row =
      OK tf /\
    TrackableFrame_init Q int_literal float_literal
                        (trackable_frame_row ++ ["junk"]) = OK tf.
Proof.
  eexists. split; [vm_compute; reflexivity|].
  apply (TrackableFrame_ignores_trailing_fields
           Q int_literal float_literal trackable_frame_row).
  - vm_compute. reflexivity.
  - simpl. lia.
  - reflexivity.
Defined.

Lemma dispatch_case_insensitive_witness :
  dispatch Q int_literal float_literal Run_init
           ("FRAME" :: tl frame_row) [] =
  dispatch Q int_literal float_literal Run_init
           ("frame" :: tl frame_row) [].
Proof.
  apply (dispatch_case_insensitive Q int_literal float_literal).
  - reflexivity.
  - discriminate.
Defined.

Lemma TrackableState_reads_11_fields_witness :
  exists st,
    TrackableState_init Q int_literal float_literal
      ["3"; "0.5"; "1.5"; "2.5"; "0"; "0"; "0"; "1"; "10"; "20"; "30"] =
      OK st /\
    TrackableState_init Q int_literal float_literal
      ["3"; "0.5"; "1.5"; "2.5"; "0"; "0"; "0"; "1"; "10"; "20"; "30";
       "more"] = OK st.
Proof.
  eexists. split; [vm_compute; reflexivity|].
  apply (TrackableState_reads_11_fields
           Q int_literal float_literal
           ["3"; "0.5"; "1.5"; "2.5"; "0"; "0"; "0"; "1"; "10"; "20"; "30"]).
  - vm_compute. reflexivity.
  - reflexivity.
Defined.

Lemma Position_toArray_of_fields_witness :
  exists p,
    Position_init Q float_literal ["1.5"; "2.5"; "3.5"; "ignored"] = OK p /\
    Position_toArray Q p = [3 # 2; 5 # 2; 7 # 2].
Proof.
  exists (mkPosition Q (3 # 2) (5 # 2) (7 # 2)).
  split; [|reflexivity].
  apply (Position_toArray_of_fields Q float_literal).
  exists "1.5", "2.5", "3.5", ["ignored"]. split; reflexivity.
Defined.
